(** * EBIOS Risk Manager calculator: a shallow embedding of the computation engine

    The development follows the Python modules of the repository:
    [modules/risk_calculator.py] and [modules/workshop1.py] ..
    [modules/workshop5.py].  Each Python class becomes a Rocq module that keeps
    the source's names.

    Modelling conventions.
    - Python [int] is [Z].
    - Python [float]: the efficacy of a treatment measure of Workshop 5 and
      what [calculate_risque_residuel] computes from it are IEEE 754
      binary64 numbers ([Py.float]), every operation rounded as the
      processor rounds it, because the residual score stored depends on
      these roundings.  Elsewhere a float is modelled by an exact rational
      [Q]; the properties stated there are bounds, orders and structure.
    - The built-in [round] is round-half-to-even ([Py.round] on rationals,
      [Py.float_round] on floats).
    - A method that reads and mutates [self.assessment] is a function from the
      state to a result and the state left behind, so that a raised exception
      still shows what was mutated before it.
    - Each evaluation of [datetime.now()] is an explicit argument (a clock
      reading in microseconds), one argument per evaluation;  [isoformat] is
      injective and the reading itself is kept.
    - Dictionaries with a fixed set of keys are records; lists of dictionaries
      are lists of records, searched with [list_find] as
      [next((x for x in l if p(x)), None)] does and updated at the position
      found, since Python mutates the found dictionary in place. *)

From Stdlib Require Import ZArith QArith Qround Qminmax Lia Lqa.
From Stdlib Require Floats.SpecFloat.
From stdpp Require Import base list strings pretty sorting.

Open Scope Z_scope.

(** ** Python runtime: exceptions, indexing, rounding *)

Module Py.

Inductive exn : Type :=
| ValueError (msg : string)
| IndexError
| KeyError
| ZeroDivisionError
| OverflowError.

Inductive result (A : Type) : Type :=
| Ok (a : A)
| Raise (e : exn).
Arguments Ok {A} a.
Arguments Raise {A} e.

(** A method of a workshop: from the state before the call to what the call
    returns or raises, and the state it leaves. *)
Definition M (S A : Type) : Type := S -> result A * S.

(** [l[i]] on a Python list (and on a numpy array): a negative index counts
    from the end, anything else out of range raises [IndexError]. *)
Definition index {A} (l : list A) (i : Z) : result A :=
  let n := Z.of_nat (length l) in
  let j := if i <? 0 then i + n else i in
  if (0 <=? j) && (j <? n) then
    match l !! Z.to_nat j with
    | Some x => Ok x
    | None => Raise IndexError
    end
  else Raise IndexError.

(** [d[k]] on a dictionary with integer keys, given as an association list. *)
Fixpoint dict_get {V} (d : list (Z * V)) (k : Z) : result V :=
  match d with
  | [] => Raise KeyError
  | (k', v) :: d' => if k' =? k then Ok v else dict_get d' k
  end.

(** [round(x)]: the nearest integer, a tie going to the even neighbour. *)
Definition round (x : Q) : Z :=
  let f := Qfloor x in
  match Qcompare (x - inject_Z f) (1 # 2) with
  | Lt => f
  | Gt => f + 1
  | Eq => if Z.even f then f else f + 1
  end.

(** [round(x, n)] for a float [x] and [n] decimals, here for [n = 1, 2]. *)
Definition round_nd (x : Q) (n : nat) : Q :=
  inject_Z (round (x * inject_Z (10 ^ Z.of_nat n))) / inject_Z (10 ^ Z.of_nat n).

(** [sum(...)] over floats. *)
Definition sumQ (l : list Q) : Q := foldr Qplus 0%Q l.

(** [sum(...)] over integers. *)
Definition sumZ (l : list Z) : Z := foldr Z.add 0 l.

(** [l.sort(key=key, reverse=True)].  Python's sort is stable, also with
    [reverse=True]: elements with equal keys keep their order.  Every stable
    sort returns the same list, so the model is a stable insertion sort:
    an element coming from the left stops in front of the first element whose
    key is not greater than its own. *)
Fixpoint insert_desc {A} (key : A -> Z) (x : A) (l : list A) : list A :=
  match l with
  | [] => [x]
  | y :: l' => if key y <=? key x then x :: y :: l' else y :: insert_desc key x l'
  end.

Definition sort_desc {A} (key : A -> Z) (l : list A) : list A :=
  foldr (insert_desc key) [] l.

(** [x in l] for a list of strings. *)
Definition mem (x : string) (l : list string) : bool := bool_decide (x ∈ l).

(** [l[:n]]: the first [n] elements, or all but the last [-n] when [n] is
    negative. *)
Definition slice_to {A} (l : list A) (n : Z) : list A :=
  if n <? 0 then take (Z.to_nat (Z.of_nat (length l) + n)) l
  else take (Z.to_nat n) l.

(** [d[k] += 1] on a dictionary with integer keys: [KeyError] when the key
    is absent. *)
Fixpoint dict_incr (d : list (Z * Z)) (k : Z) : result (list (Z * Z)) :=
  match d with
  | [] => Raise KeyError
  | (k', v) :: d' =>
    if k' =? k then Ok ((k', v + 1) :: d')
    else match dict_incr d' k with
         | Ok d'' => Ok ((k', v) :: d'')
         | Raise e => Raise e
         end
  end.

(** The text of a non-negative float that [round(x, 1)] returned, as an
    f-string prints it: integer part, a point, one decimal. *)
Definition str_1dec (x : Q) : string :=
  let k := Qfloor (x * 10) in
  pretty (k / 10) +:+ "." +:+ pretty (k mod 10).

(** *** Floats

    A Python float is an IEEE 754 binary64 number: a [spec_float] with 53
    bits of precision and exponents below 1024, in its canonical form
    ([SpecFloat.valid_binary]).  The literals below and the results of the
    operations are canonical. *)

Definition float : Type := SpecFloat.spec_float.
Definition prec : Z := 53.
Definition emax : Z := 1024.

(** The decimal literal [k * 10^(-n)], as the parser reads it: the nearest
    float.  [float_dec 95 2] is [0.95] and [float_dec 0 1] is [0.0]. *)
Definition float_dec (k : Z) (n : nat) : float :=
  match k with
  | Z0 => SpecFloat.S754_zero false
  | Zpos p =>
    SpecFloat.SFdiv prec emax (SpecFloat.S754_finite false p 0)
                    (SpecFloat.S754_finite false (Z.to_pos (10 ^ Z.of_nat n)) 0)
  | Zneg p =>
    SpecFloat.SFdiv prec emax (SpecFloat.S754_finite true p 0)
                    (SpecFloat.S754_finite false (Z.to_pos (10 ^ Z.of_nat n)) 0)
  end.

(** The conversion of an int operand of a float operation: the nearest
    float, [OverflowError] when the int is too large. *)
Definition float_of_int (z : Z) : result float :=
  match SpecFloat.binary_normalize prec emax z 0 false with
  | SpecFloat.S754_infinity _ => Raise OverflowError
  | x => Ok x
  end.

Definition float_add : float -> float -> float := SpecFloat.SFadd prec emax.
Definition float_sub : float -> float -> float := SpecFloat.SFsub prec emax.
Definition float_mul : float -> float -> float := SpecFloat.SFmul prec emax.

(** [x / y]: [ZeroDivisionError] on a zero divisor. *)
Definition float_div (x y : float) : result float :=
  match y with
  | SpecFloat.S754_zero _ => Raise ZeroDivisionError
  | _ => Ok (SpecFloat.SFdiv prec emax x y)
  end.

(** [x < y] and [x <= y]; both are false when an operand is not a number. *)
Definition float_lt : float -> float -> bool := SpecFloat.SFltb.
Definition float_le : float -> float -> bool := SpecFloat.SFleb.

(** [min(a, b)]: [b] when [b < a], otherwise [a]. *)
Definition float_min (a b : float) : float := if float_lt b a then b else a.

(** [sum(...)] over floats: the additions from left to right, starting
    from the int 0, each rounded (as CPython performs them up to version
    3.11; later versions carry a compensation term). *)
Definition float_sum (l : list float) : float :=
  foldl float_add (SpecFloat.S754_zero false) l.

(** The number a finite float stands for. *)
Definition float_value (s : bool) (m : positive) (e : Z) : Q :=
  let z := if s then Zneg m else Zpos m in
  match e with
  | Z0 => inject_Z z
  | Zpos p => inject_Z (z * 2 ^ Zpos p)
  | Zneg p => z # (2 ^ p)
  end.

(** [round(x)] on a float: the nearest integer of the number it stands for,
    a tie going to the even one; an error when [x] is not finite. *)
Definition float_round (x : float) : result Z :=
  match x with
  | SpecFloat.S754_zero _ => Ok 0
  | SpecFloat.S754_finite s m e => Ok (round (float_value s m e))
  | SpecFloat.S754_infinity _ => Raise OverflowError
  | SpecFloat.S754_nan => Raise (ValueError "cannot convert float NaN to integer")
  end.

(** [round(x, n)] on a float, for [n >= 0]: the number [x] stands for is
    rounded to [n] decimals, a tie going to the even one, and the float
    nearest to that decimal is returned; zeros, infinities and NaN are
    returned as they are. *)
Definition float_round_nd (x : float) (n : nat) : float :=
  match x with
  | SpecFloat.S754_finite s m e =>
    match round (float_value s m e * inject_Z (10 ^ Z.of_nat n)) with
    | Z0 => SpecFloat.S754_zero s
    | Zpos p =>
      SpecFloat.SFdiv prec emax (SpecFloat.S754_finite false p 0)
                      (SpecFloat.S754_finite false (Z.to_pos (10 ^ Z.of_nat n)) 0)
    | Zneg p =>
      SpecFloat.SFdiv prec emax (SpecFloat.S754_finite true p 0)
                      (SpecFloat.S754_finite false (Z.to_pos (10 ^ Z.of_nat n)) 0)
    end
  | _ => x
  end.

End Py.

Import Py.

(** The clock: [datetime.now()] in microseconds. *)
Definition datetime : Type := Z.
Definition timedelta_days (d : Z) : Z := d * 86400000000.

(** ** modules/risk_calculator.py *)

Module RiskCalculator.

Definition RISK_MATRIX : list (list Z) :=
  [ [1; 1; 2; 2];
    [1; 2; 2; 3];
    [2; 2; 3; 4];
    [2; 3; 4; 4] ].

Definition levels : list (Z * string) :=
  [ (1, "Faible"); (2, "Acceptable"); (3, "Modéré"); (4, "Critique") ]%string.

Definition calculate_risk_level (gravite vraisemblance : Z) : result (Z * string) :=
  if negb ((1 <=? gravite) && (gravite <=? 4) &&
           (1 <=? vraisemblance) && (vraisemblance <=? 4)) then
    Raise (ValueError "Gravité et vraisemblance doivent être entre 1 et 4")
  else
    match Py.index RISK_MATRIX (gravite - 1) with
    | Raise e => Raise e
    | Ok row =>
      match Py.index row (vraisemblance - 1) with
      | Raise e => Raise e
      | Ok score =>
        match Py.dict_get levels score with
        | Raise e => Raise e
        | Ok niveau => Ok (score, niveau)
        end
      end
    end.

Definition calculate_residual_risk (risque_initial : Z) (efficacite_mesures : Q)
  : result (Z * string * Q) :=
  if negb (Qle_bool 0 efficacite_mesures && Qle_bool efficacite_mesures 1) then
    Raise (ValueError "L'efficacité doit être entre 0.0 et 1.0")
  else if negb ((1 <=? risque_initial) && (risque_initial <=? 4)) then
    Raise (ValueError "Le risque initial doit être entre 1 et 4")
  else
    let reduction := (inject_Z risque_initial * efficacite_mesures)%Q in
    let risque_residuel := Z.max 1 (Py.round (inject_Z risque_initial - reduction)) in
    let reduction_pct := (reduction / inject_Z risque_initial * 100)%Q in
    match Py.dict_get levels risque_residuel with
    | Raise e => Raise e
    | Ok niveau => Ok (risque_residuel, niveau, Py.round_nd reduction_pct 1)
    end.

(** The dictionary returned by [calculate_risk_score_extended]. *)
Record ScoreEtendu := {
  se_score : Z;
  se_niveau : string;
  se_gravite : Z;
  se_vraisemblance : Z;
  se_priorite : Z;
  se_action_recommandee : string;
  se_delai_recommande : string
}.

Definition calculate_risk_score_extended (gravite vraisemblance : Z) : result ScoreEtendu :=
  match calculate_risk_level gravite vraisemblance with
  | Raise e => Raise e
  | Ok (score, niveau) =>
    let '(priorite, action, delai) :=
      if score =? 4 then (0, "Traiter immédiatement", "< 1 mois")
      else if score =? 3 then (1, "Traiter en priorité", "< 3 mois")
      else if score =? 2 then (2, "Surveiller et planifier", "< 6 mois")
      else (3, "Acceptation possible", "< 12 mois ou accepter") in
    Ok {| se_score := score;
          se_niveau := niveau;
          se_gravite := gravite;
          se_vraisemblance := vraisemblance;
          se_priorite := priorite;
          se_action_recommandee := action;
          se_delai_recommande := delai |}
  end.

(** A risk given to [compare_scenarios]: the keys ['nom'], ['gravite'] and
    ['vraisemblance']. *)
Record ScenarioRisque := {
  sc_nom : string;
  sc_gravite : Z;
  sc_vraisemblance : Z
}.

Record Comparaison := {
  cmp_scenario1 : string * Z * string;
  cmp_scenario2 : string * Z * string;
  cmp_plus_critique : string;
  cmp_difference : Z
}.

Definition compare_scenarios (scenario1 scenario2 : ScenarioRisque) : result Comparaison :=
  match calculate_risk_level (sc_gravite scenario1) (sc_vraisemblance scenario1) with
  | Raise e => Raise e
  | Ok (score1, niveau1) =>
    match calculate_risk_level (sc_gravite scenario2) (sc_vraisemblance scenario2) with
    | Raise e => Raise e
    | Ok (score2, niveau2) =>
      let '(plus_critique, difference) :=
        if score2 <? score1 then (sc_nom scenario1, score1 - score2)
        else if score1 <? score2 then (sc_nom scenario2, score2 - score1)
        else ("Équivalents", 0) in
      Ok {| cmp_scenario1 := (sc_nom scenario1, score1, niveau1);
            cmp_scenario2 := (sc_nom scenario2, score2, niveau2);
            cmp_plus_critique := plus_critique;
            cmp_difference := difference |}
    end
  end.

(** A risk given to [calculate_composite_risk]; the key ['poids'] is
    optional and read with [r.get('poids', 1)]. *)
Record RisqueLie := {
  rl_gravite : Z;
  rl_vraisemblance : Z;
  rl_poids : option Q
}.

Definition poids_of (r : RisqueLie) : Q := default 1%Q (rl_poids r).

(** The loop of [calculate_composite_risk]: each turn looks the score up,
    which may raise, then divides by the total weight, which raises when
    that total is 0. *)
Fixpoint composite_loop (total_poids : Q) (risques : list RisqueLie) (score_composite : Q)
  : result Q :=
  match risques with
  | [] => Ok score_composite
  | risque :: rest =>
    match calculate_risk_level (rl_gravite risque) (rl_vraisemblance risque) with
    | Raise e => Raise e
    | Ok (score, _) =>
      if Qeq_bool total_poids 0 then Raise ZeroDivisionError
      else composite_loop total_poids rest
             (score_composite + inject_Z score * (poids_of risque / total_poids))%Q
    end
  end.

(** The two shapes of the dictionary [calculate_composite_risk] returns: for
    no risk, the keys ['score'] and ['niveau']; otherwise
    ['score_composite'], ['niveau_composite'] and ['nb_risques_lies']. *)
Inductive Composite : Type :=
| CompositeVide (score : Z) (niveau : string)
| CompositeCalcule (score_composite : Z) (niveau_composite : string) (nb_risques_lies : nat).

Definition calculate_composite_risk (risques_lies : list RisqueLie) : result Composite :=
  match risques_lies with
  | [] => Ok (CompositeVide 0 "Aucun")
  | _ :: _ =>
    let total_poids := Py.sumQ (poids_of <$> risques_lies) in
    match composite_loop total_poids risques_lies 0 with
    | Raise e => Raise e
    | Ok somme =>
      let score_composite := Py.round somme in
      let niveau_composite :=
        match Py.dict_get levels score_composite with
        | Ok niveau => niveau
        | Raise _ => "Indéterminé"
        end in
      Ok (CompositeCalcule score_composite niveau_composite (length risques_lies))
    end
  end.

(** A risk given to [calculate_global_risk_exposure]: the keys ['gravite']
    and ['vraisemblance']. *)
Record RisqueGV := {
  gv_gravite : Z;
  gv_vraisemblance : Z
}.

(** The counters [{'Critique': 0, 'Modéré': 0, 'Acceptable': 0, 'Faible': 0}]. *)
Record Repartition := {
  rep_critique : Z;
  rep_modere : Z;
  rep_acceptable : Z;
  rep_faible : Z
}.

(** [repartition[niveau] += 1] *)
Definition repartition_incr (rep : Repartition) (niveau : string) : result Repartition :=
  if String.eqb niveau "Critique" then
    Ok {| rep_critique := rep_critique rep + 1; rep_modere := rep_modere rep;
          rep_acceptable := rep_acceptable rep; rep_faible := rep_faible rep |}
  else if String.eqb niveau "Modéré" then
    Ok {| rep_critique := rep_critique rep; rep_modere := rep_modere rep + 1;
          rep_acceptable := rep_acceptable rep; rep_faible := rep_faible rep |}
  else if String.eqb niveau "Acceptable" then
    Ok {| rep_critique := rep_critique rep; rep_modere := rep_modere rep;
          rep_acceptable := rep_acceptable rep + 1; rep_faible := rep_faible rep |}
  else if String.eqb niveau "Faible" then
    Ok {| rep_critique := rep_critique rep; rep_modere := rep_modere rep;
          rep_acceptable := rep_acceptable rep; rep_faible := rep_faible rep + 1 |}
  else Raise KeyError.

Fixpoint exposure_loop (risks : list RisqueGV) (total_score : Z) (repartition : Repartition)
  : result (Z * Repartition) :=
  match risks with
  | [] => Ok (total_score, repartition)
  | risk :: rest =>
    match calculate_risk_level (gv_gravite risk) (gv_vraisemblance risk) with
    | Raise e => Raise e
    | Ok (score, niveau) =>
      match repartition_incr repartition niveau with
      | Raise e => Raise e
      | Ok repartition' => exposure_loop rest (total_score + score) repartition'
      end
    end
  end.

(** The dictionary returned by [calculate_global_risk_exposure]; with no
    risk ['repartition'] is the empty dictionary ([None]) and the key
    ['score_total'] is absent. *)
Record Exposition := {
  ex_exposition_globale : Q;
  ex_niveau : string;
  ex_nb_risques_total : nat;
  ex_repartition : option Repartition;
  ex_risques_critiques_pct : Q;
  ex_score_total : option Z
}.

Definition calculate_global_risk_exposure (risks : list RisqueGV) : result Exposition :=
  match risks with
  | [] =>
    Ok {| ex_exposition_globale := 0; ex_niveau := "Aucun"; ex_nb_risques_total := 0;
          ex_repartition := None; ex_risques_critiques_pct := 0; ex_score_total := None |}
  | _ :: _ =>
    match exposure_loop risks 0 {| rep_critique := 0; rep_modere := 0;
                                   rep_acceptable := 0; rep_faible := 0 |} with
    | Raise e => Raise e
    | Ok (total_score, repartition) =>
      let n := inject_Z (Z.of_nat (length risks)) in
      let exposition_moyenne := Py.round_nd (inject_Z total_score / n) 2 in
      let niveau_global :=
        if Qle_bool (7 # 2) exposition_moyenne then "Critique"
        else if Qle_bool (5 # 2) exposition_moyenne then "Élevé"
        else if Qle_bool (3 # 2) exposition_moyenne then "Modéré"
        else "Faible" in
      Ok {| ex_exposition_globale := exposition_moyenne;
            ex_niveau := niveau_global;
            ex_nb_risques_total := length risks;
            ex_repartition := Some repartition;
            ex_risques_critiques_pct :=
              Py.round_nd (inject_Z (rep_critique repartition) / n * 100) 1;
            ex_score_total := Some total_score |}
    end
  end.

End RiskCalculator.

(** ** modules/workshop1.py *)

Module Workshop1.

Record Mission := {
  mi_id : string;
  mi_nom : string;
  mi_description : string;
  mi_criticite : Z
}.

Record ValeurMetier := {
  vm_id : string;
  vm_nom : string;
  vm_type : string;
  vm_sensibilite : list (string * Z);
  vm_niveau_max : Z
}.

Record EvenementRedoute := {
  er_id : string;
  er_nom : string;
  er_description : string;
  er_gravite : Z;
  er_biens_impactes : list string
}.

(** [self.study]; [metadata] and [biens_supports] carry no rating and are
    left out. *)
Record Study := {
  missions : list Mission;
  valeurs_metier : list ValeurMetier;
  evenements_redoutes : list EvenementRedoute;
  socle_securite : list (string * Q)
}.

Definition init : Study :=
  {| missions := []; valeurs_metier := []; evenements_redoutes := [];
     socle_securite := [] |}.

Definition add_mission (nom description : string) (criticite : Z) : M Study bool :=
  fun st =>
  if negb ((1 <=? criticite) && (criticite <=? 4)) then
    (Raise (ValueError "La criticité doit être entre 1 et 4"), st)
  else
    let mission := {|
      mi_id := "M" +:+ pretty (length (missions st) + 1)%nat;
      mi_nom := nom;
      mi_description := description;
      mi_criticite := criticite |} in
    (Ok true,
     {| missions := missions st ++ [mission];
        valeurs_metier := valeurs_metier st;
        evenements_redoutes := evenements_redoutes st;
        socle_securite := socle_securite st |}).

(** [sensibilite[cle]] on a dictionary given as an association list with
    distinct keys. *)
Fixpoint dict_lookup {V} (d : list (string * V)) (k : string) : option V :=
  match d with
  | [] => None
  | (k', v) :: d' => if String.eqb k' k then Some v else dict_lookup d' k
  end.

(** The loop over ['D', 'I', 'C', 'T']: the first missing or out-of-range key
    raises. *)
Fixpoint check_sensibilite (sensibilite : list (string * Z)) (cles : list string)
  : result unit :=
  match cles with
  | [] => Ok tt
  | cle :: cles' =>
    match dict_lookup sensibilite cle with
    | None => Raise (ValueError ("La clé " +:+ cle +:+ " est manquante dans la sensibilité"))
    | Some v =>
      if negb ((1 <=? v) && (v <=? 4)) then
        Raise (ValueError ("La sensibilité " +:+ cle +:+ " doit être entre 1 et 4"))
      else check_sensibilite sensibilite cles'
    end
  end.

(** [max(sensibilite.values())] on a dictionary that holds at least one key. *)
Definition max_values (d : list (string * Z)) : Z :=
  match d with
  | [] => 0
  | (_, v) :: d' => foldr Z.max v (d'.*2)
  end.

Definition add_valeur_metier (nom type_valeur : string)
    (sensibilite : list (string * Z)) : M Study bool :=
  fun st =>
  match check_sensibilite sensibilite ["D"; "I"; "C"; "T"] with
  | Raise e => (Raise e, st)
  | Ok _ =>
    let valeur := {|
      vm_id := "VM" +:+ pretty (length (valeurs_metier st) + 1)%nat;
      vm_nom := nom;
      vm_type := type_valeur;
      vm_sensibilite := sensibilite;
      vm_niveau_max := max_values sensibilite |} in
    (Ok true,
     {| missions := missions st;
        valeurs_metier := valeurs_metier st ++ [valeur];
        evenements_redoutes := evenements_redoutes st;
        socle_securite := socle_securite st |})
  end.

Definition add_evenement_redoute (nom description : string) (gravite : Z)
    (biens_impactes : list string) : M Study bool :=
  fun st =>
  if negb ((1 <=? gravite) && (gravite <=? 4)) then
    (Raise (ValueError "La gravité doit être entre 1 et 4"), st)
  else
    let evenement := {|
      er_id := "ER" +:+ pretty (length (evenements_redoutes st) + 1)%nat;
      er_nom := nom;
      er_description := description;
      er_gravite := gravite;
      er_biens_impactes := biens_impactes |} in
    (Ok true,
     {| missions := missions st;
        valeurs_metier := valeurs_metier st;
        evenements_redoutes := evenements_redoutes st ++ [evenement];
        socle_securite := socle_securite st |}).

(** [d[k] = v]: overwrite the key in place, or add it at the end. *)
Fixpoint dict_set {V} (d : list (string * V)) (k : string) (v : V) : list (string * V) :=
  match d with
  | [] => [(k, v)]
  | (k', v') :: d' =>
    if String.eqb k' k then (k, v) :: d' else (k', v') :: dict_set d' k v
  end.

Definition evaluate_socle (domaine : string) (score : Q) : M Study bool :=
  fun st =>
  if negb (Qle_bool 0 score && Qle_bool score 100) then
    (Raise (ValueError "Le score doit être entre 0 et 100"), st)
  else
    (Ok true,
     {| missions := missions st;
        valeurs_metier := valeurs_metier st;
        evenements_redoutes := evenements_redoutes st;
        socle_securite := dict_set (socle_securite st) domaine score |}).

Record SocleStats := {
  taux_conformite : Q;
  domaines_critiques : nat;
  domaines_conformes : nat
}.

Definition get_socle_stats (st : Study) : SocleStats :=
  match socle_securite st with
  | [] => {| taux_conformite := 0; domaines_critiques := 0; domaines_conformes := 0 |}
  | _ :: _ =>
    let scores := (socle_securite st).*2 in
    let taux_moyen := (Py.sumQ scores / inject_Z (Z.of_nat (length scores)))%Q in
    {| taux_conformite := Py.round_nd taux_moyen 1;
       (* [s < 60] and [s >= 80] *)
       domaines_critiques := length (List.filter (fun s => negb (Qle_bool 60 s)) scores);
       domaines_conformes := length (List.filter (fun s => Qle_bool 80 s) scores) |}
  end.

End Workshop1.

(** ** modules/workshop2.py *)

Module Workshop2.

Record SourceRisque := {
  sr_id : string;
  sr_nom : string;
  sr_type : string;
  sr_ressources : Z;
  sr_determination : Z;
  sr_competences : Z;
  sr_capacite_globale : Q;
  sr_niveau : string
}.

Record ObjectifVise := {
  ov_id : string;
  ov_nom : string;
  ov_description : string;
  ov_impact_potentiel : Z
}.

Record Relation := {
  rel_sr_id : string;
  rel_ov_id : string;
  rel_pertinence : Z;
  rel_gravite_scenario : Z
}.

Record Scenario := {
  ss_id : string;
  ss_source_risque : string;
  ss_source_risque_type : string;
  ss_objectif_vise : string;
  ss_objectif_description : string;
  ss_gravite : Z;
  ss_niveau_risque : string;
  ss_pertinence : Z;
  ss_capacite_sr : Q;
  ss_impact_ov : Z
}.

Record Assessment := {
  sources_risque : list SourceRisque;
  objectifs_vises : list ObjectifVise;
  cartographie_sr_ov : list Relation;
  scenarios_strategiques : list Scenario
}.

Definition init : Assessment :=
  {| sources_risque := []; objectifs_vises := []; cartographie_sr_ov := [];
     scenarios_strategiques := [] |}.

Definition _get_capacite_level (capacite : Q) : string :=
  if Qle_bool capacite (3 # 2) then "Faible"
  else if Qle_bool capacite (5 # 2) then "Moyen"
  else if Qle_bool capacite (7 # 2) then "Fort"
  else "Très fort".

Definition add_source_risque (nom type_sr : string)
    (ressources determination competences : Z) : M Assessment SourceRisque :=
  fun st =>
  if negb (forallb (fun x => (1 <=? x) && (x <=? 4))
                   [ressources; determination; competences]) then
    (Raise (ValueError "Les niveaux doivent être entre 1 et 4"), st)
  else
    let capacite_globale :=
      Py.round_nd (inject_Z (ressources + determination + competences) / 3) 1 in
    let sr := {|
      sr_id := "SR" +:+ pretty (length (sources_risque st) + 1)%nat;
      sr_nom := nom;
      sr_type := type_sr;
      sr_ressources := ressources;
      sr_determination := determination;
      sr_competences := competences;
      sr_capacite_globale := capacite_globale;
      sr_niveau := _get_capacite_level capacite_globale |} in
    (Ok sr,
     {| sources_risque := sources_risque st ++ [sr];
        objectifs_vises := objectifs_vises st;
        cartographie_sr_ov := cartographie_sr_ov st;
        scenarios_strategiques := scenarios_strategiques st |}).

Definition add_objectif_vise (nom description : string) (impact_potentiel : Z)
  : M Assessment ObjectifVise :=
  fun st =>
  if negb ((1 <=? impact_potentiel) && (impact_potentiel <=? 4)) then
    (Raise (ValueError "L'impact potentiel doit être entre 1 et 4"), st)
  else
    let ov := {|
      ov_id := "OV" +:+ pretty (length (objectifs_vises st) + 1)%nat;
      ov_nom := nom;
      ov_description := description;
      ov_impact_potentiel := impact_potentiel |} in
    (Ok ov,
     {| sources_risque := sources_risque st;
        objectifs_vises := objectifs_vises st ++ [ov];
        cartographie_sr_ov := cartographie_sr_ov st;
        scenarios_strategiques := scenarios_strategiques st |}).

Definition _calculate_gravite (capacite_sr : Q) (impact_ov pertinence : Z) : Z :=
  let score := (capacite_sr * inject_Z pertinence * inject_Z impact_ov / 10)%Q in
  if Qle_bool score (3 # 2) then 1
  else if Qle_bool score (5 # 2) then 2
  else if Qle_bool score (7 # 2) then 3
  else 4.

(** [next((s for s in sources_risque if s['id'] == sr_id), None)] *)
Definition find_source (st : Assessment) (sr_id0 : string) : option SourceRisque :=
  snd <$> list_find (fun s => sr_id s = sr_id0) (sources_risque st).

Definition find_objectif (st : Assessment) (ov_id0 : string) : option ObjectifVise :=
  snd <$> list_find (fun o => ov_id o = ov_id0) (objectifs_vises st).

(** The method returns the relation created, or the empty dictionary [{}]
    when one of the two identifiers is unknown: [None] stands for [{}]. *)
Definition map_sr_to_ov (sr_id0 ov_id0 : string) (pertinence : Z)
  : M Assessment (option Relation) :=
  fun st =>
  if negb ((1 <=? pertinence) && (pertinence <=? 4)) then
    (Raise (ValueError "La pertinence doit être entre 1 et 4"), st)
  else
    match find_source st sr_id0, find_objectif st ov_id0 with
    | Some sr, Some ov =>
      let gravite_scenario :=
        _calculate_gravite (sr_capacite_globale sr) (ov_impact_potentiel ov) pertinence in
      let relation := {|
        rel_sr_id := sr_id0;
        rel_ov_id := ov_id0;
        rel_pertinence := pertinence;
        rel_gravite_scenario := gravite_scenario |} in
      (Ok (Some relation),
       {| sources_risque := sources_risque st;
          objectifs_vises := objectifs_vises st;
          cartographie_sr_ov := cartographie_sr_ov st ++ [relation];
          scenarios_strategiques := scenarios_strategiques st |})
    | _, _ => (Ok None, st)
    end.

Definition _get_risk_level (gravite : Z) : string :=
  match Py.dict_get [ (1, "Faible"); (2, "Modéré"); (3, "Élevé"); (4, "Critique") ]%string
                    gravite with
  | Ok niveau => niveau
  | Raise _ => "Indéterminé"
  end.

(** One turn of the loop over [cartographie_sr_ov]: [acc] is the scenario
    list built so far, whose length numbers the next scenario. *)
Definition generate_step (st : Assessment) (acc : list Scenario) (relation : Relation)
  : list Scenario :=
  match find_source st (rel_sr_id relation), find_objectif st (rel_ov_id relation) with
  | Some sr, Some ov =>
    acc ++ [ {|
      ss_id := "SS" +:+ pretty (length acc + 1)%nat;
      ss_source_risque := sr_nom sr;
      ss_source_risque_type := sr_type sr;
      ss_objectif_vise := ov_nom ov;
      ss_objectif_description := ov_description ov;
      ss_gravite := rel_gravite_scenario relation;
      ss_niveau_risque := _get_risk_level (rel_gravite_scenario relation);
      ss_pertinence := rel_pertinence relation;
      ss_capacite_sr := sr_capacite_globale sr;
      ss_impact_ov := ov_impact_potentiel ov |} ]
  | _, _ => acc
  end.

Definition generate_scenarios_strategiques : M Assessment (list Scenario) :=
  fun st =>
  let scenarios := foldl (generate_step st) [] (cartographie_sr_ov st) in
  let sorted := Py.sort_desc ss_gravite scenarios in
  (Ok sorted,
   {| sources_risque := sources_risque st;
      objectifs_vises := objectifs_vises st;
      cartographie_sr_ov := cartographie_sr_ov st;
      scenarios_strategiques := sorted |}).

(** [get_top_scenarios(n)]: the scenarios are generated first, but only
    when the stored list is empty. *)
Definition get_top_scenarios (n : Z) : M Assessment (list Scenario) :=
  fun st =>
  let st1 :=
    match scenarios_strategiques st with
    | [] => snd (generate_scenarios_strategiques st)
    | _ :: _ => st
    end in
  (Ok (Py.slice_to (scenarios_strategiques st1) n), st1).

Record Statistics := {
  nb_sources_risque : nat;
  nb_objectifs_vises : nat;
  nb_scenarios_strategiques : nat;
  repartition_gravite : list (Z * Z);
  scenarios_critiques : Z;
  scenarios_eleves : Z;
  scenarios_moderes : Z;
  scenarios_faibles : Z
}.

(** The loop [gravite_counts[scenario['gravite']] += 1]. *)
Fixpoint count_gravites (scenarios : list Scenario) (gravite_counts : list (Z * Z))
  : result (list (Z * Z)) :=
  match scenarios with
  | [] => Ok gravite_counts
  | scenario :: rest =>
    match Py.dict_incr gravite_counts (ss_gravite scenario) with
    | Raise e => Raise e
    | Ok gravite_counts' => count_gravites rest gravite_counts'
    end
  end.

Definition get_statistics : M Assessment Statistics :=
  fun st =>
  let st1 :=
    match scenarios_strategiques st with
    | [] => snd (generate_scenarios_strategiques st)
    | _ :: _ => st
    end in
  match count_gravites (scenarios_strategiques st1) [(1, 0); (2, 0); (3, 0); (4, 0)] with
  | Raise e => (Raise e, st1)
  | Ok gravite_counts =>
    match Py.dict_get gravite_counts 4, Py.dict_get gravite_counts 3,
          Py.dict_get gravite_counts 2, Py.dict_get gravite_counts 1 with
    | Ok c4, Ok c3, Ok c2, Ok c1 =>
      (Ok {| nb_sources_risque := length (sources_risque st1);
             nb_objectifs_vises := length (objectifs_vises st1);
             nb_scenarios_strategiques := length (scenarios_strategiques st1);
             repartition_gravite := gravite_counts;
             scenarios_critiques := c4;
             scenarios_eleves := c3;
             scenarios_moderes := c2;
             scenarios_faibles := c1 |}, st1)
    | _, _, _, _ => (Raise KeyError, st1)
    end
  end.

(** [_calculate_coverage_rate]: ['sources'] selects the risk sources, any
    other text the objectives; the set of covered identifiers is counted
    without repetition. *)
Definition _calculate_coverage_rate (type_entity : string) (st : Assessment) : Q :=
  let '(total, covered_ids) :=
    if String.eqb type_entity "sources"
    then (length (sources_risque st), remove_dups (rel_sr_id <$> cartographie_sr_ov st))
    else (length (objectifs_vises st), remove_dups (rel_ov_id <$> cartographie_sr_ov st)) in
  match total with
  | O => 0
  | S _ =>
    Py.round_nd (inject_Z (Z.of_nat (length covered_ids)) / inject_Z (Z.of_nat total) * 100) 1
  end.

Record Validation := {
  valid : bool;
  errors : list string;
  warnings : list string
}.

Definition validate_assessment (st : Assessment) : Validation :=
  let errors :=
    (if Nat.eqb (length (sources_risque st)) 0
     then ["Aucune source de risque définie"] else [])
    ++ (if Nat.eqb (length (objectifs_vises st)) 0
        then ["Aucun objectif visé défini"] else [])
    ++ (if Nat.eqb (length (cartographie_sr_ov st)) 0
        then ["Aucune cartographie SR×OV réalisée"] else []) in
  let cov_sr := _calculate_coverage_rate "sources" st in
  let cov_ov := _calculate_coverage_rate "objectifs" st in
  let warnings :=
    (if Nat.ltb (length (sources_risque st)) 3
     then ["Moins de 3 sources de risque (recommandé: 3-7)"] else [])
    ++ (if Nat.ltb (length (objectifs_vises st)) 3
        then ["Moins de 3 objectifs visés (recommandé: 3-10)"] else [])
    ++ (if negb (Qle_bool 80 cov_sr)
        then ["Couverture des sources de risque faible: " +:+ Py.str_1dec cov_sr +:+ "%"]
        else [])
    ++ (if negb (Qle_bool 80 cov_ov)
        then ["Couverture des objectifs visés faible: " +:+ Py.str_1dec cov_ov +:+ "%"]
        else []) in
  {| valid := Nat.eqb (length errors) 0; errors := errors; warnings := warnings |}.

(** The operations on a Workshop 2 state, for traces. *)
Inductive op : Type :=
| AddSourceRisque (nom type_sr : string) (ressources determination competences : Z)
| AddObjectifVise (nom description : string) (impact_potentiel : Z)
| MapSrToOv (sr_id0 ov_id0 : string) (pertinence : Z)
| GenerateScenariosStrategiques
| GetTopScenarios (n : Z)
| GetStatistics.

Definition step (st : Assessment) (o : op) : Assessment :=
  match o with
  | AddSourceRisque nom type_sr ressources determination competences =>
    snd (add_source_risque nom type_sr ressources determination competences st)
  | AddObjectifVise nom description impact_potentiel =>
    snd (add_objectif_vise nom description impact_potentiel st)
  | MapSrToOv sr_id0 ov_id0 pertinence => snd (map_sr_to_ov sr_id0 ov_id0 pertinence st)
  | GenerateScenariosStrategiques => snd (generate_scenarios_strategiques st)
  | GetTopScenarios n => snd (get_top_scenarios n st)
  | GetStatistics => snd (get_statistics st)
  end.

Definition run (ops : list op) : Assessment := foldl step init ops.

(** The states the operations reach from a fresh [Workshop2()]. *)
Definition reachable (st : Assessment) : Prop := exists ops, st = run ops.

End Workshop2.

(** ** modules/workshop3.py *)

Module Workshop3.

Record PartiePrenante := {
  pp_id : string;
  pp_nom : string;
  pp_type : string;
  pp_dependance : Z;
  pp_exposition : Z;
  pp_confiance : Z;
  pp_maturite : Z;
  pp_score_risque_tiers : Q;
  pp_niveau_criticite : string
}.

(** [self.assessment]: [add_partie_prenante] reads and writes
    [parties_prenantes] only; the ecosystem map, the enriched scenarios and
    the attack paths are left out. *)
Record Assessment := {
  parties_prenantes : list PartiePrenante
}.

Definition init : Assessment := {| parties_prenantes := [] |}.

Definition _get_criticite_level (score : Q) : string :=
  if Qle_bool score (3 # 2) then "Faible"
  else if Qle_bool score (5 # 2) then "Modéré"
  else if Qle_bool score (7 # 2) then "Élevé"
  else "Critique".

Definition add_partie_prenante (nom type_pp : string)
    (dependance exposition confiance maturite : Z) : M Assessment PartiePrenante :=
  fun st =>
  let score_risque :=
    Py.round_nd (inject_Z (dependance + exposition - maturite) / 3) 1 in
  let pp := {|
    pp_id := "PP" +:+ pretty (length (parties_prenantes st) + 1)%nat;
    pp_nom := nom;
    pp_type := type_pp;
    pp_dependance := dependance;
    pp_exposition := exposition;
    pp_confiance := confiance;
    pp_maturite := maturite;
    pp_score_risque_tiers := score_risque;
    pp_niveau_criticite := _get_criticite_level score_risque |} in
  (Ok pp, {| parties_prenantes := parties_prenantes st ++ [pp] |}).

Definition get_parties_prenantes_critiques (st : Assessment) : list PartiePrenante :=
  filter (fun pp => pp_niveau_criticite pp ∈ ["Élevé"; "Critique"]%string)
         (parties_prenantes st).

Definition _calculate_risk_ecosystem (gravite : Z) : string :=
  if gravite <=? 1 then "Faible"
  else if gravite <=? 2 then "Modéré"
  else if gravite <=? 3 then "Élevé"
  else "Critique".

Record ScenarioEnrichi := {
  sse_id : string;
  sse_scenario_strategique_ref : string;
  sse_parties_prenantes_impliquees : list string;
  sse_chemin_attaque : string;
  sse_gravite_ecosysteme : Z;
  sse_niveau_risque : string
}.

(** [max(l, default=0)] *)
Definition max_default0 (l : list Z) : Z :=
  match l with
  | [] => 0
  | x :: l' => foldl Z.max x l'
  end.

(** [enrich_scenario_strategique] reads the stakeholders and appends to
    [scenarios_strategiques_enrichis]: the state here is that list beside
    the stakeholders. *)
Definition enrich_scenario_strategique
    (scenario_id : string) (pp_ids : list string) (chemin_attaque : string)
  : M (Assessment * list ScenarioEnrichi) ScenarioEnrichi :=
  fun '(st, scenarios_strategiques_enrichis) =>
  let pp_impliquees := filter (fun pp => pp_id pp ∈ pp_ids) (parties_prenantes st) in
  let gravite_ecosysteme := max_default0 (pp_exposition <$> pp_impliquees) in
  let scenario_enrichi := {|
    sse_id := "SSE" +:+ pretty (length scenarios_strategiques_enrichis + 1)%nat;
    sse_scenario_strategique_ref := scenario_id;
    sse_parties_prenantes_impliquees := pp_ids;
    sse_chemin_attaque := chemin_attaque;
    sse_gravite_ecosysteme := gravite_ecosysteme;
    sse_niveau_risque := _calculate_risk_ecosystem gravite_ecosysteme |} in
  (Ok scenario_enrichi, (st, scenarios_strategiques_enrichis ++ [scenario_enrichi])).

End Workshop3.

(** ** modules/workshop4.py *)

Module Workshop4.

Record ScenarioOperationnel := {
  so_id : string;
  so_scenario_strategique_ref : string;
  so_nom : string;
  so_description : string;
  so_actions_elementaires : list string;
  so_vraisemblance : Z;
  so_date_creation : datetime
}.

Record ActionElementaire := {
  ae_id : string;
  ae_nom : string;
  ae_technique_mitre : string;
  ae_difficulte : Z;
  ae_detectabilite : Z;
  ae_vraisemblance_action : Z
}.

Record MesureExistante := {
  me_id : string;
  me_nom : string;
  me_type : string;
  me_efficacite : Q;
  me_actions_couvertes : list string
}.

Record RisqueSynthese := {
  rs_scenario_id : string;
  rs_nom : string;
  rs_gravite : Z;
  rs_vraisemblance : Z;
  rs_risque_brut : Z;
  rs_risque_residuel : Z;
  rs_niveau : string;
  rs_reduction_pct : Q
}.

Record Assessment := {
  scenarios_operationnels : list ScenarioOperationnel;
  actions_elementaires : list ActionElementaire;
  mesures_existantes : list MesureExistante;
  synthese_risques : list RisqueSynthese
}.

Definition init : Assessment :=
  {| scenarios_operationnels := []; actions_elementaires := [];
     mesures_existantes := []; synthese_risques := [] |}.

Definition set_scenarios (l : list ScenarioOperationnel) (st : Assessment) : Assessment :=
  {| scenarios_operationnels := l;
     actions_elementaires := actions_elementaires st;
     mesures_existantes := mesures_existantes st;
     synthese_risques := synthese_risques st |}.

Definition set_synthese (l : list RisqueSynthese) (st : Assessment) : Assessment :=
  {| scenarios_operationnels := scenarios_operationnels st;
     actions_elementaires := actions_elementaires st;
     mesures_existantes := mesures_existantes st;
     synthese_risques := l |}.

Definition add_scenario_operationnel (scenario_strategique_id nom description : string)
    (actions : list string) (now : datetime) : M Assessment ScenarioOperationnel :=
  fun st =>
  let so := {|
    so_id := "SO" +:+ pretty (length (scenarios_operationnels st) + 1)%nat;
    so_scenario_strategique_ref := scenario_strategique_id;
    so_nom := nom;
    so_description := description;
    so_actions_elementaires := actions;
    so_vraisemblance := 0;
    so_date_creation := now |} in
  (Ok so, set_scenarios (scenarios_operationnels st ++ [so]) st).

Definition _calculate_vraisemblance_action (difficulte detectabilite : Z) : Z :=
  let score := (inject_Z ((5 - difficulte) + (5 - detectabilite)) / 2)%Q in
  if Qle_bool score (3 # 2) then 1
  else if Qle_bool score (5 # 2) then 2
  else if Qle_bool score (7 # 2) then 3
  else 4.

Definition add_action_elementaire (nom technique_mitre : string)
    (difficulte detectabilite : Z) : M Assessment ActionElementaire :=
  fun st =>
  let action := {|
    ae_id := "AE" +:+ pretty (length (actions_elementaires st) + 1)%nat;
    ae_nom := nom;
    ae_technique_mitre := technique_mitre;
    ae_difficulte := difficulte;
    ae_detectabilite := detectabilite;
    ae_vraisemblance_action := _calculate_vraisemblance_action difficulte detectabilite |} in
  (Ok action,
   {| scenarios_operationnels := scenarios_operationnels st;
      actions_elementaires := actions_elementaires st ++ [action];
      mesures_existantes := mesures_existantes st;
      synthese_risques := synthese_risques st |}).

(** The actions of the catalogue whose identifier the scenario lists. *)
Definition scenario_actions (st : Assessment) (scenario : ScenarioOperationnel)
  : list ActionElementaire :=
  filter (fun a => ae_id a ∈ so_actions_elementaires scenario) (actions_elementaires st).

Definition with_vraisemblance (v : Z) (s : ScenarioOperationnel) : ScenarioOperationnel :=
  {| so_id := so_id s;
     so_scenario_strategique_ref := so_scenario_strategique_ref s;
     so_nom := so_nom s;
     so_description := so_description s;
     so_actions_elementaires := so_actions_elementaires s;
     so_vraisemblance := v;
     so_date_creation := so_date_creation s |}.

Definition calculate_vraisemblance_scenario (scenario_id : string) : M Assessment Z :=
  fun st =>
  match list_find (fun s => so_id s = scenario_id) (scenarios_operationnels st) with
  | None => (Ok 0, st)
  | Some (i, scenario) =>
    let actions := scenario_actions st scenario in
    match actions with
    | [] => (Ok 0, st)
    | _ :: _ =>
      let avg_vraisemblance :=
        (inject_Z (Py.sumZ (ae_vraisemblance_action <$> actions))
         / inject_Z (Z.of_nat (length actions)))%Q in
      let vraisemblance := Py.round avg_vraisemblance in
      (Ok vraisemblance,
       set_scenarios (<[i := with_vraisemblance vraisemblance scenario]>
                        (scenarios_operationnels st)) st)
    end
  end.

Definition add_mesure_existante (nom type_mesure : string) (efficacite : Q)
    (couverture : list string) : M Assessment MesureExistante :=
  fun st =>
  let mesure := {|
    me_id := "ME" +:+ pretty (length (mesures_existantes st) + 1)%nat;
    me_nom := nom;
    me_type := type_mesure;
    me_efficacite := efficacite;
    me_actions_couvertes := couverture |} in
  (Ok mesure,
   {| scenarios_operationnels := scenarios_operationnels st;
      actions_elementaires := actions_elementaires st;
      mesures_existantes := mesures_existantes st ++ [mesure];
      synthese_risques := synthese_risques st |}).

(** The hits of the double loop of [_calculate_risk_reduction]: for each
    measure, each requested action it covers, with the measure's efficacy. *)
Definition reduction_hits (st : Assessment) (action_ids : list string)
  : list (string * Q) :=
  flat_map (fun mesure =>
              (fun action_id => (action_id, me_efficacite mesure)) <$>
              filter (fun action_id => action_id ∈ me_actions_couvertes mesure) action_ids)
           (mesures_existantes st).

Definition _calculate_risk_reduction (st : Assessment) (action_ids : list string) : Q :=
  match mesures_existantes st with
  | [] => 0
  | _ :: _ =>
    let hits := reduction_hits st action_ids in
    (* the set [actions_couvertes] and the running sum [efficacite_totale] *)
    let actions_couvertes := remove_dups (hits.*1) in
    let efficacite_totale := Py.sumQ (hits.*2) in
    match actions_couvertes with
    | [] => 0
    | _ :: _ =>
      let couverture_pct :=
        match action_ids with
        | [] => 0
        | _ :: _ => inject_Z (Z.of_nat (length actions_couvertes))
                    / inject_Z (Z.of_nat (length action_ids))
        end in
      let efficacite_moyenne :=
        efficacite_totale / inject_Z (Z.of_nat (length actions_couvertes)) in
      Qmin (9 # 10) (couverture_pct * efficacite_moyenne)
    end
  end%Q.

Definition _get_risk_level (score : Z) : string :=
  if score <=? 2 then "Faible"
  else if score <=? 4 then "Acceptable"
  else if score <=? 8 then "Modéré"
  else if score <=? 12 then "Élevé"
  else "Critique".

(** One turn of the loop of [synthetize_risks], on the scenario at position
    [i].  The loop variable is the dictionary stored in the list, so after
    [calculate_vraisemblance_scenario] has written the likelihood the turn
    reads the scenario again from the state. *)
Definition synthetize_step (gravite_base : Z) (st : Assessment) (i : nat) : Assessment :=
  match scenarios_operationnels st !! i with
  | None => st
  | Some scenario0 =>
    let st1 :=
      if so_vraisemblance scenario0 =? 0
      then snd (calculate_vraisemblance_scenario (so_id scenario0) st)
      else st in
    match scenarios_operationnels st1 !! i with
    | None => st1
    | Some scenario =>
      let risque_brut := gravite_base * so_vraisemblance scenario in
      let reduction := _calculate_risk_reduction st1 (so_actions_elementaires scenario) in
      let risque_residuel :=
        Z.max 1 (Py.round (inject_Z risque_brut * (1 - reduction))) in
      let risque := {|
        rs_scenario_id := so_id scenario;
        rs_nom := so_nom scenario;
        rs_gravite := gravite_base;
        rs_vraisemblance := so_vraisemblance scenario;
        rs_risque_brut := risque_brut;
        rs_risque_residuel := risque_residuel;
        rs_niveau := _get_risk_level risque_residuel;
        rs_reduction_pct := Py.round_nd (reduction * 100) 1 |} in
      set_synthese (synthese_risques st1 ++ [risque]) st1
    end
  end.

Definition synthetize_risks (gravite_base : Z) : M Assessment (list RisqueSynthese) :=
  fun st =>
  let st0 := set_synthese [] st in
  let st1 := foldl (synthetize_step gravite_base) st0
                   (seq 0 (length (scenarios_operationnels st0))) in
  let sorted := Py.sort_desc rs_risque_residuel (synthese_risques st1) in
  (Ok sorted, set_synthese sorted st1).

(** The operations that build a Workshop 4 state, for traces. *)
Inductive op : Type :=
| AddScenarioOperationnel (scenario_strategique_id nom description : string)
    (actions : list string) (now : datetime)
| AddActionElementaire (nom technique_mitre : string) (difficulte detectabilite : Z)
| AddMesureExistante (nom type_mesure : string) (efficacite : Q) (couverture : list string)
| CalculateVraisemblanceScenario (scenario_id : string)
| SynthetizeRisks (gravite_base : Z).

Definition step (st : Assessment) (o : op) : Assessment :=
  match o with
  | AddScenarioOperationnel ref nom description actions now =>
    snd (add_scenario_operationnel ref nom description actions now st)
  | AddActionElementaire nom technique difficulte detectabilite =>
    snd (add_action_elementaire nom technique difficulte detectabilite st)
  | AddMesureExistante nom type_mesure efficacite couverture =>
    snd (add_mesure_existante nom type_mesure efficacite couverture st)
  | CalculateVraisemblanceScenario scenario_id =>
    snd (calculate_vraisemblance_scenario scenario_id st)
  | SynthetizeRisks gravite_base =>
    snd (synthetize_risks gravite_base st)
  end.

Definition run (ops : list op) : Assessment := foldl step init ops.

(** The states the operations reach from a fresh [Workshop4()]. *)
Definition reachable (st : Assessment) : Prop := exists ops, st = run ops.

Record Gap := {
  gap_action_id : string;
  gap_nom : string;
  gap_technique_mitre : string;
  gap_vraisemblance : Z
}.

(** [get_gaps]: the actions of the catalogue that no existing measure
    covers. *)
Definition get_gaps (st : Assessment) : list Gap :=
  let actions_couvertes := flat_map me_actions_couvertes (mesures_existantes st) in
  (fun action => {| gap_action_id := ae_id action;
                    gap_nom := ae_nom action;
                    gap_technique_mitre := ae_technique_mitre action;
                    gap_vraisemblance := ae_vraisemblance_action action |})
  <$> filter (fun action => ae_id action ∉ actions_couvertes) (actions_elementaires st).

Record Statistics := {
  nb_scenarios_operationnels : nat;
  nb_actions_elementaires : nat;
  nb_mesures_existantes : nat;
  nb_gaps : nat;
  nb_risques_critiques : nat;
  taux_couverture : Q
}.

Definition get_statistics (st : Assessment) : Statistics :=
  let gaps := get_gaps st in
  let risques_critiques :=
    filter (fun r => rs_niveau r = "Critique") (synthese_risques st) in
  {| nb_scenarios_operationnels := length (scenarios_operationnels st);
     nb_actions_elementaires := length (actions_elementaires st);
     nb_mesures_existantes := length (mesures_existantes st);
     nb_gaps := length gaps;
     nb_risques_critiques := length risques_critiques;
     taux_couverture :=
       Py.round_nd
         ((1 - inject_Z (Z.of_nat (length gaps))
               / inject_Z (Z.max 1 (Z.of_nat (length (actions_elementaires st))))) * 100) 1 |}.

End Workshop4.

(** ** modules/workshop5.py *)

Module Workshop5.

(** The values of a risk's ['statut']: ['Non traité'], ['Stratégie définie']
    and ['Accepté']. *)
Inductive Statut : Type := NonTraite | StrategieDefinie | Accepte.

Definition statut_str (s : Statut) : string :=
  match s with
  | NonTraite => "Non traité"
  | StrategieDefinie => "Stratégie définie"
  | Accepte => "Accepté"
  end.

(** A risk.  [option_traitement] starts as [None]; the keys ['justification']
    and ['date_decision'] do not exist before [define_traitement] sets them. *)
Record Risque := {
  r_id : string;
  r_nom : string;
  r_gravite : Z;
  r_vraisemblance : Z;
  r_score_brut : Z;
  r_niveau_brut : string;
  r_scenario_reference : string;
  r_statut : Statut;
  r_option_traitement : option string;
  r_mesures_associees : list string;
  r_date_identification : datetime;
  r_justification : option string;
  r_date_decision : option datetime
}.

(** A treatment measure.  The efficacy is a float, since the residual score
    is computed from it; the estimated cost only enters the budget, as a
    sum, and is kept as an exact rational. *)
Record Mesure := {
  mt_id : string;
  mt_nom : string;
  mt_type : string;
  mt_description : string;
  mt_cout_estime : Q;
  mt_efficacite : Py.float;
  mt_delai_mise_en_oeuvre : Z;
  mt_responsable : string;
  mt_statut : string;
  mt_risques_couverts : list string;
  mt_date_creation : datetime
}.

(** A residual-risk entry; ['reduction_pct'] and ['date_calcul'] exist only
    when measures were applied. *)
Record RisqueResiduel := {
  rr_risque_id : string;
  rr_score_brut : Z;
  rr_score_residuel : Z;
  rr_niveau_residuel : string;
  rr_reduction : Py.float;
  rr_reduction_pct : option Py.float;
  rr_mesures_appliquees : list string;
  rr_date_calcul : option datetime
}.

Record Acceptation := {
  ac_risque_id : string;
  ac_nom_risque : string;
  ac_score_residuel : Z;
  ac_niveau_residuel : string;
  ac_acceptant : string;
  ac_justification : string;
  ac_date_acceptation : datetime;
  ac_date_revue : datetime;
  ac_conditions : list string
}.

(** [self.assessment]; the treatment plan and the KPIs are not touched by the
    operations below and are left out. *)
Record Assessment := {
  risques : list Risque;
  mesures_traitement : list Mesure;
  risques_residuels : list RisqueResiduel;
  risques_acceptes : list Acceptation;
  budget_estime : Q
}.

Definition init : Assessment :=
  {| risques := []; mesures_traitement := []; risques_residuels := [];
     risques_acceptes := []; budget_estime := 0 |}.

Definition set_risques (l : list Risque) (st : Assessment) : Assessment :=
  {| risques := l;
     mesures_traitement := mesures_traitement st;
     risques_residuels := risques_residuels st;
     risques_acceptes := risques_acceptes st;
     budget_estime := budget_estime st |}.

Definition set_mesures (l : list Mesure) (st : Assessment) : Assessment :=
  {| risques := risques st;
     mesures_traitement := l;
     risques_residuels := risques_residuels st;
     risques_acceptes := risques_acceptes st;
     budget_estime := budget_estime st |}.

Definition set_residuels (l : list RisqueResiduel) (st : Assessment) : Assessment :=
  {| risques := risques st;
     mesures_traitement := mesures_traitement st;
     risques_residuels := l;
     risques_acceptes := risques_acceptes st;
     budget_estime := budget_estime st |}.

Definition set_acceptes (l : list Acceptation) (st : Assessment) : Assessment :=
  {| risques := risques st;
     mesures_traitement := mesures_traitement st;
     risques_residuels := risques_residuels st;
     risques_acceptes := l;
     budget_estime := budget_estime st |}.

Definition set_budget (b : Q) (st : Assessment) : Assessment :=
  {| risques := risques st;
     mesures_traitement := mesures_traitement st;
     risques_residuels := risques_residuels st;
     risques_acceptes := risques_acceptes st;
     budget_estime := b |}.

Definition matrice : list (list Z) :=
  [ [1; 1; 2; 2];
    [1; 2; 2; 3];
    [2; 2; 3; 4];
    [2; 3; 4; 4] ].

(** [matrice[gravite - 1][vraisemblance - 1]] on Python lists: there is no
    range check, so an index from -4 to -1 wraps around and any other index
    outside the list raises [IndexError]. *)
Definition _calculate_risk_score (gravite vraisemblance : Z) : result Z :=
  match Py.index matrice (gravite - 1) with
  | Raise e => Raise e
  | Ok row => Py.index row (vraisemblance - 1)
  end.

Definition _get_risk_level (score : Z) : string :=
  if score =? 1 then "Faible"
  else if score =? 2 then "Acceptable"
  else if score =? 3 then "Modéré"
  else if score =? 4 then "Critique"
  else "Indéterminé".

Definition add_risque (risque_id nom : string) (gravite vraisemblance : Z)
    (scenario_ref : string) (now : datetime) : M Assessment Risque :=
  fun st =>
  match _calculate_risk_score gravite vraisemblance with
  | Raise e => (Raise e, st)
  | Ok score_brut =>
    let risque := {|
      r_id := risque_id;
      r_nom := nom;
      r_gravite := gravite;
      r_vraisemblance := vraisemblance;
      r_score_brut := score_brut;
      r_niveau_brut := _get_risk_level score_brut;
      r_scenario_reference := scenario_ref;
      r_statut := NonTraite;
      r_option_traitement := None;
      r_mesures_associees := [];
      r_date_identification := now;
      r_justification := None;
      r_date_decision := None |} in
    (Ok risque, set_risques (risques st ++ [risque]) st)
  end.

(** [next((r for r in risques if r['id'] == risque_id), None)], with the
    position of the dictionary found. *)
Definition find_risque (st : Assessment) (risque_id : string) : option (nat * Risque) :=
  list_find (fun r => r_id r = risque_id) (risques st).

Definition find_mesure (st : Assessment) (mesure_id : string) : option (nat * Mesure) :=
  list_find (fun m => mt_id m = mesure_id) (mesures_traitement st).

Definition options_valides : list string :=
  [ "Atténuation"; "Transfert"; "Évitement"; "Acceptation" ].

Definition define_traitement (risque_id option justification : string)
    (now : datetime) : M Assessment Risque :=
  fun st =>
  if negb (Py.mem option options_valides) then
    (Raise (ValueError ("Option invalide. Options valides: "
                        +:+ "['Atténuation', 'Transfert', 'Évitement', 'Acceptation']")), st)
  else
    match find_risque st risque_id with
    | None => (Raise (ValueError ("Risque " +:+ risque_id +:+ " non trouvé")), st)
    | Some (i, risque) =>
      let risque' := {|
        r_id := r_id risque;
        r_nom := r_nom risque;
        r_gravite := r_gravite risque;
        r_vraisemblance := r_vraisemblance risque;
        r_score_brut := r_score_brut risque;
        r_niveau_brut := r_niveau_brut risque;
        r_scenario_reference := r_scenario_reference risque;
        r_statut := StrategieDefinie;
        r_option_traitement := Some option;
        r_mesures_associees := r_mesures_associees risque;
        r_date_identification := r_date_identification risque;
        r_justification := Some justification;
        r_date_decision := Some now |} in
      (Ok risque', set_risques (<[i := risque']> (risques st)) st)
    end.

Definition add_mesure_traitement (nom type_mesure description : string)
    (cout_estime : Q) (efficacite : Py.float) (delai_mise_en_oeuvre : Z)
    (responsable : string) (now : datetime) : M Assessment Mesure :=
  fun st =>
  if negb (Py.float_le (Py.float_dec 0 1) efficacite
           && Py.float_le efficacite (Py.float_dec 10 1)) then
    (Raise (ValueError "L'efficacité doit être entre 0.0 et 1.0"), st)
  else
    let mesure := {|
      mt_id := "M" +:+ pretty (length (mesures_traitement st) + 1)%nat;
      mt_nom := nom;
      mt_type := type_mesure;
      mt_description := description;
      mt_cout_estime := cout_estime;
      mt_efficacite := efficacite;
      mt_delai_mise_en_oeuvre := delai_mise_en_oeuvre;
      mt_responsable := responsable;
      mt_statut := "Planifiée";
      mt_risques_couverts := [];
      mt_date_creation := now |} in
    (Ok mesure,
     set_budget (budget_estime st + cout_estime)%Q
       (set_mesures (mesures_traitement st ++ [mesure]) st)).

Definition with_mesures_associees (l : list string) (r : Risque) : Risque :=
  {| r_id := r_id r;
     r_nom := r_nom r;
     r_gravite := r_gravite r;
     r_vraisemblance := r_vraisemblance r;
     r_score_brut := r_score_brut r;
     r_niveau_brut := r_niveau_brut r;
     r_scenario_reference := r_scenario_reference r;
     r_statut := r_statut r;
     r_option_traitement := r_option_traitement r;
     r_mesures_associees := l;
     r_date_identification := r_date_identification r;
     r_justification := r_justification r;
     r_date_decision := r_date_decision r |}.

Definition with_statut (s : Statut) (r : Risque) : Risque :=
  {| r_id := r_id r;
     r_nom := r_nom r;
     r_gravite := r_gravite r;
     r_vraisemblance := r_vraisemblance r;
     r_score_brut := r_score_brut r;
     r_niveau_brut := r_niveau_brut r;
     r_scenario_reference := r_scenario_reference r;
     r_statut := s;
     r_option_traitement := r_option_traitement r;
     r_mesures_associees := r_mesures_associees r;
     r_date_identification := r_date_identification r;
     r_justification := r_justification r;
     r_date_decision := r_date_decision r |}.

Definition with_risques_couverts (l : list string) (m : Mesure) : Mesure :=
  {| mt_id := mt_id m;
     mt_nom := mt_nom m;
     mt_type := mt_type m;
     mt_description := mt_description m;
     mt_cout_estime := mt_cout_estime m;
     mt_efficacite := mt_efficacite m;
     mt_delai_mise_en_oeuvre := mt_delai_mise_en_oeuvre m;
     mt_responsable := mt_responsable m;
     mt_statut := mt_statut m;
     mt_risques_couverts := l;
     mt_date_creation := mt_date_creation m |}.

(** [if x not in l: l.append(x)] *)
Definition append_if_absent (x : string) (l : list string) : list string :=
  if Py.mem x l then l else l ++ [x].

Definition associate_mesure_to_risque (risque_id mesure_id : string) : M Assessment bool :=
  fun st =>
  match find_risque st risque_id, find_mesure st mesure_id with
  | Some (i, risque), Some (j, mesure) =>
    let risque' :=
      with_mesures_associees (append_if_absent mesure_id (r_mesures_associees risque)) risque in
    let mesure' :=
      with_risques_couverts (append_if_absent risque_id (mt_risques_couverts mesure)) mesure in
    (Ok true,
     set_mesures (<[j := mesure']> (mesures_traitement st))
       (set_risques (<[i := risque']> (risques st)) st))
  | _, _ => (Ok false, st)
  end.

(** The measures of the catalogue whose identifier the risk lists. *)
Definition mesures_du_risque (st : Assessment) (risque : Risque) : list Mesure :=
  filter (fun m => mt_id m ∈ r_mesures_associees risque) (mesures_traitement st).

(** The entry [calculate_risque_residuel] builds.  With measures, the
    operations on floats are those of the source, in its order: the sum and
    its cap, the product by the gross score (an int, converted), the
    difference and its rounding, which raises on a value that is not
    finite, then the quotient by the gross score, which raises on 0.  All
    of this comes before anything is written. *)
Definition residuel_entry (risque_id : string) (risque : Risque) (mesures : list Mesure)
    (now : datetime) : result RisqueResiduel :=
  match mesures with
  | [] =>
    Ok {| rr_risque_id := risque_id;
          rr_score_brut := r_score_brut risque;
          rr_score_residuel := r_score_brut risque;
          rr_niveau_residuel := r_niveau_brut risque;
          rr_reduction := Py.float_dec 0 1;
          rr_reduction_pct := None;
          rr_mesures_appliquees := [];
          rr_date_calcul := None |}
  | _ :: _ =>
    let efficacite_totale :=
      Py.float_min (Py.float_dec 95 2) (Py.float_sum (mt_efficacite <$> mesures)) in
    match Py.float_of_int (r_score_brut risque) with
    | Raise e => Raise e
    | Ok score_brut =>
      let reduction := Py.float_mul score_brut efficacite_totale in
      match Py.float_round (Py.float_sub score_brut reduction) with
      | Raise e => Raise e
      | Ok arrondi =>
        let score_residuel := Z.max 1 arrondi in
        match Py.float_div reduction score_brut with
        | Raise e => Raise e
        | Ok taux =>
          Ok {| rr_risque_id := risque_id;
                rr_score_brut := r_score_brut risque;
                rr_score_residuel := score_residuel;
                rr_niveau_residuel := _get_risk_level score_residuel;
                rr_reduction := Py.float_round_nd reduction 2;
                rr_reduction_pct :=
                  Some (Py.float_round_nd (Py.float_mul taux (Py.float_dec 100 0)) 1);
                rr_mesures_appliquees := mt_id <$> mesures;
                rr_date_calcul := Some now |}
        end
      end
    end
  end.

(** [existing = next(...)] then [risques_residuels.remove(existing)]:
    [remove] deletes the first entry equal to [existing]; an equal entry
    carries the same ['risque_id'], so that entry is [existing] itself, at
    the position where the search found it. *)
Definition remove_existing (risque_id : string) (l : list RisqueResiduel)
  : list RisqueResiduel :=
  match list_find (fun r => rr_risque_id r = risque_id) l with
  | Some (k, _) => delete k l
  | None => l
  end.

Definition calculate_risque_residuel (risque_id : string) (now : datetime)
  : M Assessment RisqueResiduel :=
  fun st =>
  match find_risque st risque_id with
  | None => (Raise (ValueError ("Risque " +:+ risque_id +:+ " non trouvé")), st)
  | Some (_, risque) =>
    match residuel_entry risque_id risque (mesures_du_risque st risque) now with
    | Raise e => (Raise e, st)
    | Ok risque_residuel =>
      (Ok risque_residuel,
       set_residuels (remove_existing risque_id (risques_residuels st) ++ [risque_residuel]) st)
    end
  end.

Definition _calculate_review_date (score_residuel : Z) (today : datetime) : datetime :=
  if 3 <=? score_residuel then today + timedelta_days 90
  else today + timedelta_days 365.

(** [risque] is the dictionary found at position [i] before the residual
    computation, which does not touch the list of risks: the last assignment
    writes the status at that position.  The clock is read up to three
    times, in this order: in [calculate_risque_residuel] when measures
    apply ([now_calcul]), for ['date_acceptation'] ([now_acceptation]) and
    in [_calculate_review_date] ([now_revue]). *)
Definition accept_risque (risque_id acceptant justification : string)
    (now_calcul now_acceptation now_revue : datetime) : M Assessment Acceptation :=
  fun st =>
  match find_risque st risque_id with
  | None => (Raise (ValueError ("Risque " +:+ risque_id +:+ " non trouvé")), st)
  | Some (i, risque) =>
    match calculate_risque_residuel risque_id now_calcul st with
    | (Raise e, st1) => (Raise e, st1)
    | (Ok risque_res, st1) =>
      let acceptation := {|
        ac_risque_id := risque_id;
        ac_nom_risque := r_nom risque;
        ac_score_residuel := rr_score_residuel risque_res;
        ac_niveau_residuel := rr_niveau_residuel risque_res;
        ac_acceptant := acceptant;
        ac_justification := justification;
        ac_date_acceptation := now_acceptation;
        ac_date_revue := _calculate_review_date (rr_score_residuel risque_res) now_revue;
        ac_conditions := [] |} in
      let st2 := set_acceptes (risques_acceptes st1 ++ [acceptation]) st1 in
      (Ok acceptation, set_risques (alter (with_statut Accepte) i (risques st2)) st2)
    end
  end.

(** The operations on a Workshop 5 state, for traces. *)
Inductive op : Type :=
| AddRisque (risque_id nom : string) (gravite vraisemblance : Z) (scenario_ref : string)
    (now : datetime)
| DefineTraitement (risque_id option justification : string) (now : datetime)
| AddMesureTraitement (nom type_mesure description : string) (cout_estime : Q)
    (efficacite : Py.float)
    (delai_mise_en_oeuvre : Z) (responsable : string) (now : datetime)
| AssociateMesureToRisque (risque_id mesure_id : string)
| CalculateRisqueResiduel (risque_id : string) (now : datetime)
| AcceptRisque (risque_id acceptant justification : string)
    (now_calcul now_acceptation now_revue : datetime).

(** The state a call leaves, whether it returned or raised. *)
Definition step (st : Assessment) (o : op) : Assessment :=
  match o with
  | AddRisque risque_id nom gravite vraisemblance scenario_ref now =>
    snd (add_risque risque_id nom gravite vraisemblance scenario_ref now st)
  | DefineTraitement risque_id option justification now =>
    snd (define_traitement risque_id option justification now st)
  | AddMesureTraitement nom type_mesure description cout efficacite delai responsable now =>
    snd (add_mesure_traitement nom type_mesure description cout efficacite delai
           responsable now st)
  | AssociateMesureToRisque risque_id mesure_id =>
    snd (associate_mesure_to_risque risque_id mesure_id st)
  | CalculateRisqueResiduel risque_id now =>
    snd (calculate_risque_residuel risque_id now st)
  | AcceptRisque risque_id acceptant justification now_calcul now_acceptation now_revue =>
    snd (accept_risque risque_id acceptant justification now_calcul now_acceptation
           now_revue st)
  end.

Definition run (st : Assessment) (ops : list op) : Assessment := foldl step st ops.

(** The states the operations reach from a fresh [Workshop5()]. *)
Definition reachable (st : Assessment) : Prop := exists ops, st = run init ops.

Record Phase := {
  ph_nom : string;
  ph_mesures : list string
}.

Definition phase_append (mesure_id : string) (phase : Phase) : Phase :=
  {| ph_nom := ph_nom phase; ph_mesures := ph_mesures phase ++ [mesure_id] |}.

(** [_create_phases]: each measure's identifier is appended to the phase at
    index 0, 1 or 2 of the list, by its delay. *)
Definition _create_phases (mesures : list Mesure) : list Phase :=
  let phases :=
    [ {| ph_nom := "Phase 1 - Urgences (0-3 mois)"; ph_mesures := [] |};
      {| ph_nom := "Phase 2 - Court terme (3-6 mois)"; ph_mesures := [] |};
      {| ph_nom := "Phase 3 - Moyen terme (6-12 mois)"; ph_mesures := [] |} ] in
  foldl (fun phases mesure =>
           let delai := mt_delai_mise_en_oeuvre mesure in
           if delai <=? 90 then alter (phase_append (mt_id mesure)) 0%nat phases
           else if delai <=? 180 then alter (phase_append (mt_id mesure)) 1%nat phases
           else alter (phase_append (mt_id mesure)) 2%nat phases)
        phases mesures.

End Workshop5.

(** * Vocabulary of the properties *)

(** The table of the specification, row by gravity and column by likelihood. *)
Definition spec_matrix (gravity likelihood : Z) : Z :=
  match gravity, likelihood with
  | 1, 1 => 1 | 1, 2 => 1 | 1, 3 => 2 | 1, 4 => 2
  | 2, 1 => 1 | 2, 2 => 2 | 2, 3 => 2 | 2, 4 => 3
  | 3, 1 => 2 | 3, 2 => 2 | 3, 3 => 3 | 3, 4 => 4
  | 4, 1 => 2 | 4, 2 => 3 | 4, 3 => 4 | 4, 4 => 4
  | _, _ => 0
  end.

(** The level names of the specification (Low, Acceptable, Moderate, Critical)
    as the source spells them. *)
Definition spec_level (score : Z) : string :=
  match score with
  | 1 => "Faible"
  | 2 => "Acceptable"
  | 3 => "Modéré"
  | 4 => "Critique"
  | _ => ""
  end.

Definition in_scale (x : Z) : Prop := 1 <= x <= 4.

(** The residual score the calculator computes inside its ranges. *)
Definition residual_score (risque_initial : Z) (efficacite : Q) : Z :=
  Z.max 1 (Py.round (inject_Z risque_initial
                     - inject_Z risque_initial * efficacite)).

(** The order of the risk lifecycle: Untreated, StrategyDefined, Accepted. *)
Definition statut_rank (s : Workshop5.Statut) : Z :=
  match s with
  | Workshop5.NonTraite => 0
  | Workshop5.StrategieDefinie => 1
  | Workshop5.Accepte => 2
  end.

(** The operation is a [define_traitement] on the identifier [risque_id]. *)
Definition is_define_on (risque_id : string) (o : Workshop5.op) : Prop :=
  match o with
  | Workshop5.DefineTraitement risque_id' _ _ _ => risque_id' = risque_id
  | _ => False
  end.

(** The operation is an [accept_risque] on the identifier [risque_id]. *)
Definition is_accept_on (risque_id : string) (o : Workshop5.op) : Prop :=
  match o with
  | Workshop5.AcceptRisque risque_id' _ _ _ _ _ => risque_id' = risque_id
  | _ => False
  end.

(** The links between risks and measures are consistent: whenever a risk
    identifier and a measure identifier resolve, as the lookups of the code
    resolve them, the measure is listed by the risk if and only if the risk
    is listed by the measure. *)
Definition links_consistent (st : Workshop5.Assessment) : Prop :=
  forall risque_id mesure_id i r j m,
    Workshop5.find_risque st risque_id = Some (i, r) ->
    Workshop5.find_mesure st mesure_id = Some (j, m) ->
    (mesure_id ∈ Workshop5.r_mesures_associees r <->
     risque_id ∈ Workshop5.mt_risques_couverts m).

(** The same on the stored dictionaries themselves. *)
Definition links_consistent_objects (st : Workshop5.Assessment) : Prop :=
  forall r m,
    r ∈ Workshop5.risques st -> m ∈ Workshop5.mesures_traitement st ->
    (Workshop5.mt_id m ∈ Workshop5.r_mesures_associees r <->
     Workshop5.r_id r ∈ Workshop5.mt_risques_couverts m).

(** A sequence of [associate_mesure_to_risque] calls, each on a pair
    (risk identifier, measure identifier). *)
Definition associate_all (st : Workshop5.Assessment) (calls : list (string * string))
  : Workshop5.Assessment :=
  foldl (fun s c => snd (Workshop5.associate_mesure_to_risque c.1 c.2 s)) st calls.





(** Both identifiers of a mapping entry resolve to an existing entity. *)
Definition resolves (st : Workshop2.Assessment) (relation : Workshop2.Relation) : Prop :=
  is_Some (Workshop2.find_source st (Workshop2.rel_sr_id relation)) /\
  is_Some (Workshop2.find_objectif st (Workshop2.rel_ov_id relation)).

#[global] Instance resolves_dec st relation : Decision (resolves st relation).
Proof. unfold resolves. apply _. Defined.

(** The scenario is the one generated from the mapping entry: gravity and
    relevance of the entry, names, type, description, capability and impact
    of the source and objective the entry resolves to. *)
Definition scenario_of_relation (st : Workshop2.Assessment)
    (relation : Workshop2.Relation) (s : Workshop2.Scenario) : Prop :=
  exists sr ov,
    Workshop2.find_source st (Workshop2.rel_sr_id relation) = Some sr /\
    Workshop2.find_objectif st (Workshop2.rel_ov_id relation) = Some ov /\
    Workshop2.ss_source_risque s = Workshop2.sr_nom sr /\
    Workshop2.ss_source_risque_type s = Workshop2.sr_type sr /\
    Workshop2.ss_objectif_vise s = Workshop2.ov_nom ov /\
    Workshop2.ss_objectif_description s = Workshop2.ov_description ov /\
    Workshop2.ss_gravite s = Workshop2.rel_gravite_scenario relation /\
    Workshop2.ss_niveau_risque s
    = Workshop2._get_risk_level (Workshop2.rel_gravite_scenario relation) /\
    Workshop2.ss_pertinence s = Workshop2.rel_pertinence relation /\
    Workshop2.ss_capacite_sr s = Workshop2.sr_capacite_globale sr /\
    Workshop2.ss_impact_ov s = Workshop2.ov_impact_potentiel ov.

(** Non-increasing gravity from left to right. *)
Definition gravite_desc (a b : Workshop2.Scenario) : Prop :=
  Workshop2.ss_gravite b <= Workshop2.ss_gravite a.

(** The mean of the likelihoods of the actions a scenario refers to. *)
Definition mean_likelihood (st : Workshop4.Assessment)
    (s : Workshop4.ScenarioOperationnel) : Q :=
  inject_Z (Py.sumZ (Workshop4.ae_vraisemblance_action <$> Workshop4.scenario_actions st s))
  / inject_Z (Z.of_nat (length (Workshop4.scenario_actions st s))).

(** A scenario after the lazy recomputation of [synthetize_risks]: a stored
    likelihood other than 0 is kept as it is; a stored 0 is replaced by the
    rounded mean when the scenario refers to an existing action. *)
Definition lazily_refreshed (st : Workshop4.Assessment)
    (s : Workshop4.ScenarioOperationnel) : Workshop4.ScenarioOperationnel :=
  if Workshop4.so_vraisemblance s =? 0 then
    match Workshop4.scenario_actions st s with
    | [] => s
    | _ :: _ => Workshop4.with_vraisemblance (Py.round (mean_likelihood st s)) s
    end
  else s.

(** The row of the synthesis is the row of the scenario: same identifier,
    the scenario's stored likelihood, and gross risk gravity x likelihood. *)
Definition row_of_scenario (gravite_base : Z)
    (s : Workshop4.ScenarioOperationnel) (r : Workshop4.RisqueSynthese) : Prop :=
  Workshop4.rs_scenario_id r = Workshop4.so_id s /\
  Workshop4.rs_vraisemblance r = Workshop4.so_vraisemblance s /\
  Workshop4.rs_risque_brut r = gravite_base * Workshop4.so_vraisemblance s.

(** Scenario identifiers are SO1, SO2, ... in the order of the list. *)
Definition scenario_ids_sequential (st : Workshop4.Assessment) : Prop :=
  Workshop4.so_id <$> Workshop4.scenarios_operationnels st
  = (fun j => "SO" +:+ pretty (j + 1)%nat)
    <$> seq 0 (length (Workshop4.scenarios_operationnels st)).

(** The state of the loop of [synthetize_risks] before its turn [k], started
    on the state [st]: the first [k] scenarios are refreshed and have their
    rows, the others are as they were; actions and measures are untouched. *)
Record loop_state (gravite_base : Z) (st : Workshop4.Assessment) (k : nat)
    (stk : Workshop4.Assessment) : Prop := {
  loop_scenarios :
    Workshop4.scenarios_operationnels stk
    = (lazily_refreshed st <$> take k (Workshop4.scenarios_operationnels st))
      ++ drop k (Workshop4.scenarios_operationnels st);
  loop_actions :
    Workshop4.actions_elementaires stk = Workshop4.actions_elementaires st;
  loop_mesures :
    Workshop4.mesures_existantes stk = Workshop4.mesures_existantes st;
  loop_rows :
    Forall2 (row_of_scenario gravite_base)
            (lazily_refreshed st <$> take k (Workshop4.scenarios_operationnels st))
            (Workshop4.synthese_risques stk)
}.

(** A session of Workshop 4: three scenarios; the likelihood of SO2 is
    computed (and stored) before the action AE4 it refers to is added. *)
Definition session_scenarios : list Workshop4.op :=
  [ Workshop4.AddActionElementaire "Hameçonnage" "T1566" 1 2;
    Workshop4.AddActionElementaire "Exfiltration" "T1041" 3 3;
    Workshop4.AddActionElementaire "Élévation de privilèges" "T1068" 4 4;
    Workshop4.AddScenarioOperationnel "SS1" "Vol de données" "Courriel piégé"
      ["AE1"; "AE2"] 0;
    Workshop4.AddScenarioOperationnel "SS1" "Compromission" "Poste interne"
      ["AE3"; "AE4"] 1;
    Workshop4.AddScenarioOperationnel "SS2" "Sabotage" "Accès physique" ["AE7"] 2;
    Workshop4.AddMesureExistante "Filtrage" "Préventif" (1 # 2) ["AE1"];
    Workshop4.CalculateVraisemblanceScenario "SO2";
    Workshop4.AddActionElementaire "Mouvement latéral" "T1021" 1 1 ].

(** A risk of [calculate_composite_risk] that is inside the scale, has a
    positive weight, and whose matrix score lies between [lo] and [hi]. *)
Definition risque_lie_ok (lo hi : Z) (r : RiskCalculator.RisqueLie) : Prop :=
  in_scale (RiskCalculator.rl_gravite r) /\
  in_scale (RiskCalculator.rl_vraisemblance r) /\
  (0 < RiskCalculator.poids_of r)%Q /\
  lo <= spec_matrix (RiskCalculator.rl_gravite r) (RiskCalculator.rl_vraisemblance r) <= hi.

(** A risk of [calculate_global_risk_exposure] that is inside the scale. *)
Definition risque_gv_ok (r : RiskCalculator.RisqueGV) : Prop :=
  in_scale (RiskCalculator.gv_gravite r) /\ in_scale (RiskCalculator.gv_vraisemblance r).

(** Every conformity score stored in the security baseline is a percentage. *)
Definition socle_in_range (socle : list (string * Q)) : Prop :=
  Forall (fun p => (0 <= p.2)%Q /\ (p.2 <= 100)%Q) socle.

(** The four keys of a sensitivity are present, each with a value in [1,4]. *)
Definition sensibilite_ok (sensibilite : list (string * Z)) : Prop :=
  Forall (fun cle => exists v, Workshop1.dict_lookup sensibilite cle = Some v /\ in_scale v)
         ["D"; "I"; "C"; "T"]%string.

(** The invariant of the Workshop 2 states reached from a fresh workshop:
    the identifiers are SR1, SR2, ... and OV1, OV2, ...; every mapping entry
    resolves and carries a gravity on the scale; the stored scenarios carry
    a gravity on the scale and are sorted by non-increasing gravity. *)
Record cartographie_ok (st : Workshop2.Assessment) : Prop := {
  ok_sr_ids :
    Workshop2.sr_id <$> Workshop2.sources_risque st
    = (fun j => "SR" +:+ pretty (j + 1)%nat)
      <$> seq 0 (length (Workshop2.sources_risque st));
  ok_ov_ids :
    Workshop2.ov_id <$> Workshop2.objectifs_vises st
    = (fun j => "OV" +:+ pretty (j + 1)%nat)
      <$> seq 0 (length (Workshop2.objectifs_vises st));
  ok_resolves : Forall (resolves st) (Workshop2.cartographie_sr_ov st);
  ok_relations :
    Forall (fun r => in_scale (Workshop2.rel_gravite_scenario r))
           (Workshop2.cartographie_sr_ov st);
  ok_scenarios :
    Forall (fun s => in_scale (Workshop2.ss_gravite s))
           (Workshop2.scenarios_strategiques st);
  ok_sorted : StronglySorted gravite_desc (Workshop2.scenarios_strategiques st)
}.

(** The number of scenarios of a gravity. *)
Definition count_gravite (g : Z) (l : list Workshop2.Scenario) : Z :=
  Z.of_nat (length (filter (fun s => Workshop2.ss_gravite s = g) l)).

(** A session of Workshop 2: two sources, two objectives, three mappings,
    the generation, then one more mapping. *)
Definition session_cartographie : list Workshop2.op :=
  [ Workshop2.AddSourceRisque "Groupe APT" "État-nation" 4 4 3;
    Workshop2.AddSourceRisque "Script kiddie" "Opportuniste" 1 2 1;
    Workshop2.AddObjectifVise "Vol de données" "Exfiltration des données clients" 4;
    Workshop2.AddObjectifVise "Défiguration" "Atteinte au site public" 2;
    Workshop2.MapSrToOv "SR1" "OV1" 4;
    Workshop2.MapSrToOv "SR2" "OV2" 3;
    Workshop2.MapSrToOv "SR1" "OV2" 2;
    Workshop2.GenerateScenariosStrategiques;
    Workshop2.MapSrToOv "SR2" "OV1" 1 ]%string.

(** The level named after a gravity of the scale. *)
Definition spec_level_gravite (gravite : Z) : string :=
  if gravite =? 1 then "Faible"
  else if gravite =? 2 then "Modéré"
  else if gravite =? 3 then "Élevé"
  else "Critique".

(** Every stakeholder was rated on the scale. *)
Definition rated_in_scale (pp : Workshop3.PartiePrenante) : Prop :=
  in_scale (Workshop3.pp_dependance pp) /\ in_scale (Workshop3.pp_exposition pp) /\
  in_scale (Workshop3.pp_maturite pp).

(** Non-increasing residual risk from left to right. *)
Definition residuel_desc (a b : Workshop4.RisqueSynthese) : Prop :=
  Workshop4.rs_risque_residuel b <= Workshop4.rs_risque_residuel a.

(** A row of the synthesis as [synthetize_risks] builds it for the gravity
    [gravite_base]. *)
Definition row_ok (gravite_base : Z) (r : Workshop4.RisqueSynthese) : Prop :=
  Workshop4.rs_gravite r = gravite_base /\
  Workshop4.rs_risque_brut r = gravite_base * Workshop4.rs_vraisemblance r /\
  1 <= Workshop4.rs_risque_residuel r /\
  Workshop4.rs_risque_residuel r <= Z.max 1 (Workshop4.rs_risque_brut r) /\
  Workshop4.rs_niveau r = Workshop4._get_risk_level (Workshop4.rs_risque_residuel r) /\
  (0 <= Workshop4.rs_reduction_pct r)%Q /\ (Workshop4.rs_reduction_pct r <= 90)%Q.

(** No existing measure has a negative efficacy. *)
Definition efficacites_positives (st : Workshop4.Assessment) : Prop :=
  Forall (fun m => (0 <= Workshop4.me_efficacite m)%Q) (Workshop4.mesures_existantes st).

(** An efficacy that passes the check of [add_mesure_traitement]:
    [0.0 <= efficacite <= 1.0]. *)
Definition efficacite_ok (efficacite : Py.float) : Prop :=
  Py.float_le (Py.float_dec 0 1) efficacite = true /\
  Py.float_le efficacite (Py.float_dec 10 1) = true.




(** A register in which two risks carry the same identifier. *)
Definition session_doublon : list Workshop5.op :=
  [ Workshop5.AddRisque "R1" "Fuite de données" 3 2 "SS1" 0;
    Workshop5.AddRisque "R1" "Indisponibilité" 2 2 "SS2" 1;
    Workshop5.AddMesureTraitement "Chiffrement" "Préventif" "Disques" 5000
      (Py.float_dec 7 1) 45 "RSSI" 2 ]%string.


(** * Properties *)

(** ** The risk matrix *)

Lemma in_scale_cases x : in_scale x -> x = 1 \/ x = 2 \/ x = 3 \/ x = 4.
Proof. unfold in_scale. lia. Qed.

(** C1. Inside the scale [1,4] x [1,4] [calculate_risk_level] returns the entry
    of the 4x4 table with its level name; as soon as one argument is outside
    [1,4] it raises the range error (a [ValueError]) and returns nothing. *)
Theorem calculate_risk_level_table (gravite vraisemblance : Z) :
  (in_scale gravite /\ in_scale vraisemblance ->
     RiskCalculator.calculate_risk_level gravite vraisemblance
     = Ok (spec_matrix gravite vraisemblance,
           spec_level (spec_matrix gravite vraisemblance)))
  /\
  (~ (in_scale gravite /\ in_scale vraisemblance) ->
     exists msg,
       RiskCalculator.calculate_risk_level gravite vraisemblance
       = Raise (ValueError msg)).
Proof.
  split.
  - intros [Hg Hv].
    destruct (in_scale_cases _ Hg) as [->|[->|[->| ->]]];
      destruct (in_scale_cases _ Hv) as [->|[->|[->| ->]]]; reflexivity.
  - intros Hout. unfold RiskCalculator.calculate_risk_level.
    destruct (_ && _) eqn:Hin; simpl.
    + exfalso. apply Hout. unfold in_scale.
      repeat (apply andb_prop in Hin; destruct Hin as [Hin ?]). lia.
    + eauto.
Qed.

(** ** Rounding *)

Lemma round_bounds x : Qfloor x <= Py.round x <= Qfloor x + 1.
Proof.
  unfold Py.round. destruct (Qcompare _ _); [destruct (Z.even _)|..]; lia.
Qed.

Lemma round_mono x y : (x <= y)%Q -> Py.round x <= Py.round y.
Proof.
  intros Hxy. pose proof (Qfloor_resp_le _ _ Hxy) as Hf.
  destruct (Z.eq_dec (Qfloor x) (Qfloor y)) as [Heq|Hne].
  - unfold Py.round. rewrite <- Heq.
    destruct (Qcompare_spec (x - inject_Z (Qfloor x)) (1 # 2)) as [Hx|Hx|Hx];
      destruct (Qcompare_spec (y - inject_Z (Qfloor x)) (1 # 2)) as [Hy|Hy|Hy];
      try destruct (Z.even _); try lia; exfalso; lra.
  - pose proof (round_bounds x). pose proof (round_bounds y). lia.
Qed.

Lemma round_inject_Z z : Py.round (inject_Z z) = z.
Proof.
  unfold Py.round. rewrite Qfloor_Z.
  destruct (Qcompare_spec (inject_Z z - inject_Z z) (1 # 2)) as [H|H|H];
    try lra; reflexivity.
Qed.

Lemma round_comp x y : x == y -> Py.round x = Py.round y.
Proof.
  intros H. apply Z.le_antisymm; apply round_mono; rewrite H; apply Qle_refl.
Qed.

(** The rounded value is a nearest integer: it is at most one half away. *)
Lemma round_nearest x :
  (inject_Z (Py.round x) - (1 # 2) <= x <= inject_Z (Py.round x) + (1 # 2))%Q.
Proof.
  unfold Py.round.
  pose proof (Qfloor_le x) as Hlo. pose proof (Qlt_floor x) as Hhi.
  rewrite inject_Z_plus in Hhi. change (inject_Z 1) with 1%Q in Hhi.
  destruct (Qcompare_spec (x - inject_Z (Qfloor x)) (1 # 2)) as [H|H|H];
    [destruct (Z.even _)|..]; rewrite ?inject_Z_plus;
    change (inject_Z 1) with 1%Q; split; lra.
Qed.

Lemma inject_Z_nonneg z : 0 <= z -> (0 <= inject_Z z)%Q.
Proof. intros H. change 0%Q with (inject_Z 0). rewrite <- Zle_Qle. exact H. Qed.

(** ** Residual risk of the calculator *)

Lemma residual_score_range initial e :
  in_scale initial -> (0 <= e <= 1)%Q -> 1 <= residual_score initial e <= initial.
Proof.
  intros [Hlo Hhi] [He0 He1]. unfold residual_score.
  assert (0 <= inject_Z initial)%Q as Hi by (apply inject_Z_nonneg; lia).
  assert (Py.round (inject_Z initial - inject_Z initial * e) <= initial) as Hr.
  { etransitivity; [apply (round_mono _ (inject_Z initial)); nra|].
    rewrite round_inject_Z. lia. }
  lia.
Qed.

Lemma calculate_residual_risk_ok initial e :
  in_scale initial -> (0 <= e <= 1)%Q ->
  exists niveau pct,
    RiskCalculator.calculate_residual_risk initial e
    = Ok (residual_score initial e, niveau, pct).
Proof.
  intros Hi He. pose proof (residual_score_range _ _ Hi He) as Hr.
  unfold RiskCalculator.calculate_residual_risk.
  destruct He as [He0 He1].
  rewrite (proj2 (Qle_bool_iff _ _) He0), (proj2 (Qle_bool_iff _ _) He1).
  destruct Hi as [Hlo Hhi].
  rewrite (proj2 (Z.leb_le _ _) Hlo), (proj2 (Z.leb_le _ _) Hhi). simpl.
  fold (residual_score initial e).
  assert (residual_score initial e = 1 \/ residual_score initial e = 2 \/
          residual_score initial e = 3 \/ residual_score initial e = 4) as Hc by lia.
  destruct Hc as [->|[->|[->| ->]]]; simpl; eauto.
Qed.

(** C7. For a fixed initial score in [1,4], the residual score returned by
    [calculate_residual_risk] does not increase when the efficacy grows inside
    [0,1], and with efficacy 0 the residual score is the initial score. *)
Theorem calculate_residual_risk_monotone (initial : Z) (e1 e2 : Q) :
  in_scale initial -> (0 <= e1)%Q -> (e1 <= e2)%Q -> (e2 <= 1)%Q ->
  exists r1 n1 p1 r2 n2 p2 n0 p0,
    RiskCalculator.calculate_residual_risk initial e1 = Ok (r1, n1, p1) /\
    RiskCalculator.calculate_residual_risk initial e2 = Ok (r2, n2, p2) /\
    r2 <= r1 /\
    RiskCalculator.calculate_residual_risk initial 0 = Ok (initial, n0, p0).
Proof.
  intros Hi H0 H12 H1.
  destruct (calculate_residual_risk_ok initial e1 Hi) as (n1 & p1 & E1); [lra|].
  destruct (calculate_residual_risk_ok initial e2 Hi) as (n2 & p2 & E2); [lra|].
  destruct (calculate_residual_risk_ok initial 0 Hi) as (n0 & p0 & E0); [lra|].
  exists (residual_score initial e1), n1, p1, (residual_score initial e2), n2, p2, n0, p0.
  repeat split; try assumption.
  - unfold residual_score. apply Z.max_le_compat_l, round_mono.
    assert (0 <= inject_Z initial)%Q
      by (apply inject_Z_nonneg; unfold in_scale in Hi; lia).
    nra.
  - rewrite E0. repeat f_equal. unfold residual_score.
    rewrite (round_comp _ (inject_Z initial)) by ring.
    rewrite round_inject_Z. unfold in_scale in Hi. lia.
Qed.

Lemma calculate_residual_risk_monotone_witness :
  exists r1 n1 p1 r2 n2 p2 n0 p0,
    RiskCalculator.calculate_residual_risk 3 (1 # 4) = Ok (r1, n1, p1) /\
    RiskCalculator.calculate_residual_risk 3 (7 # 10) = Ok (r2, n2, p2) /\
    r2 <= r1 /\
    RiskCalculator.calculate_residual_risk 3 0 = Ok (3, n0, p0).
Proof.
  apply (calculate_residual_risk_monotone 3 (1 # 4) (7 # 10)).
  - unfold in_scale. lia.
  - vm_compute. discriminate.
  - vm_compute. discriminate.
  - vm_compute. discriminate.
Defined.

(** ** Workshop 3: the third-party score ignores trust *)

(** C9. Two calls of [add_partie_prenante] on the same state that differ only
    in [confiance] both return, and the stakeholders they create (and append)
    carry the same [score_risque_tiers], namely
    round((dependance + exposition - maturite) / 3, 1), and the same
    [niveau_criticite], the band of that score. *)
Theorem add_partie_prenante_ignores_confiance
    (st : Workshop3.Assessment) (nom type_pp : string)
    (dependance exposition confiance1 confiance2 maturite : Z) :
  exists pp1 pp2,
    Workshop3.add_partie_prenante nom type_pp dependance exposition confiance1 maturite st
    = (Ok pp1, {| Workshop3.parties_prenantes := Workshop3.parties_prenantes st ++ [pp1] |}) /\
    Workshop3.add_partie_prenante nom type_pp dependance exposition confiance2 maturite st
    = (Ok pp2, {| Workshop3.parties_prenantes := Workshop3.parties_prenantes st ++ [pp2] |}) /\
    Workshop3.pp_score_risque_tiers pp1
    = Py.round_nd (inject_Z (dependance + exposition - maturite) / 3) 1 /\
    Workshop3.pp_score_risque_tiers pp2 = Workshop3.pp_score_risque_tiers pp1 /\
    Workshop3.pp_niveau_criticite pp1
    = Workshop3._get_criticite_level (Workshop3.pp_score_risque_tiers pp1) /\
    Workshop3.pp_niveau_criticite pp2 = Workshop3.pp_niveau_criticite pp1 /\
    Workshop3.pp_id pp2 = Workshop3.pp_id pp1.
Proof.
  unfold Workshop3.add_partie_prenante.
  eexists _, _. repeat split; reflexivity.
Qed.

(** ** Searching a list of dictionaries by identifier *)

Section FindByKey.
Context {A : Type} (key : A -> string).

(** Two lists with the same identifiers, position by position, resolve an
    identifier at the same position. *)
Lemma list_find_same_keys (l l' : list A) (k : string) (j : nat) (y : A) :
  list_find (fun x => key x = k) l = Some (j, y) ->
  key <$> l' = key <$> l ->
  exists y', list_find (fun x => key x = k) l' = Some (j, y') /\ l' !! j = Some y'.
Proof.
  intros Hf Hkeys. apply list_find_Some in Hf as (Hj & Hk & Hbefore).
  assert (exists y', l' !! j = Some y' /\ key y' = key y) as (y' & Hj' & Hky).
  { assert ((key <$> l') !! j = Some (key y)) as H
      by (rewrite Hkeys, list_lookup_fmap, Hj; reflexivity).
    rewrite list_lookup_fmap in H. destruct (l' !! j) as [y'|]; [|discriminate].
    exists y'. split; [reflexivity|]. simpl in H. congruence. }
  exists y'. split; [|exact Hj'].
  apply list_find_Some. split; [exact Hj'|]. split; [congruence|].
  intros j0 y0 Hj0 Hlt Hk0.
  assert ((key <$> l) !! j0 = Some (key y0)) as H
    by (rewrite <- Hkeys, list_lookup_fmap, Hj0; reflexivity).
  rewrite list_lookup_fmap in H. destruct (l !! j0) as [z|] eqn:Hz; [|discriminate].
  simpl in H. apply (Hbefore j0 z Hz Hlt). congruence.
Qed.

Lemma list_find_key_None (l : list A) (k : string) :
  k ∉ key <$> l -> list_find (fun x => key x = k) l = None.
Proof.
  intros Hnot. destruct (list_find _ _) as [[i s]|] eqn:Hf; [|reflexivity].
  apply list_find_Some in Hf as (Hi & Hid & _).
  exfalso. apply Hnot. apply list_elem_of_fmap. exists s. split; [done|].
  eapply list_elem_of_lookup_2; eassumption.
Qed.

(** With pairwise distinct identifiers, every element is the one its own
    identifier resolves to. *)
Lemma list_find_NoDup (l : list A) (i : nat) (x : A) :
  NoDup (key <$> l) -> l !! i = Some x ->
  list_find (fun y => key y = key x) l = Some (i, x).
Proof.
  intros Hnd Hi. apply list_find_Some. split; [exact Hi|]. split; [reflexivity|].
  intros j y Hj Hlt Hk.
  assert (j = i); [|lia].
  eapply (NoDup_lookup (key <$> l) j i (key x)); [exact Hnd|..];
    rewrite list_lookup_fmap.
  - rewrite Hj. simpl. congruence.
  - rewrite Hi. reflexivity.
Qed.

Lemma insert_same_key (l : list A) (i : nat) (x x' : A) :
  l !! i = Some x -> key x' = key x -> key <$> <[i := x']> l = key <$> l.
Proof.
  intros Hi Hk. rewrite list_fmap_insert, Hk.
  apply list_insert_id. rewrite list_lookup_fmap, Hi. reflexivity.
Qed.

End FindByKey.

(** ** Unknown references *)

Lemma find_source_None (st : Workshop2.Assessment) (sr_id0 : string) :
  sr_id0 ∉ Workshop2.sr_id <$> Workshop2.sources_risque st ->
  Workshop2.find_source st sr_id0 = None.
Proof.
  intros Hnot. unfold Workshop2.find_source.
  rewrite (list_find_key_None Workshop2.sr_id) by exact Hnot. reflexivity.
Qed.

Lemma find_objectif_None (st : Workshop2.Assessment) (ov_id0 : string) :
  ov_id0 ∉ Workshop2.ov_id <$> Workshop2.objectifs_vises st ->
  Workshop2.find_objectif st ov_id0 = None.
Proof.
  intros Hnot. unfold Workshop2.find_objectif.
  rewrite (list_find_key_None Workshop2.ov_id) by exact Hnot. reflexivity.
Qed.

Lemma find_risque_None (st : Workshop5.Assessment) (risque_id : string) :
  risque_id ∉ Workshop5.r_id <$> Workshop5.risques st ->
  Workshop5.find_risque st risque_id = None.
Proof. apply (list_find_key_None Workshop5.r_id). Qed.

(** C6. With a relevance in [1,4], [map_sr_to_ov] on a source or objective
    identifier that is in no entity of the collections returns the empty
    result and leaves the assessment as it was; [define_traitement],
    [calculate_risque_residuel] and [accept_risque] on a risk identifier that
    is in no risk of the register raise a [ValueError] (and write nothing). *)
Theorem unknown_reference_asymmetry
    (w2 : Workshop2.Assessment) (w5 : Workshop5.Assessment)
    (sr_id0 ov_id0 risque_id : string) (pertinence : Z) :
  in_scale pertinence ->
  sr_id0 ∉ Workshop2.sr_id <$> Workshop2.sources_risque w2 \/
  ov_id0 ∉ Workshop2.ov_id <$> Workshop2.objectifs_vises w2 ->
  risque_id ∉ Workshop5.r_id <$> Workshop5.risques w5 ->
  Workshop2.map_sr_to_ov sr_id0 ov_id0 pertinence w2 = (Ok None, w2) /\
  (forall option justification now, exists msg,
     Workshop5.define_traitement risque_id option justification now w5
     = (Raise (ValueError msg), w5)) /\
  (forall now, exists msg,
     Workshop5.calculate_risque_residuel risque_id now w5
     = (Raise (ValueError msg), w5)) /\
  (forall acceptant justification now_calcul now_acceptation now_revue, exists msg,
     Workshop5.accept_risque risque_id acceptant justification
       now_calcul now_acceptation now_revue w5
     = (Raise (ValueError msg), w5)).
Proof.
  intros [Hlo Hhi] Hunknown Hrisk.
  apply find_risque_None in Hrisk.
  split; [|split; [|split]].
  - unfold Workshop2.map_sr_to_ov.
    rewrite (proj2 (Z.leb_le _ _) Hlo), (proj2 (Z.leb_le _ _) Hhi). simpl.
    destruct Hunknown as [H|H].
    + rewrite (find_source_None _ _ H). reflexivity.
    + rewrite (find_objectif_None _ _ H).
      destruct (Workshop2.find_source _ _); reflexivity.
  - intros option justification now. unfold Workshop5.define_traitement.
    destruct (negb _); [eauto|]. rewrite Hrisk. eauto.
  - intros now. unfold Workshop5.calculate_risque_residuel. rewrite Hrisk. eauto.
  - intros acceptant justification now_calcul now_acceptation now_revue.
    unfold Workshop5.accept_risque. rewrite Hrisk. eauto.
Qed.

Lemma unknown_reference_asymmetry_witness :
  Workshop2.map_sr_to_ov "SR1" "OV2" 3
    (snd (Workshop2.add_objectif_vise "Vol de données" "Exfiltration" 4
            (snd (Workshop2.add_source_risque "Cybercriminel" "Crime organisé" 3 4 3
                    Workshop2.init))))
  = (Ok None,
     snd (Workshop2.add_objectif_vise "Vol de données" "Exfiltration" 4
            (snd (Workshop2.add_source_risque "Cybercriminel" "Crime organisé" 3 4 3
                    Workshop2.init)))) /\
  (exists msg,
     Workshop5.accept_risque "R2" "Direction" "Risque toléré" 1 2 3
       (Workshop5.run Workshop5.init
          [Workshop5.AddRisque "R1" "Fuite de données" 3 2 "SS1" 0])
     = (Raise (ValueError msg),
        Workshop5.run Workshop5.init
          [Workshop5.AddRisque "R1" "Fuite de données" 3 2 "SS1" 0])).
Proof.
  destruct (unknown_reference_asymmetry
              (snd (Workshop2.add_objectif_vise "Vol de données" "Exfiltration" 4
                      (snd (Workshop2.add_source_risque "Cybercriminel" "Crime organisé"
                              3 4 3 Workshop2.init))))
              (Workshop5.run Workshop5.init
                 [Workshop5.AddRisque "R1" "Fuite de données" 3 2 "SS1" 0])
              "SR1" "OV2" "R2" 3) as (Hmap & _ & _ & Haccept).
  - unfold in_scale. lia.
  - right. vm_compute. intros H. apply list_elem_of_singleton in H. discriminate.
  - vm_compute. intros H. apply list_elem_of_singleton in H. discriminate.
  - split; [exact Hmap|apply Haccept].
Defined.

(** ** Range checks of the add operations *)

(** The operations that do check their ratings raise before they write. *)
Lemma add_mission_range_checked st nom description criticite :
  ~ in_scale criticite ->
  exists msg,
    Workshop1.add_mission nom description criticite st = (Raise (ValueError msg), st).
Proof.
  intros Hout. unfold Workshop1.add_mission.
  destruct (_ && _) eqn:Hin; simpl; [|eauto].
  exfalso. apply Hout. apply andb_prop in Hin as [? ?]. unfold in_scale. lia.
Qed.

Lemma add_evenement_redoute_range_checked st nom description gravite biens :
  ~ in_scale gravite ->
  exists msg,
    Workshop1.add_evenement_redoute nom description gravite biens st
    = (Raise (ValueError msg), st).
Proof.
  intros Hout. unfold Workshop1.add_evenement_redoute.
  destruct (_ && _) eqn:Hin; simpl; [|eauto].
  exfalso. apply Hout. apply andb_prop in Hin as [? ?]. unfold in_scale. lia.
Qed.

Lemma evaluate_socle_range_checked st domaine score :
  ~ (0 <= score <= 100)%Q ->
  exists msg,
    Workshop1.evaluate_socle domaine score st = (Raise (ValueError msg), st).
Proof.
  intros Hout. unfold Workshop1.evaluate_socle.
  destruct (_ && _) eqn:Hin; simpl; [|eauto].
  exfalso. apply Hout. apply andb_prop in Hin as [H1 H2].
  apply Qle_bool_iff in H1, H2. auto.
Qed.

Lemma add_source_risque_range_checked st nom type_sr ressources determination competences :
  ~ (in_scale ressources /\ in_scale determination /\ in_scale competences) ->
  exists msg,
    Workshop2.add_source_risque nom type_sr ressources determination competences st
    = (Raise (ValueError msg), st).
Proof.
  intros Hout. unfold Workshop2.add_source_risque.
  destruct (forallb _ _) eqn:Hin; simpl; [|eauto].
  exfalso. apply Hout. simpl in Hin.
  repeat (apply andb_prop in Hin as [? Hin]).
  repeat match goal with H : (_ && _)%bool = true |- _ => apply andb_prop in H as [? ?] end.
  unfold in_scale. lia.
Qed.

Lemma add_objectif_vise_range_checked st nom description impact :
  ~ in_scale impact ->
  exists msg,
    Workshop2.add_objectif_vise nom description impact st = (Raise (ValueError msg), st).
Proof.
  intros Hout. unfold Workshop2.add_objectif_vise.
  destruct (_ && _) eqn:Hin; simpl; [|eauto].
  exfalso. apply Hout. apply andb_prop in Hin as [? ?]. unfold in_scale. lia.
Qed.

Lemma map_sr_to_ov_range_checked st sr_id0 ov_id0 pertinence :
  ~ in_scale pertinence ->
  exists msg,
    Workshop2.map_sr_to_ov sr_id0 ov_id0 pertinence st = (Raise (ValueError msg), st).
Proof.
  intros Hout. unfold Workshop2.map_sr_to_ov.
  destruct (_ && _) eqn:Hin; simpl; [|eauto].
  exfalso. apply Hout. apply andb_prop in Hin as [? ?]. unfold in_scale. lia.
Qed.

Lemma add_mesure_traitement_range_checked
    st nom type_mesure description cout efficacite delai responsable now :
  ~ efficacite_ok efficacite ->
  exists msg,
    Workshop5.add_mesure_traitement nom type_mesure description cout efficacite delai
      responsable now st
    = (Raise (ValueError msg), st).
Proof.
  intros Hout. unfold Workshop5.add_mesure_traitement.
  destruct (_ && _) eqn:Hin; simpl; [|eauto].
  exfalso. apply Hout. apply andb_prop in Hin as [H1 H2]. split; assumption.
Qed.




(** C4 (the code does not do what the claim says).  [add_mesure_existante]
    checks nothing: for every efficacy, 3/2 included, it returns and appends
    the measure; and [add_risque] with gravity 0 and likelihood 0 returns and
    appends a risk of gross score 4, the last cell of the matrix. *)
Theorem range_violation_appends_entity :
  (forall st nom type_mesure efficacite couverture,
     exists mesure,
       Workshop4.add_mesure_existante nom type_mesure efficacite couverture st
       = (Ok mesure,
          {| Workshop4.scenarios_operationnels := Workshop4.scenarios_operationnels st;
             Workshop4.actions_elementaires := Workshop4.actions_elementaires st;
             Workshop4.mesures_existantes := Workshop4.mesures_existantes st ++ [mesure];
             Workshop4.synthese_risques := Workshop4.synthese_risques st |}) /\
       Workshop4.me_efficacite mesure = efficacite) /\
  (exists mesure st',
     Workshop4.add_mesure_existante "Pare-feu" "Préventif" (3 # 2) ["AE1"] Workshop4.init
     = (Ok mesure, st') /\
     Workshop4.mesures_existantes st' = [mesure] /\
     Workshop4.me_efficacite mesure = (3 # 2)%Q) /\
  (exists risque st',
     Workshop5.add_risque "R1" "Fuite de données" 0 0 "SS1" 0 Workshop5.init
     = (Ok risque, st') /\
     Workshop5.risques st' = [risque] /\
     Workshop5.r_gravite risque = 0 /\
     Workshop5.r_vraisemblance risque = 0 /\
     Workshop5.r_score_brut risque = 4 /\
     Workshop5.r_niveau_brut risque = "Critique").
Proof.
  split; [|split].
  - intros. eexists. split; reflexivity.
  - eexists _, _. repeat split; reflexivity.
  - eexists _, _. repeat split; reflexivity.
Qed.

(** ** Workshop 5: the lifecycle of a risk *)

Lemma find_risque_Some st risque_id i r :
  Workshop5.find_risque st risque_id = Some (i, r) ->
  Workshop5.risques st !! i = Some r /\ Workshop5.r_id r = risque_id.
Proof.
  unfold Workshop5.find_risque. intros H.
  apply list_find_Some in H as (? & ? & _). auto.
Qed.

(** What one operation does to the risk stored at a position: the risk stays
    there with its identifier, and its status is kept, unless the operation
    is [define_traitement] on its identifier (then StrategieDefinie) or
    [accept_risque] on its identifier (then Accepte). *)
Lemma step_statut (st : Workshop5.Assessment) (o : Workshop5.op) (i : nat)
    (r : Workshop5.Risque) :
  Workshop5.risques st !! i = Some r ->
  exists r',
    Workshop5.risques (Workshop5.step st o) !! i = Some r' /\
    Workshop5.r_id r' = Workshop5.r_id r /\
    (Workshop5.r_statut r' = Workshop5.r_statut r \/
     (is_define_on (Workshop5.r_id r) o /\
      Workshop5.r_statut r' = Workshop5.StrategieDefinie) \/
     (is_accept_on (Workshop5.r_id r) o /\
      Workshop5.r_statut r' = Workshop5.Accepte)).
Proof.
  intros Hi. destruct o as [rid nom g v ref now | rid opt j now
                           | nom ty d c e dl resp now | rid mid | rid now
                           | rid a j now]; simpl.
  - unfold Workshop5.add_risque.
    destruct (Workshop5._calculate_risk_score g v); simpl.
    + exists r. rewrite (lookup_app_l_Some _ _ _ _ Hi). auto.
    + exists r. auto.
  - unfold Workshop5.define_traitement.
    destruct (negb _); simpl; [exists r; auto|].
    destruct (Workshop5.find_risque st rid) as [[k r0]|] eqn:Hf; simpl;
      [|exists r; auto].
    apply find_risque_Some in Hf as [Hk Hid].
    destruct (decide (k = i)) as [->|Hne].
    + rewrite list_lookup_insert_eq by (eapply lookup_lt_Some; eassumption).
      eexists. split; [reflexivity|]. simpl.
      assert (r0 = r) as -> by congruence.
      split; [reflexivity|]. right. left. auto.
    + rewrite list_lookup_insert_ne by assumption. exists r. auto.
  - unfold Workshop5.add_mesure_traitement.
    destruct (negb _); simpl; exists r; auto.
  - unfold Workshop5.associate_mesure_to_risque.
    destruct (Workshop5.find_risque st rid) as [[k r0]|] eqn:Hf; simpl;
      [|exists r; auto].
    destruct (Workshop5.find_mesure st mid) as [[k' m0]|]; simpl;
      [|exists r; auto].
    apply find_risque_Some in Hf as [Hk Hid].
    destruct (decide (k = i)) as [->|Hne].
    + rewrite list_lookup_insert_eq by (eapply lookup_lt_Some; eassumption).
      eexists. split; [reflexivity|]. simpl.
      assert (r0 = r) as -> by congruence. auto.
    + rewrite list_lookup_insert_ne by assumption. exists r. auto.
  - unfold Workshop5.calculate_risque_residuel.
    destruct (Workshop5.find_risque st rid) as [[k r0]|]; simpl; [|exists r; auto].
    destruct (Workshop5.residuel_entry _ _ _ _); simpl; exists r; auto.
  - unfold Workshop5.accept_risque, Workshop5.calculate_risque_residuel.
    destruct (Workshop5.find_risque st rid) as [[k r0]|] eqn:Hf; simpl;
      [|exists r; auto].
    apply find_risque_Some in Hf as [Hk Hid].
    destruct (Workshop5.residuel_entry _ _ _ _); simpl; [|exists r; auto].
    rewrite list_lookup_alter.
    destruct (decide (k = i)) as [->|Hne].
    + rewrite Hi. simpl. eexists. split; [reflexivity|]. simpl.
      assert (r0 = r) as -> by congruence.
      split; [reflexivity|]. right. right. auto.
    + exists r. auto.
Qed.

(** C3, as the code has it.  Along every sequence of operations a risk keeps
    its position and identifier; its status never returns to Untreated; and
    its rank in Untreated < StrategyDefined < Accepted does not decrease as
    long as no [define_traitement] is applied to its identifier.
    [define_traitement] itself, on a known risk and with a valid option,
    writes the option and the justification and sets the status to
    StrategyDefined whatever it was before, Accepted included. *)
Theorem statut_forward_except_define_traitement
    (st : Workshop5.Assessment) (ops : list Workshop5.op) (i : nat)
    (r : Workshop5.Risque) :
  Workshop5.risques st !! i = Some r ->
  (exists r',
     Workshop5.risques (Workshop5.run st ops) !! i = Some r' /\
     Workshop5.r_id r' = Workshop5.r_id r /\
     (1 <= statut_rank (Workshop5.r_statut r) ->
      1 <= statut_rank (Workshop5.r_statut r')) /\
     (Forall (fun o => ~ is_define_on (Workshop5.r_id r) o) ops ->
      statut_rank (Workshop5.r_statut r) <= statut_rank (Workshop5.r_statut r')))
  /\
  (forall option justification now,
     option ∈ Workshop5.options_valides ->
     Workshop5.find_risque st (Workshop5.r_id r) = Some (i, r) ->
     exists r',
       Workshop5.define_traitement (Workshop5.r_id r) option justification now st
       = (Ok r', Workshop5.set_risques (<[i := r']> (Workshop5.risques st)) st) /\
       Workshop5.r_statut r' = Workshop5.StrategieDefinie /\
       Workshop5.r_option_traitement r' = Some option /\
       Workshop5.r_justification r' = Some justification).
Proof.
  intros Hi. split.
  - revert st r Hi. induction ops as [|o ops IH]; intros st r Hi.
    + exists r. simpl. repeat split; auto. lia.
    + destruct (step_statut st o i r Hi) as (r1 & H1 & Hid1 & Hs1).
      destruct (IH _ _ H1) as (r' & H' & Hid' & Hpos & Hfwd).
      exists r'. simpl. split; [exact H'|]. split; [congruence|]. split.
      * intros Hr. apply Hpos.
        destruct Hs1 as [->|[[_ ->]|[_ ->]]]; simpl; lia.
      * intros Hall. apply Forall_cons in Hall as [Ho Hall].
        rewrite Hid1 in Hfwd. specialize (Hfwd Hall).
        destruct Hs1 as [Hs|[[Hd _]|[_ Hs]]].
        -- rewrite <- Hs. exact Hfwd.
        -- contradiction.
        -- rewrite Hs in Hfwd. simpl in Hfwd.
           destruct (Workshop5.r_statut r); simpl; lia.
  - intros option justification now Hopt Hf.
    unfold Workshop5.define_traitement, Py.mem.
    rewrite bool_decide_eq_true_2 by exact Hopt. simpl. rewrite Hf.
    eexists. split; [reflexivity|]. simpl. auto.
Qed.

Lemma statut_forward_except_define_traitement_witness :
  exists r',
    Workshop5.risques
      (Workshop5.run
         (Workshop5.run Workshop5.init [Workshop5.AddRisque "R1" "Fuite de données" 3 2 "SS1" 0])
         [Workshop5.AddMesureTraitement "Chiffrement" "Préventif" "Disques" 5000 (Py.float_dec 7 1) 45
            "RSSI" 1;
          Workshop5.AssociateMesureToRisque "R1" "M1";
          Workshop5.AcceptRisque "R1" "Direction" "Risque toléré" 2 3 4]) !! 0%nat = Some r' /\
    Workshop5.r_id r' = "R1" /\
    0 <= statut_rank (Workshop5.r_statut r').
Proof.
  destruct (statut_forward_except_define_traitement
              (Workshop5.run Workshop5.init
                 [Workshop5.AddRisque "R1" "Fuite de données" 3 2 "SS1" 0])
              [Workshop5.AddMesureTraitement "Chiffrement" "Préventif" "Disques" 5000 (Py.float_dec 7 1)
                 45 "RSSI" 1;
               Workshop5.AssociateMesureToRisque "R1" "M1";
               Workshop5.AcceptRisque "R1" "Direction" "Risque toléré" 2 3 4]
              0%nat _ eq_refl) as [(r' & Hr' & Hid & _ & Hfwd) _].
  exists r'. split; [exact Hr'|]. split; [exact Hid|].
  apply Hfwd. repeat constructor; simpl; auto.
Defined.

(** C3, as the claim states it, fails: after [add_risque] and [accept_risque]
    the risk is Accepted, and [define_traitement] on it returns and leaves it
    StrategyDefined, one rank lower. *)
Lemma define_traitement_reverts_accepted_statut :
  exists r r',
    Workshop5.risques
      (Workshop5.run Workshop5.init
         [Workshop5.AddRisque "R1" "Fuite de données" 3 2 "SS1" 0;
          Workshop5.AcceptRisque "R1" "Direction" "Risque toléré" 1 2 3]) !! 0%nat = Some r /\
    Workshop5.r_statut r = Workshop5.Accepte /\
    Workshop5.define_traitement "R1" "Atténuation" "Nouveau plan" 4
      (Workshop5.run Workshop5.init
         [Workshop5.AddRisque "R1" "Fuite de données" 3 2 "SS1" 0;
          Workshop5.AcceptRisque "R1" "Direction" "Risque toléré" 1 2 3])
    = (Ok r',
       Workshop5.run Workshop5.init
         [Workshop5.AddRisque "R1" "Fuite de données" 3 2 "SS1" 0;
          Workshop5.AcceptRisque "R1" "Direction" "Risque toléré" 1 2 3;
          Workshop5.DefineTraitement "R1" "Atténuation" "Nouveau plan" 4]) /\
    Workshop5.risques
      (Workshop5.run Workshop5.init
         [Workshop5.AddRisque "R1" "Fuite de données" 3 2 "SS1" 0;
          Workshop5.AcceptRisque "R1" "Direction" "Risque toléré" 1 2 3;
          Workshop5.DefineTraitement "R1" "Atténuation" "Nouveau plan" 4]) !! 0%nat = Some r' /\
    Workshop5.r_statut r' = Workshop5.StrategieDefinie /\
    statut_rank (Workshop5.r_statut r') < statut_rank (Workshop5.r_statut r).
Proof.
  eexists _, _. repeat split; try (vm_compute; reflexivity).
Qed.

Lemma find_mesure_Some st mesure_id j m :
  Workshop5.find_mesure st mesure_id = Some (j, m) ->
  Workshop5.mesures_traitement st !! j = Some m /\ Workshop5.mt_id m = mesure_id.
Proof.
  unfold Workshop5.find_mesure. intros H.
  apply list_find_Some in H as (? & ? & _). auto.
Qed.

Lemma elem_of_append_if_absent (x y : string) (l : list string) :
  y ∈ Workshop5.append_if_absent x l <-> y = x \/ y ∈ l.
Proof.
  unfold Workshop5.append_if_absent, Py.mem. case_bool_decide as Hx.
  - split; [auto|]. intros [->|H]; assumption.
  - rewrite elem_of_app, list_elem_of_singleton. tauto.
Qed.

Lemma append_if_absent_idem (x : string) (l : list string) :
  Workshop5.append_if_absent x (Workshop5.append_if_absent x l)
  = Workshop5.append_if_absent x l.
Proof.
  unfold Workshop5.append_if_absent at 1. unfold Py.mem.
  rewrite bool_decide_eq_true_2; [reflexivity|].
  apply elem_of_append_if_absent. auto.
Qed.

(** ** Workshop 5: linking measures and risks *)

(** What a successful [associate_mesure_to_risque] leaves behind. *)
Lemma associate_found st risque_id mesure_id i r j m :
  Workshop5.find_risque st risque_id = Some (i, r) ->
  Workshop5.find_mesure st mesure_id = Some (j, m) ->
  Workshop5.associate_mesure_to_risque risque_id mesure_id st
  = (Ok true,
     Workshop5.set_mesures
       (<[j := Workshop5.with_risques_couverts
                 (Workshop5.append_if_absent risque_id (Workshop5.mt_risques_couverts m)) m]>
          (Workshop5.mesures_traitement st))
       (Workshop5.set_risques
          (<[i := Workshop5.with_mesures_associees
                    (Workshop5.append_if_absent mesure_id (Workshop5.r_mesures_associees r)) r]>
             (Workshop5.risques st)) st)).
Proof.
  intros Hr Hm. unfold Workshop5.associate_mesure_to_risque. rewrite Hr, Hm. reflexivity.
Qed.

Lemma associate_preserves_links st risque_id mesure_id :
  links_consistent st ->
  links_consistent (snd (Workshop5.associate_mesure_to_risque risque_id mesure_id st)).
Proof.
  intros Hinv.
  destruct (Workshop5.find_risque st risque_id) as [[i0 r0]|] eqn:Hr0;
    [|unfold Workshop5.associate_mesure_to_risque; rewrite Hr0; exact Hinv].
  destruct (Workshop5.find_mesure st mesure_id) as [[j0 m0]|] eqn:Hm0;
    [|unfold Workshop5.associate_mesure_to_risque; rewrite Hr0, Hm0; exact Hinv].
  rewrite (associate_found _ _ _ _ _ _ _ Hr0 Hm0). simpl.
  pose proof (find_risque_Some _ _ _ _ Hr0) as [Hi0 Hid0].
  pose proof (find_mesure_Some _ _ _ _ Hm0) as [Hj0 Hmid0].
  intros rid mid i r' j m' Hr' Hm'.
  unfold Workshop5.find_risque in Hr'. unfold Workshop5.find_mesure in Hm'.
  simpl in Hr', Hm'.
  destruct (list_find_same_keys Workshop5.r_id _ (Workshop5.risques st) rid i r' Hr')
    as (r & Hr & Hir).
  { symmetry. eapply insert_same_key; [exact Hi0|reflexivity]. }
  destruct (list_find_same_keys Workshop5.mt_id _ (Workshop5.mesures_traitement st) mid j m'
              Hm') as (m & Hm & Hjm).
  { symmetry. eapply insert_same_key; [exact Hj0|reflexivity]. }
  specialize (Hinv rid mid i r j m Hr Hm).
  apply list_find_Some in Hr' as (Hir' & Hrid' & _).
  apply list_find_Some in Hm' as (Hjm' & Hmid' & _).
  (* the risk read back *)
  assert ((i = i0 /\ rid = risque_id /\ r = r0 /\
           Workshop5.r_mesures_associees r'
           = Workshop5.append_if_absent mesure_id (Workshop5.r_mesures_associees r0))
          \/ (rid <> risque_id /\ r' = r)) as Hcase_r.
  { destruct (decide (i = i0)) as [->|Hne].
    - left. rewrite list_lookup_insert_eq in Hir'
        by (eapply lookup_lt_Some; exact Hi0).
      injection Hir' as <-. simpl in Hrid'.
      repeat split; congruence.
    - right. rewrite list_lookup_insert_ne in Hir' by auto.
      split; [|congruence].
      intros ->. unfold Workshop5.find_risque in Hr0, Hr. congruence. }
  assert ((j = j0 /\ mid = mesure_id /\ m = m0 /\
           Workshop5.mt_risques_couverts m'
           = Workshop5.append_if_absent risque_id (Workshop5.mt_risques_couverts m0))
          \/ (mid <> mesure_id /\ m' = m)) as Hcase_m.
  { destruct (decide (j = j0)) as [->|Hne].
    - left. rewrite list_lookup_insert_eq in Hjm'
        by (eapply lookup_lt_Some; exact Hj0).
      injection Hjm' as <-. simpl in Hmid'.
      repeat split; congruence.
    - right. rewrite list_lookup_insert_ne in Hjm' by auto.
      split; [|congruence].
      intros ->. unfold Workshop5.find_mesure in Hm0, Hm. congruence. }
  destruct Hcase_r as [(-> & -> & -> & ->)|[Hnr ->]];
    destruct Hcase_m as [(-> & -> & -> & ->)|[Hnm ->]];
    rewrite ?elem_of_append_if_absent; tauto.
Qed.

Lemma associate_all_preserves_links st calls :
  links_consistent st -> links_consistent (associate_all st calls).
Proof.
  revert st. induction calls as [|[rid mid] calls IH]; intros st Hinv; [exact Hinv|].
  simpl. apply IH. apply associate_preserves_links. exact Hinv.
Qed.

Lemma with_mesures_associees_same l r :
  l = Workshop5.r_mesures_associees r -> Workshop5.with_mesures_associees l r = r.
Proof. intros ->. destruct r; reflexivity. Qed.

Lemma with_risques_couverts_same l m :
  l = Workshop5.mt_risques_couverts m -> Workshop5.with_risques_couverts l m = m.
Proof. intros ->. destruct m; reflexivity. Qed.

(** Associating twice is associating once. *)
Lemma associate_idempotent st risque_id mesure_id :
  Workshop5.associate_mesure_to_risque risque_id mesure_id
    (snd (Workshop5.associate_mesure_to_risque risque_id mesure_id st))
  = Workshop5.associate_mesure_to_risque risque_id mesure_id st.
Proof.
  destruct (Workshop5.find_risque st risque_id) as [[i r]|] eqn:Hr;
    [|unfold Workshop5.associate_mesure_to_risque; rewrite Hr; simpl; rewrite Hr; reflexivity].
  destruct (Workshop5.find_mesure st mesure_id) as [[j m]|] eqn:Hm;
    [|unfold Workshop5.associate_mesure_to_risque; rewrite Hr, Hm; simpl;
      rewrite Hr, Hm; reflexivity].
  rewrite (associate_found _ _ _ _ _ _ _ Hr Hm). simpl.
  pose proof (find_risque_Some _ _ _ _ Hr) as [Hi Hid].
  pose proof (find_mesure_Some _ _ _ _ Hm) as [Hj Hmid].
  set (r' := Workshop5.with_mesures_associees _ r).
  set (m' := Workshop5.with_risques_couverts _ m).
  set (st' := Workshop5.set_mesures _ _).
  assert (Workshop5.find_risque st' risque_id = Some (i, r')) as Hr'.
  { destruct (list_find_same_keys Workshop5.r_id (Workshop5.risques st)
                (Workshop5.risques st') risque_id i r Hr) as (y & Hy & Hiy);
      [eapply insert_same_key; [exact Hi|reflexivity]|].
    simpl in Hiy. rewrite list_lookup_insert_eq in Hiy
      by (eapply lookup_lt_Some; exact Hi).
    unfold Workshop5.find_risque. congruence. }
  assert (Workshop5.find_mesure st' mesure_id = Some (j, m')) as Hm'.
  { destruct (list_find_same_keys Workshop5.mt_id (Workshop5.mesures_traitement st)
                (Workshop5.mesures_traitement st') mesure_id j m Hm) as (y & Hy & Hjy);
      [eapply insert_same_key; [exact Hj|reflexivity]|].
    simpl in Hjy. rewrite list_lookup_insert_eq in Hjy
      by (eapply lookup_lt_Some; exact Hj).
    unfold Workshop5.find_mesure. congruence. }
  rewrite (associate_found _ _ _ _ _ _ _ Hr' Hm'). f_equal.
  rewrite with_mesures_associees_same
    by (subst r'; simpl; apply append_if_absent_idem).
  rewrite with_risques_couverts_same
    by (subst m'; simpl; apply append_if_absent_idem).
  subst st'. unfold Workshop5.set_mesures, Workshop5.set_risques. simpl.
  rewrite !list_insert_insert_eq. reflexivity.
Qed.

Lemma find_mesure_None (st : Workshop5.Assessment) (mesure_id : string) :
  mesure_id ∉ Workshop5.mt_id <$> Workshop5.mesures_traitement st ->
  Workshop5.find_mesure st mesure_id = None.
Proof. apply (list_find_key_None Workshop5.mt_id). Qed.

(** On a register whose risk identifiers are pairwise distinct, and whose
    measure identifiers are, the consistency of the links reads on the stored
    risks and measures themselves. *)
Lemma links_consistent_on_objects (st : Workshop5.Assessment) :
  NoDup (Workshop5.r_id <$> Workshop5.risques st) ->
  NoDup (Workshop5.mt_id <$> Workshop5.mesures_traitement st) ->
  links_consistent st -> links_consistent_objects st.
Proof.
  intros Hr Hm Hinv r m Hinr Hinm.
  apply list_elem_of_lookup_1 in Hinr as [i Hi].
  apply list_elem_of_lookup_1 in Hinm as [j Hj].
  apply (Hinv (Workshop5.r_id r) (Workshop5.mt_id m) i r j m).
  - apply (list_find_NoDup Workshop5.r_id); assumption.
  - apply (list_find_NoDup Workshop5.mt_id); assumption.
Qed.

Lemma links_consistent_of_objects (st : Workshop5.Assessment) :
  links_consistent_objects st -> links_consistent st.
Proof.
  intros Hobj rid mid i r j m Hr Hm.
  apply find_risque_Some in Hr as [Hi <-]. apply find_mesure_Some in Hm as [Hj <-].
  apply Hobj; eapply list_elem_of_lookup_2; eassumption.
Qed.

Lemma associate_keeps_ids st risque_id mesure_id :
  Workshop5.r_id <$> Workshop5.risques
                       (snd (Workshop5.associate_mesure_to_risque risque_id mesure_id st))
  = Workshop5.r_id <$> Workshop5.risques st /\
  Workshop5.mt_id <$> Workshop5.mesures_traitement
                        (snd (Workshop5.associate_mesure_to_risque risque_id mesure_id st))
  = Workshop5.mt_id <$> Workshop5.mesures_traitement st.
Proof.
  destruct (Workshop5.find_risque st risque_id) as [[i r]|] eqn:Hr;
    [|unfold Workshop5.associate_mesure_to_risque; rewrite Hr; auto].
  destruct (Workshop5.find_mesure st mesure_id) as [[j m]|] eqn:Hm;
    [|unfold Workshop5.associate_mesure_to_risque; rewrite Hr, Hm; auto].
  rewrite (associate_found _ _ _ _ _ _ _ Hr Hm). simpl.
  apply find_risque_Some in Hr as [Hi _]. apply find_mesure_Some in Hm as [Hj _].
  split; eapply insert_same_key; (eassumption || reflexivity).
Qed.

Lemma associate_all_keeps_ids st calls :
  Workshop5.r_id <$> Workshop5.risques (associate_all st calls)
  = Workshop5.r_id <$> Workshop5.risques st /\
  Workshop5.mt_id <$> Workshop5.mesures_traitement (associate_all st calls)
  = Workshop5.mt_id <$> Workshop5.mesures_traitement st.
Proof.
  revert st. induction calls as [|[rid mid] calls IH]; intros st; [auto|].
  simpl. destruct (IH (snd (Workshop5.associate_mesure_to_risque rid mid st))) as [-> ->].
  apply associate_keeps_ids.
Qed.

(** C10, as the code has it.  [associate_mesure_to_risque] on an unknown risk
    or measure identifier
    returns False and leaves the state as it was.  When both resolve it
    returns True, and the risk and the measure found each get the other's
    identifier appended only if it was not listed yet, nothing else being
    changed; calling it again with the same pair returns True and changes
    nothing.  Every sequence of such calls keeps the links consistent: for a
    risk and a measure addressed by identifier, the measure is among the
    risk's [mesures_associees] exactly when the risk is among the measure's
    [risques_couverts]; when the identifiers of the risks are pairwise
    distinct, and those of the measures, this holds of every stored risk and
    every stored measure. *)
Theorem associate_mesure_to_risque_links
    (st : Workshop5.Assessment) (risque_id mesure_id : string)
    (calls : list (string * string)) :
  links_consistent st ->
  (risque_id ∉ Workshop5.r_id <$> Workshop5.risques st \/
   mesure_id ∉ Workshop5.mt_id <$> Workshop5.mesures_traitement st ->
   Workshop5.associate_mesure_to_risque risque_id mesure_id st = (Ok false, st))
  /\
  (forall i r j m,
     Workshop5.find_risque st risque_id = Some (i, r) ->
     Workshop5.find_mesure st mesure_id = Some (j, m) ->
     exists st',
       Workshop5.associate_mesure_to_risque risque_id mesure_id st = (Ok true, st') /\
       Workshop5.risques st'
       = <[i := Workshop5.with_mesures_associees
                  (if bool_decide (mesure_id ∈ Workshop5.r_mesures_associees r)
                   then Workshop5.r_mesures_associees r
                   else Workshop5.r_mesures_associees r ++ [mesure_id]) r]>
           (Workshop5.risques st) /\
       Workshop5.mesures_traitement st'
       = <[j := Workshop5.with_risques_couverts
                  (if bool_decide (risque_id ∈ Workshop5.mt_risques_couverts m)
                   then Workshop5.mt_risques_couverts m
                   else Workshop5.mt_risques_couverts m ++ [risque_id]) m]>
           (Workshop5.mesures_traitement st) /\
       Workshop5.risques_residuels st' = Workshop5.risques_residuels st /\
       Workshop5.risques_acceptes st' = Workshop5.risques_acceptes st /\
       Workshop5.budget_estime st' = Workshop5.budget_estime st /\
       Workshop5.associate_mesure_to_risque risque_id mesure_id st' = (Ok true, st'))
  /\
  links_consistent (associate_all st calls)
  /\
  (NoDup (Workshop5.r_id <$> Workshop5.risques st) ->
   NoDup (Workshop5.mt_id <$> Workshop5.mesures_traitement st) ->
   links_consistent_objects st /\ links_consistent_objects (associate_all st calls)).
Proof.
  intros Hinv. split; [|split; [|split]].
  - intros [H|H]; unfold Workshop5.associate_mesure_to_risque.
    + rewrite (find_risque_None _ _ H). reflexivity.
    + rewrite (find_mesure_None _ _ H).
      destruct (Workshop5.find_risque _ _) as [[? ?]|]; reflexivity.
  - intros i r j m Hr Hm.
    pose proof (associate_idempotent st risque_id mesure_id) as Hidem.
    rewrite (associate_found _ _ _ _ _ _ _ Hr Hm) in Hidem. simpl in Hidem.
    eexists. split; [apply (associate_found _ _ _ _ _ _ _ Hr Hm)|].
    repeat split; try reflexivity. exact Hidem.
  - apply associate_all_preserves_links. exact Hinv.
  - intros Hr Hm. split; [apply links_consistent_on_objects; assumption|].
    destruct (associate_all_keeps_ids st calls) as [Hrids Hmids].
    apply links_consistent_on_objects; [rewrite Hrids|rewrite Hmids|]; try assumption.
    apply associate_all_preserves_links. exact Hinv.
Qed.

Lemma associate_mesure_to_risque_links_witness :
  links_consistent
    (associate_all
       (Workshop5.run Workshop5.init
          [Workshop5.AddRisque "R1" "Fuite de données" 3 2 "SS1" 0;
           Workshop5.AddMesureTraitement "Chiffrement" "Préventif" "Disques" 5000
             (Py.float_dec 7 1) 45 "RSSI" 1])
       [("R1", "M1"); ("R1", "M1"); ("R2", "M1")]%string) /\
  links_consistent_objects
    (associate_all
       (Workshop5.run Workshop5.init
          [Workshop5.AddRisque "R1" "Fuite de données" 3 2 "SS1" 0;
           Workshop5.AddMesureTraitement "Chiffrement" "Préventif" "Disques" 5000
             (Py.float_dec 7 1) 45 "RSSI" 1])
       [("R1", "M1"); ("R1", "M1"); ("R2", "M1")]%string).
Proof.
  destruct (associate_mesure_to_risque_links
              (Workshop5.run Workshop5.init
                 [Workshop5.AddRisque "R1" "Fuite de données" 3 2 "SS1" 0;
                  Workshop5.AddMesureTraitement "Chiffrement" "Préventif" "Disques" 5000
                    (Py.float_dec 7 1) 45 "RSSI" 1])
              "R1" "M1" [("R1", "M1"); ("R1", "M1"); ("R2", "M1")]%string)
    as (_ & _ & Hids & Hobjects).
  - intros rid mid i r j m Hr Hm.
    apply find_risque_Some in Hr as [Hr _]. apply find_mesure_Some in Hm as [Hm _].
    destruct i as [|i]; [|destruct i; discriminate].
    destruct j as [|j]; [|destruct j; discriminate].
    vm_compute in Hr, Hm. injection Hr as <-. injection Hm as <-. simpl.
    split; intros H; inversion H.
  - split; [exact Hids|].
    apply Hobjects; vm_compute; apply NoDup_singleton.
Defined.

(** C10, as the claim states it, fails on a register in which two risks
    carry the same identifier, which [add_risque] allows.  Before the call
    no risk lists a measure and no measure covers a risk, so the links are
    consistent; the call returns True and links the measure M1 with the
    first risk named R1 only: the second risk named R1 lists no measure,
    while M1 covers R1. *)
Lemma associate_breaks_links_on_duplicate_ids :
  links_consistent_objects (Workshop5.run Workshop5.init session_doublon) /\
  exists st' r m,
    Workshop5.associate_mesure_to_risque "R1" "M1"
      (Workshop5.run Workshop5.init session_doublon) = (Ok true, st') /\
    Workshop5.risques st' !! 1%nat = Some r /\
    Workshop5.mesures_traitement st' !! 0%nat = Some m /\
    Workshop5.r_id r = "R1" /\
    Workshop5.mt_id m = "M1" /\
    Workshop5.r_mesures_associees r = [] /\
    Workshop5.mt_risques_couverts m = ["R1"].
Proof.
  split.
  - intros r m Hr Hm. vm_compute in Hr, Hm.
    repeat (apply elem_of_cons in Hr as [->|Hr]);
      try (apply elem_of_nil in Hr; destruct Hr);
      repeat (apply elem_of_cons in Hm as [->|Hm]);
      try (apply elem_of_nil in Hm; destruct Hm);
      simpl; split; intros H; inversion H.
  - eexists _, _, _. repeat split; vm_compute; reflexivity.
Qed.


(** ** Workshop 5: the states reached from a fresh workshop *)




Lemma filter_all {A} (P : A -> Prop) `{!forall x, Decision (P x)} (l : list A) :
  Forall P l -> filter P l = l.
Proof.
  induction 1 as [|x l Hx Hl IH]; [reflexivity|].
  rewrite filter_cons_True by assumption. rewrite IH. reflexivity.
Qed.












(** ** Workshop 5: the residual risk *)









(** ** The descending stable sort *)

Section SortDesc.
Context {A : Type} (key : A -> Z).

Lemma insert_desc_Permutation (x : A) (l : list A) :
  Py.insert_desc key x l ≡ₚ x :: l.
Proof.
  induction l as [|y l IH]; simpl; [reflexivity|].
  destruct (key y <=? key x); [reflexivity|].
  rewrite IH. apply Permutation_swap.
Qed.

Lemma sort_desc_Permutation (l : list A) : Py.sort_desc key l ≡ₚ l.
Proof.
  induction l as [|x l IH]; simpl; [reflexivity|].
  rewrite insert_desc_Permutation, IH. reflexivity.
Qed.

Lemma insert_desc_sorted (x : A) (l : list A) :
  StronglySorted (fun a b => key b <= key a) l ->
  StronglySorted (fun a b => key b <= key a) (Py.insert_desc key x l).
Proof.
  induction 1 as [|y l Hl IH Hy]; simpl.
  - constructor; constructor.
  - destruct (Z.leb_spec (key y) (key x)) as [Hle|Hgt].
    + constructor; [constructor; assumption|].
      constructor; [exact Hle|].
      eapply Forall_impl; [exact Hy|]. simpl. intros z Hz. lia.
    + constructor; [exact IH|].
      rewrite insert_desc_Permutation. constructor; [lia|exact Hy].
Qed.

Lemma sort_desc_sorted (l : list A) :
  StronglySorted (fun a b => key b <= key a) (Py.sort_desc key l).
Proof.
  induction l as [|x l IH]; simpl; [constructor|].
  apply insert_desc_sorted, IH.
Qed.

(** Stability: the elements of any one key keep their relative order. *)
Lemma insert_desc_stable (g : Z) (x : A) (l : list A) :
  filter (fun a => key a = g) (Py.insert_desc key x l)
  = filter (fun a => key a = g) (x :: l).
Proof.
  induction l as [|y l IH]; simpl; [reflexivity|].
  destruct (Z.leb_spec (key y) (key x)) as [Hle|Hgt]; [reflexivity|].
  rewrite filter_cons, IH, !filter_cons.
  destruct (decide (key y = g)), (decide (key x = g)); try reflexivity. lia.
Qed.

Lemma sort_desc_stable (g : Z) (l : list A) :
  filter (fun a => key a = g) (Py.sort_desc key l) = filter (fun a => key a = g) l.
Proof.
  induction l as [|x l IH]; simpl; [reflexivity|].
  rewrite insert_desc_stable, !filter_cons, IH. reflexivity.
Qed.

End SortDesc.

(** ** Workshop 2: generation of the strategic scenarios *)

(** The loop of [generate_scenarios_strategiques] appends to the list built
    so far one scenario per entry that resolves, in the order of the entries,
    numbered from the length of the list. *)
Lemma generate_loop (st : Workshop2.Assessment) (relations : list Workshop2.Relation)
    (acc : list Workshop2.Scenario) :
  exists new,
    foldl (Workshop2.generate_step st) acc relations = acc ++ new /\
    Forall2 (scenario_of_relation st) (filter (resolves st) relations) new /\
    Workshop2.ss_id <$> new
    = (fun k => "SS" +:+ pretty (k + 1)%nat) <$> seq (length acc) (length new).
Proof.
  revert acc. induction relations as [|relation relations IH]; intros acc.
  - exists []. rewrite app_nil_r. repeat split; constructor.
  - simpl. unfold Workshop2.generate_step at 2.
    destruct (Workshop2.find_source st (Workshop2.rel_sr_id relation)) as [sr|] eqn:Hsr;
      [destruct (Workshop2.find_objectif st (Workshop2.rel_ov_id relation)) as [ov|] eqn:Hov|].
    + match goal with |- context [foldl _ (acc ++ [?s]) _] => set (scenario := s) end.
      destruct (IH (acc ++ [scenario])) as (new & Hnew & Hall & Hids).
      exists (scenario :: new). split; [|split].
      * rewrite Hnew, <- app_assoc. reflexivity.
      * rewrite filter_cons_True
          by (split; [rewrite Hsr|rewrite Hov]; eexists; reflexivity).
        constructor; [|exact Hall].
        exists sr, ov. subst scenario. simpl. repeat split; assumption.
      * rewrite length_app, Nat.add_1_r in Hids.
        change (length (scenario :: new)) with (S (length new)).
        rewrite <- cons_seq, !fmap_cons, Hids. reflexivity.
    + destruct (IH acc) as (new & Hnew & Hall & Hids).
      exists new. split; [exact Hnew|]. split; [|exact Hids].
      rewrite filter_cons_False; [exact Hall|].
      intros [_ [x Hx]]. rewrite Hov in Hx. discriminate.
    + destruct (IH acc) as (new & Hnew & Hall & Hids).
      exists new. split; [exact Hnew|]. split; [|exact Hids].
      rewrite filter_cons_False; [exact Hall|].
      intros [[x Hx] _]. rewrite Hsr in Hx. discriminate.
Qed.

(** C5. [generate_scenarios_strategiques] does not read the previous scenario
    list: whatever that list was, the call returns and stores the same new
    list.  Before sorting, the list built holds one scenario per mapping
    entry whose two identifiers resolve, in the order of the entries and
    numbered SS1, SS2, ...; the result is a permutation of it, so it has as
    many scenarios as there are such entries, it is sorted by non-increasing
    gravity, and the scenarios of any one gravity keep the order of their
    mapping entries. *)
Theorem generate_scenarios_strategiques_spec
    (st : Workshop2.Assessment) (previous : list Workshop2.Scenario) :
  exists built sorted,
    Workshop2.generate_scenarios_strategiques st
    = (Ok sorted,
       {| Workshop2.sources_risque := Workshop2.sources_risque st;
          Workshop2.objectifs_vises := Workshop2.objectifs_vises st;
          Workshop2.cartographie_sr_ov := Workshop2.cartographie_sr_ov st;
          Workshop2.scenarios_strategiques := sorted |}) /\
    Workshop2.generate_scenarios_strategiques
      {| Workshop2.sources_risque := Workshop2.sources_risque st;
         Workshop2.objectifs_vises := Workshop2.objectifs_vises st;
         Workshop2.cartographie_sr_ov := Workshop2.cartographie_sr_ov st;
         Workshop2.scenarios_strategiques := previous |}
    = Workshop2.generate_scenarios_strategiques st /\
    Forall2 (scenario_of_relation st)
            (filter (resolves st) (Workshop2.cartographie_sr_ov st)) built /\
    Workshop2.ss_id <$> built
    = (fun k => "SS" +:+ pretty (k + 1)%nat) <$> seq 0 (length built) /\
    sorted ≡ₚ built /\
    length sorted = length (filter (resolves st) (Workshop2.cartographie_sr_ov st)) /\
    StronglySorted gravite_desc sorted /\
    (forall g, filter (fun s => Workshop2.ss_gravite s = g) sorted
               = filter (fun s => Workshop2.ss_gravite s = g) built).
Proof.
  destruct (generate_loop st (Workshop2.cartographie_sr_ov st) [])
    as (built & Hbuilt & Hall & Hids).
  simpl in Hbuilt, Hids.
  exists built, (Py.sort_desc Workshop2.ss_gravite built).
  unfold Workshop2.generate_scenarios_strategiques. rewrite Hbuilt.
  split; [reflexivity|]. split.
  { simpl. unfold Workshop2.generate_step, Workshop2.find_source, Workshop2.find_objectif.
    simpl. fold (Workshop2.find_source st). fold (Workshop2.find_objectif st).
    change (foldl _ [] (Workshop2.cartographie_sr_ov st))
      with (foldl (Workshop2.generate_step st) [] (Workshop2.cartographie_sr_ov st)).
    rewrite Hbuilt. reflexivity. }
  split; [exact Hall|]. split; [exact Hids|].
  split; [apply sort_desc_Permutation|]. split.
  - rewrite (Permutation_length (sort_desc_Permutation Workshop2.ss_gravite built)).
    symmetry. eapply Forall2_length. exact Hall.
  - split; [apply sort_desc_sorted|]. intros g. apply sort_desc_stable.
Qed.

(** ** Workshop 4: likelihood of a scenario *)

Lemma calculate_vraisemblance_found st scenario_id i s :
  list_find (fun x => Workshop4.so_id x = scenario_id) (Workshop4.scenarios_operationnels st)
  = Some (i, s) ->
  Workshop4.calculate_vraisemblance_scenario scenario_id st
  = match Workshop4.scenario_actions st s with
    | [] => (Ok 0, st)
    | _ :: _ =>
      (Ok (Py.round (mean_likelihood st s)),
       Workshop4.set_scenarios
         (<[i := Workshop4.with_vraisemblance (Py.round (mean_likelihood st s)) s]>
            (Workshop4.scenarios_operationnels st)) st)
    end.
Proof.
  intros Hf. unfold Workshop4.calculate_vraisemblance_scenario. rewrite Hf.
  unfold mean_likelihood. destruct (Workshop4.scenario_actions st s); reflexivity.
Qed.

(** [calculate_vraisemblance_scenario] keeps the identifiers, the actions and
    the measures. *)
Lemma calculate_vraisemblance_frame st scenario_id :
  Workshop4.so_id <$> Workshop4.scenarios_operationnels
                        (snd (Workshop4.calculate_vraisemblance_scenario scenario_id st))
  = Workshop4.so_id <$> Workshop4.scenarios_operationnels st /\
  Workshop4.actions_elementaires (snd (Workshop4.calculate_vraisemblance_scenario scenario_id st))
  = Workshop4.actions_elementaires st /\
  Workshop4.mesures_existantes (snd (Workshop4.calculate_vraisemblance_scenario scenario_id st))
  = Workshop4.mesures_existantes st /\
  Workshop4.synthese_risques (snd (Workshop4.calculate_vraisemblance_scenario scenario_id st))
  = Workshop4.synthese_risques st.
Proof.
  destruct (list_find (fun x => Workshop4.so_id x = scenario_id)
              (Workshop4.scenarios_operationnels st)) as [[i s]|] eqn:Hf.
  - rewrite (calculate_vraisemblance_found _ _ _ _ Hf).
    destruct (Workshop4.scenario_actions st s); simpl; [auto|].
    split; [|auto].
    apply list_find_Some in Hf as (Hi & _ & _).
    eapply insert_same_key; [exact Hi|reflexivity].
  - unfold Workshop4.calculate_vraisemblance_scenario. rewrite Hf. simpl. auto.
Qed.

Lemma seq_ids_NoDup (prefix : string) (n : nat) :
  NoDup ((fun j => prefix +:+ pretty (j + 1)%nat) <$> seq 0 n).
Proof.
  apply NoDup_fmap_2; [|apply NoDup_seq].
  intros j1 j2 Heq. apply String.app_inj in Heq. apply pretty_nat_inj in Heq. lia.
Qed.

Lemma scenario_ids_NoDup st :
  scenario_ids_sequential st ->
  NoDup (Workshop4.so_id <$> Workshop4.scenarios_operationnels st).
Proof. intros H. rewrite H. apply seq_ids_NoDup. Qed.

Lemma lazily_refreshed_id st s :
  Workshop4.so_id (lazily_refreshed st s) = Workshop4.so_id s.
Proof.
  unfold lazily_refreshed. destruct (_ =? _); [|reflexivity].
  destruct (Workshop4.scenario_actions st s); reflexivity.
Qed.

Lemma scenario_actions_frame st st' s :
  Workshop4.actions_elementaires st' = Workshop4.actions_elementaires st ->
  Workshop4.scenario_actions st' s = Workshop4.scenario_actions st s.
Proof. unfold Workshop4.scenario_actions. intros ->. reflexivity. Qed.

Lemma mean_likelihood_frame st st' s :
  Workshop4.actions_elementaires st' = Workshop4.actions_elementaires st ->
  mean_likelihood st' s = mean_likelihood st s.
Proof.
  intros H. unfold mean_likelihood. rewrite (scenario_actions_frame _ _ _ H). reflexivity.
Qed.

(** One turn of the loop, on a register with pairwise distinct scenario
    identifiers. *)
Lemma synthetize_step_loop gravite_base st k stk :
  NoDup (Workshop4.so_id <$> Workshop4.scenarios_operationnels st) ->
  (k < length (Workshop4.scenarios_operationnels st))%nat ->
  loop_state gravite_base st k stk ->
  loop_state gravite_base st (S k) (Workshop4.synthetize_step gravite_base stk k).
Proof.
  intros Hnd Hk [Hsc Hact Hmes Hrows].
  destruct (lookup_lt_is_Some_2 _ _ Hk) as [s0 Hs0].
  set (l := Workshop4.scenarios_operationnels st) in *.
  set (prefix := lazily_refreshed st <$> take k l) in *.
  assert (length prefix = k) as Hlen.
  { subst prefix. rewrite length_fmap, length_take_le; lia. }
  assert (Workshop4.scenarios_operationnels stk = prefix ++ s0 :: drop (S k) l) as Hsc'.
  { rewrite Hsc. f_equal. apply drop_S. exact Hs0. }
  assert (Workshop4.scenarios_operationnels stk !! k = Some s0) as Hk0.
  { rewrite Hsc', lookup_app_r by lia. rewrite Hlen, Nat.sub_diag. reflexivity. }
  (* the lazy recomputation *)
  set (st1 := if Workshop4.so_vraisemblance s0 =? 0
              then snd (Workshop4.calculate_vraisemblance_scenario (Workshop4.so_id s0) stk)
              else stk).
  assert (Workshop4.scenarios_operationnels st1
          = <[k := lazily_refreshed st s0]> (Workshop4.scenarios_operationnels stk) /\
          Workshop4.actions_elementaires st1 = Workshop4.actions_elementaires st /\
          Workshop4.mesures_existantes st1 = Workshop4.mesures_existantes st /\
          Workshop4.synthese_risques st1 = Workshop4.synthese_risques stk)
    as (Hsc1 & Hact1 & Hmes1 & Hsyn1).
  { subst st1. unfold lazily_refreshed.
    destruct (Workshop4.so_vraisemblance s0 =? 0).
    - assert (list_find (fun x => Workshop4.so_id x = Workshop4.so_id s0)
                (Workshop4.scenarios_operationnels stk) = Some (k, s0)) as Hf.
      { apply (list_find_NoDup Workshop4.so_id); [|exact Hk0].
        rewrite Hsc. subst prefix. rewrite fmap_app, <- list_fmap_compose.
        rewrite (list_fmap_ext (Workshop4.so_id ∘ lazily_refreshed st) Workshop4.so_id)
          by (intros ? x ?; apply lazily_refreshed_id).
        rewrite <- fmap_app, take_drop. exact Hnd. }
      rewrite (calculate_vraisemblance_found _ _ _ _ Hf).
      rewrite (scenario_actions_frame st stk s0 Hact).
      rewrite (mean_likelihood_frame st stk s0 Hact).
      destruct (Workshop4.scenario_actions st s0); simpl.
      + rewrite list_insert_id by exact Hk0. auto.
      + auto.
    - rewrite list_insert_id by exact Hk0. auto. }
  unfold Workshop4.synthetize_step. rewrite Hk0. fold st1.
  assert (Workshop4.scenarios_operationnels st1
          = prefix ++ lazily_refreshed st s0 :: drop (S k) l) as Hsc1'.
  { rewrite Hsc1, Hsc', insert_app_r_alt by lia.
    rewrite Hlen, Nat.sub_diag. reflexivity. }
  assert (Workshop4.scenarios_operationnels st1 !! k = Some (lazily_refreshed st s0)) as Hk1.
  { rewrite Hsc1', lookup_app_r by lia. rewrite Hlen, Nat.sub_diag. reflexivity. }
  rewrite Hk1.
  assert (lazily_refreshed st <$> take (S k) l = prefix ++ [lazily_refreshed st s0]) as Htake.
  { rewrite (take_S_r _ _ _ Hs0), fmap_app. reflexivity. }
  split; cbn [Workshop4.set_synthese Workshop4.scenarios_operationnels
              Workshop4.actions_elementaires Workshop4.mesures_existantes
              Workshop4.synthese_risques]; fold l.
  - rewrite Hsc1', Htake, <- app_assoc. reflexivity.
  - exact Hact1.
  - exact Hmes1.
  - rewrite Htake, Hsyn1. apply Forall2_app; [exact Hrows|].
    constructor; [|constructor]. repeat split.
Qed.

Lemma synthetize_loop gravite_base st n k stk :
  NoDup (Workshop4.so_id <$> Workshop4.scenarios_operationnels st) ->
  (k + n <= length (Workshop4.scenarios_operationnels st))%nat ->
  loop_state gravite_base st k stk ->
  loop_state gravite_base st (k + n)
    (foldl (Workshop4.synthetize_step gravite_base) stk (seq k n)).
Proof.
  intros Hnd. revert k stk. induction n as [|n IH]; intros k stk Hk Hinv.
  - rewrite Nat.add_0_r. exact Hinv.
  - simpl. replace (k + S n)%nat with (S k + n)%nat by lia.
    apply IH; [lia|]. apply synthetize_step_loop; [exact Hnd|lia|exact Hinv].
Qed.

(** What [synthetize_risks] leaves on a register with pairwise distinct
    scenario identifiers. *)
Lemma synthetize_risks_lazy gravite_base st :
  NoDup (Workshop4.so_id <$> Workshop4.scenarios_operationnels st) ->
  exists rows,
    Workshop4.synthetize_risks gravite_base st
    = (Ok (Py.sort_desc Workshop4.rs_risque_residuel rows),
       {| Workshop4.scenarios_operationnels :=
            lazily_refreshed st <$> Workshop4.scenarios_operationnels st;
          Workshop4.actions_elementaires := Workshop4.actions_elementaires st;
          Workshop4.mesures_existantes := Workshop4.mesures_existantes st;
          Workshop4.synthese_risques := Py.sort_desc Workshop4.rs_risque_residuel rows |}) /\
    Forall2 (row_of_scenario gravite_base)
            (lazily_refreshed st <$> Workshop4.scenarios_operationnels st) rows.
Proof.
  intros Hnd.
  assert (loop_state gravite_base st 0 (Workshop4.set_synthese [] st)) as H0.
  { split; simpl; try reflexivity. constructor. }
  pose proof (synthetize_loop gravite_base st
                (length (Workshop4.scenarios_operationnels st)) 0
                (Workshop4.set_synthese [] st) Hnd (le_n _) H0) as Hloop.
  unfold Workshop4.synthetize_risks.
  change (Workshop4.scenarios_operationnels (Workshop4.set_synthese [] st))
    with (Workshop4.scenarios_operationnels st).
  simpl plus in Hloop.
  set (st1 := foldl _ _ _) in *.
  destruct Hloop as [Hsc Hact Hmes Hrows].
  rewrite take_ge in Hsc, Hrows by reflexivity.
  rewrite drop_ge, app_nil_r in Hsc by reflexivity.
  exists (Workshop4.synthese_risques st1).
  split; [|exact Hrows].
  unfold Workshop4.set_synthese at 1. rewrite Hsc, Hact, Hmes. reflexivity.
Qed.

Lemma scenario_ids_sequential_same_ids st st' :
  Workshop4.so_id <$> Workshop4.scenarios_operationnels st'
  = Workshop4.so_id <$> Workshop4.scenarios_operationnels st ->
  scenario_ids_sequential st -> scenario_ids_sequential st'.
Proof.
  intros Hids Hseq. unfold scenario_ids_sequential in *.
  assert (length (Workshop4.scenarios_operationnels st')
          = length (Workshop4.scenarios_operationnels st)) as Hlen.
  { rewrite <- (length_fmap Workshop4.so_id (Workshop4.scenarios_operationnels st')), Hids.
    apply length_fmap. }
  rewrite Hids, Hseq, Hlen. reflexivity.
Qed.

Lemma scenario_ids_sequential_step st o :
  scenario_ids_sequential st -> scenario_ids_sequential (Workshop4.step st o).
Proof.
  intros Hseq. destruct o; cbn [Workshop4.step].
  - unfold scenario_ids_sequential in *. simpl.
    rewrite fmap_app, length_app, Hseq. simpl.
    rewrite Nat.add_1_r at 2. rewrite seq_S, fmap_app. reflexivity.
  - exact Hseq.
  - exact Hseq.
  - eapply scenario_ids_sequential_same_ids; [|exact Hseq].
    apply calculate_vraisemblance_frame.
  - destruct (synthetize_risks_lazy gravite_base st (scenario_ids_NoDup st Hseq))
      as (rows & -> & _).
    eapply scenario_ids_sequential_same_ids; [|exact Hseq]. simpl.
    rewrite <- list_fmap_compose. apply list_fmap_ext.
    intros ? x ?. apply lazily_refreshed_id.
Qed.

Lemma reachable_scenario_ids st :
  Workshop4.reachable st -> scenario_ids_sequential st.
Proof.
  intros [ops ->]. unfold Workshop4.run.
  assert (scenario_ids_sequential Workshop4.init) as Hinit by reflexivity.
  revert Hinit. generalize Workshop4.init.
  induction ops as [|o ops IH]; intros st Hst; [exact Hst|].
  simpl. apply IH, scenario_ids_sequential_step, Hst.
Qed.

(** C8. In a state reached from a fresh workshop, for a scenario identifier
    that resolves to a scenario referring to at least one existing action,
    [calculate_vraisemblance_scenario] returns the mean of the likelihoods of
    those actions rounded to a nearest integer (a tie goes to the even one),
    and stores it in the likelihood field of that scenario, changing nothing
    else.  [synthetize_risks] recomputes lazily: a scenario whose stored
    likelihood is not 0 is left as it is, a scenario whose stored likelihood
    is 0 gets the value the computation above stores, and every row of the
    synthesis takes the likelihood stored in its scenario after that. *)
Theorem calculate_vraisemblance_scenario_spec
    (st : Workshop4.Assessment) (scenario_id : string) (i : nat)
    (s : Workshop4.ScenarioOperationnel) (gravite_base : Z) :
  Workshop4.reachable st ->
  list_find (fun x => Workshop4.so_id x = scenario_id) (Workshop4.scenarios_operationnels st)
  = Some (i, s) ->
  Workshop4.scenario_actions st s <> [] ->
  (exists v,
     Workshop4.calculate_vraisemblance_scenario scenario_id st
     = (Ok v,
        Workshop4.set_scenarios
          (<[i := Workshop4.with_vraisemblance v s]> (Workshop4.scenarios_operationnels st))
          st) /\
     v = Py.round (mean_likelihood st s) /\
     (inject_Z v - (1 # 2) <= mean_likelihood st s <= inject_Z v + (1 # 2))%Q /\
     Workshop4.so_vraisemblance <$>
       Workshop4.scenarios_operationnels
         (snd (Workshop4.calculate_vraisemblance_scenario scenario_id st)) !! i = Some v)
  /\
  (exists rows,
     Workshop4.synthetize_risks gravite_base st
     = (Ok (Py.sort_desc Workshop4.rs_risque_residuel rows),
        {| Workshop4.scenarios_operationnels :=
             lazily_refreshed st <$> Workshop4.scenarios_operationnels st;
           Workshop4.actions_elementaires := Workshop4.actions_elementaires st;
           Workshop4.mesures_existantes := Workshop4.mesures_existantes st;
           Workshop4.synthese_risques := Py.sort_desc Workshop4.rs_risque_residuel rows |}) /\
     Forall2 (row_of_scenario gravite_base)
             (lazily_refreshed st <$> Workshop4.scenarios_operationnels st) rows /\
     (forall s', Workshop4.so_vraisemblance s' <> 0 -> lazily_refreshed st s' = s') /\
     (Workshop4.so_vraisemblance s = 0 ->
      lazily_refreshed st s
      = Workshop4.with_vraisemblance (Py.round (mean_likelihood st s)) s)).
Proof.
  intros Hreach Hf Hactions. split.
  - exists (Py.round (mean_likelihood st s)).
    rewrite (calculate_vraisemblance_found _ _ _ _ Hf).
    destruct (Workshop4.scenario_actions st s) eqn:Hacts; [contradiction|].
    split; [reflexivity|]. split; [reflexivity|]. split; [apply round_nearest|].
    simpl. apply list_find_Some in Hf as (Hi & _ & _).
    rewrite list_lookup_insert_eq by (eapply lookup_lt_Some; exact Hi). reflexivity.
  - pose proof (scenario_ids_NoDup st (reachable_scenario_ids st Hreach)) as Hnd.
    destruct (synthetize_risks_lazy gravite_base st Hnd) as (rows & Hcall & Hrows).
    exists rows. split; [exact Hcall|]. split; [exact Hrows|]. split.
    + intros s' Hs'. unfold lazily_refreshed.
      destruct (Z.eqb_spec (Workshop4.so_vraisemblance s') 0); [contradiction|reflexivity].
    + intros Hs. unfold lazily_refreshed. rewrite Hs. simpl.
      destruct (Workshop4.scenario_actions st s); [contradiction|reflexivity].
Qed.

Lemma calculate_vraisemblance_scenario_spec_witness :
  fst (Workshop4.calculate_vraisemblance_scenario "SO1" (Workshop4.run session_scenarios))
  = Ok 2 /\
  Workshop4.so_vraisemblance <$>
    Workshop4.scenarios_operationnels
      (snd (Workshop4.calculate_vraisemblance_scenario "SO1"
              (Workshop4.run session_scenarios))) = [2; 1; 0] /\
  Workshop4.so_vraisemblance <$>
    Workshop4.scenarios_operationnels
      (snd (Workshop4.synthetize_risks 3 (Workshop4.run session_scenarios))) = [2; 1; 0] /\
  Workshop4.so_vraisemblance <$>
    Workshop4.scenarios_operationnels
      (snd (Workshop4.calculate_vraisemblance_scenario "SO2"
              (Workshop4.run session_scenarios))) = [0; 2; 0].
Proof.
  destruct (list_find (fun x => Workshop4.so_id x = "SO1")
              (Workshop4.scenarios_operationnels (Workshop4.run session_scenarios)))
    as [[i s]|] eqn:Hf; [|vm_compute in Hf; discriminate].
  destruct (calculate_vraisemblance_scenario_spec
              (Workshop4.run session_scenarios) "SO1" i s 3
              (ex_intro _ session_scenarios eq_refl) Hf)
    as [(v & Hcall & Hv & _ & _) (rows & Hsyn & _ & _ & _)].
  { vm_compute in Hf. injection Hf as <- <-. vm_compute. discriminate. }
  rewrite Hcall, Hsyn. subst v.
  vm_compute in Hf. injection Hf as <- <-.
  repeat split; vm_compute; reflexivity.
Defined.

(** * Further properties of the calculator and of the workshops *)

(** ** The risk matrix, continued *)

Lemma calculate_risk_level_inv gravite vraisemblance score niveau :
  RiskCalculator.calculate_risk_level gravite vraisemblance = Ok (score, niveau) ->
  in_scale gravite /\ in_scale vraisemblance /\ in_scale score /\
  niveau = spec_level score /\ score = spec_matrix gravite vraisemblance.
Proof.
  unfold RiskCalculator.calculate_risk_level.
  destruct (_ && _) eqn:Hin; simpl; [|discriminate].
  repeat (apply andb_prop in Hin; destruct Hin as [Hin ?]).
  assert (in_scale gravite) as Hg by (unfold in_scale; lia).
  assert (in_scale vraisemblance) as Hv by (unfold in_scale; lia).
  destruct (in_scale_cases _ Hg) as [->|[->|[->| ->]]];
    destruct (in_scale_cases _ Hv) as [->|[->|[->| ->]]];
    intros [= <- <-]; unfold in_scale; simpl; repeat split; lia.
Qed.

Lemma calculate_risk_level_in_scale gravite vraisemblance :
  in_scale gravite -> in_scale vraisemblance ->
  RiskCalculator.calculate_risk_level gravite vraisemblance
  = Ok (spec_matrix gravite vraisemblance, spec_level (spec_matrix gravite vraisemblance)).
Proof.
  intros Hg Hv.
  destruct (in_scale_cases _ Hg) as [->|[->|[->| ->]]];
    destruct (in_scale_cases _ Hv) as [->|[->|[->| ->]]]; reflexivity.
Qed.

Lemma spec_matrix_monotone g v g' v' :
  in_scale g -> in_scale v -> in_scale g' -> in_scale v' ->
  g <= g' -> v <= v' -> spec_matrix g v <= spec_matrix g' v'.
Proof.
  intros Hg Hv Hg' Hv'.
  destruct (in_scale_cases _ Hg) as [->|[->|[->| ->]]];
    destruct (in_scale_cases _ Hv) as [->|[->|[->| ->]]];
    destruct (in_scale_cases _ Hg') as [->|[->|[->| ->]]];
    destruct (in_scale_cases _ Hv') as [->|[->|[->| ->]]]; simpl; lia.
Qed.

Lemma spec_matrix_symmetric g v :
  in_scale g -> in_scale v -> spec_matrix g v = spec_matrix v g.
Proof.
  intros Hg Hv.
  destruct (in_scale_cases _ Hg) as [->|[->|[->| ->]]];
    destruct (in_scale_cases _ Hv) as [->|[->|[->| ->]]]; reflexivity.
Qed.

(** X1. Inside the scale the risk matrix is monotone and symmetric: raising
    the gravity or the likelihood never lowers the score returned by
    [calculate_risk_level], and exchanging gravity and likelihood returns the
    same score and level. *)
Theorem calculate_risk_level_monotone_symmetric (g v g' v' : Z) :
  in_scale g -> in_scale v -> in_scale g' -> in_scale v' ->
  g <= g' -> v <= v' ->
  exists score niveau score' niveau',
    RiskCalculator.calculate_risk_level g v = Ok (score, niveau) /\
    RiskCalculator.calculate_risk_level g' v' = Ok (score', niveau') /\
    score <= score' /\
    RiskCalculator.calculate_risk_level v g = Ok (score, niveau).
Proof.
  intros Hg Hv Hg' Hv' Hgg Hvv.
  exists (spec_matrix g v), (spec_level (spec_matrix g v)),
         (spec_matrix g' v'), (spec_level (spec_matrix g' v')).
  rewrite !calculate_risk_level_in_scale by assumption.
  split; [reflexivity|]. split; [reflexivity|].
  split; [apply spec_matrix_monotone; assumption|].
  rewrite (spec_matrix_symmetric v g) by assumption. reflexivity.
Qed.

Lemma calculate_risk_level_monotone_symmetric_witness :
  exists score niveau score' niveau',
    RiskCalculator.calculate_risk_level 2 3 = Ok (score, niveau) /\
    RiskCalculator.calculate_risk_level 4 3 = Ok (score', niveau') /\
    score <= score' /\
    RiskCalculator.calculate_risk_level 3 2 = Ok (score, niveau).
Proof.
  apply (calculate_risk_level_monotone_symmetric 2 3 4 3); unfold in_scale; lia.
Defined.

(** X2. Inside the scale [add_risque] of Workshop 5, which reads its own
    copy of the matrix, stores the score and the level that
    [RiskCalculator.calculate_risk_level] returns; the new risk is appended
    untreated, with no option and no measure. *)
Theorem add_risque_agrees_with_calculator
    (st : Workshop5.Assessment) (risque_id nom scenario_ref : string)
    (gravite vraisemblance : Z) (now : datetime) :
  in_scale gravite -> in_scale vraisemblance ->
  exists risque,
    Workshop5.add_risque risque_id nom gravite vraisemblance scenario_ref now st
    = (Ok risque, Workshop5.set_risques (Workshop5.risques st ++ [risque]) st) /\
    RiskCalculator.calculate_risk_level gravite vraisemblance
    = Ok (Workshop5.r_score_brut risque, Workshop5.r_niveau_brut risque) /\
    Workshop5.r_id risque = risque_id /\
    Workshop5.r_statut risque = Workshop5.NonTraite /\
    Workshop5.r_option_traitement risque = None /\
    Workshop5.r_mesures_associees risque = [].
Proof.
  intros Hg Hv. unfold Workshop5.add_risque.
  destruct (in_scale_cases _ Hg) as [->|[->|[->| ->]]];
    destruct (in_scale_cases _ Hv) as [->|[->|[->| ->]]];
    (eexists; split; [reflexivity|]; repeat split).
Qed.

Lemma add_risque_agrees_with_calculator_witness :
  exists risque,
    Workshop5.add_risque "R1" "Fuite de données" 2 3 "SS1" 0 Workshop5.init
    = (Ok risque,
       Workshop5.set_risques (Workshop5.risques Workshop5.init ++ [risque]) Workshop5.init) /\
    RiskCalculator.calculate_risk_level 2 3
    = Ok (Workshop5.r_score_brut risque, Workshop5.r_niveau_brut risque) /\
    Workshop5.r_id risque = "R1" /\
    Workshop5.r_statut risque = Workshop5.NonTraite /\
    Workshop5.r_option_traitement risque = None /\
    Workshop5.r_mesures_associees risque = [].
Proof.
  apply (add_risque_agrees_with_calculator Workshop5.init "R1" "Fuite de données" "SS1" 2 3 0);
    unfold in_scale; lia.
Defined.

(** ** Comparing and combining risks *)

(** X3. When [compare_scenarios] returns, comparing the two scenarios the
    other way round returns too, with the two descriptions exchanged and the
    same difference; the difference is the distance between the two scores,
    between 0 and 3; with equal scores the answer is "Équivalents", otherwise
    both orders name the same scenario, the one of higher score. *)
Theorem compare_scenarios_symmetric
    (scenario1 scenario2 : RiskCalculator.ScenarioRisque) (c : RiskCalculator.Comparaison) :
  RiskCalculator.compare_scenarios scenario1 scenario2 = Ok c ->
  exists c' score1 niveau1 score2 niveau2,
    RiskCalculator.compare_scenarios scenario2 scenario1 = Ok c' /\
    RiskCalculator.cmp_scenario1 c = (RiskCalculator.sc_nom scenario1, score1, niveau1) /\
    RiskCalculator.cmp_scenario2 c = (RiskCalculator.sc_nom scenario2, score2, niveau2) /\
    RiskCalculator.cmp_scenario1 c' = RiskCalculator.cmp_scenario2 c /\
    RiskCalculator.cmp_scenario2 c' = RiskCalculator.cmp_scenario1 c /\
    RiskCalculator.cmp_difference c = Z.abs (score1 - score2) /\
    RiskCalculator.cmp_difference c' = RiskCalculator.cmp_difference c /\
    0 <= RiskCalculator.cmp_difference c <= 3 /\
    (score1 = score2 -> RiskCalculator.cmp_plus_critique c = "Équivalents") /\
    (score2 < score1 ->
     RiskCalculator.cmp_plus_critique c = RiskCalculator.sc_nom scenario1 /\
     RiskCalculator.cmp_plus_critique c' = RiskCalculator.sc_nom scenario1) /\
    (score1 < score2 ->
     RiskCalculator.cmp_plus_critique c = RiskCalculator.sc_nom scenario2 /\
     RiskCalculator.cmp_plus_critique c' = RiskCalculator.sc_nom scenario2).
Proof.
  unfold RiskCalculator.compare_scenarios.
  destruct (RiskCalculator.calculate_risk_level (RiskCalculator.sc_gravite scenario1) _)
    as [[score1 niveau1]|] eqn:H1; [|discriminate].
  destruct (RiskCalculator.calculate_risk_level (RiskCalculator.sc_gravite scenario2) _)
    as [[score2 niveau2]|] eqn:H2; [|discriminate].
  apply calculate_risk_level_inv in H1 as (_ & _ & Hs1 & _ & _).
  apply calculate_risk_level_inv in H2 as (_ & _ & Hs2 & _ & _).
  unfold in_scale in Hs1, Hs2.
  intros Hc.
  destruct (Z.ltb_spec score2 score1), (Z.ltb_spec score1 score2);
    injection Hc as <-; eexists _, score1, niveau1, score2, niveau2;
    (split; [reflexivity|]); simpl; repeat split; try reflexivity; lia.
Qed.

Lemma compare_scenarios_symmetric_witness :
  exists c c',
    RiskCalculator.compare_scenarios
      {| RiskCalculator.sc_nom := "Rançongiciel"; RiskCalculator.sc_gravite := 4;
         RiskCalculator.sc_vraisemblance := 3 |}
      {| RiskCalculator.sc_nom := "Hameçonnage"; RiskCalculator.sc_gravite := 2;
         RiskCalculator.sc_vraisemblance := 4 |} = Ok c /\
    RiskCalculator.compare_scenarios
      {| RiskCalculator.sc_nom := "Hameçonnage"; RiskCalculator.sc_gravite := 2;
         RiskCalculator.sc_vraisemblance := 4 |}
      {| RiskCalculator.sc_nom := "Rançongiciel"; RiskCalculator.sc_gravite := 4;
         RiskCalculator.sc_vraisemblance := 3 |} = Ok c' /\
    RiskCalculator.cmp_difference c' = RiskCalculator.cmp_difference c.
Proof.
  destruct (compare_scenarios_symmetric
              {| RiskCalculator.sc_nom := "Rançongiciel"; RiskCalculator.sc_gravite := 4;
                 RiskCalculator.sc_vraisemblance := 3 |}
              {| RiskCalculator.sc_nom := "Hameçonnage"; RiskCalculator.sc_gravite := 2;
                 RiskCalculator.sc_vraisemblance := 4 |} _ eq_refl)
    as (c' & ? & ? & ? & ? & Hc' & _ & _ & _ & _ & _ & Hd & _).
  eexists _, c'. split; [reflexivity|]. split; [exact Hc'|exact Hd].
Defined.

Lemma sumQ_cons (x : Q) (l : list Q) : Py.sumQ (x :: l) = (x + Py.sumQ l)%Q.
Proof. reflexivity. Qed.

Lemma sumQ_poids_pos lo hi (l : list RiskCalculator.RisqueLie) :
  Forall (risque_lie_ok lo hi) l ->
  (0 <= Py.sumQ (RiskCalculator.poids_of <$> l))%Q /\
  (l <> [] -> (0 < Py.sumQ (RiskCalculator.poids_of <$> l))%Q).
Proof.
  induction 1 as [|r l Hr Hl [IH _]].
  - split; [simpl; lra|]. intros H. contradiction.
  - rewrite fmap_cons, sumQ_cons.
    destruct Hr as (_ & _ & Hw & _). split; [|intros _]; lra.
Qed.

Lemma composite_loop_bounds (W : Q) (lo hi : Z) (l : list RiskCalculator.RisqueLie) (acc : Q) :
  (0 < W)%Q -> Forall (risque_lie_ok lo hi) l ->
  exists S,
    RiskCalculator.composite_loop W l acc = Ok S /\
    (acc + inject_Z lo * (Py.sumQ (RiskCalculator.poids_of <$> l) * / W) <= S)%Q /\
    (S <= acc + inject_Z hi * (Py.sumQ (RiskCalculator.poids_of <$> l) * / W))%Q.
Proof.
  intros HW Hall. revert acc.
  assert (0 < / W)%Q as HiW by (apply Qinv_lt_0_compat; exact HW).
  induction Hall as [|r l Hr Hl IH]; intros acc.
  - exists acc. split; [reflexivity|]. simpl. split; lra.
  - rewrite fmap_cons, sumQ_cons. cbn [RiskCalculator.composite_loop].
    destruct Hr as (Hg & Hv & Hw & Hlo & Hhi).
    rewrite (calculate_risk_level_in_scale _ _ Hg Hv).
    destruct (Qeq_bool W 0) eqn:HW0; [apply Qeq_bool_eq in HW0; lra|].
    set (s := spec_matrix _ _) in *.
    destruct (IH (acc + inject_Z s * (RiskCalculator.poids_of r / W))%Q)
      as (S & HS & HSlo & HShi).
    exists S. split; [exact HS|].
    set (R := Py.sumQ (RiskCalculator.poids_of <$> l)) in *.
    set (w := RiskCalculator.poids_of r) in *.
    assert (0 <= w * / W)%Q as Hpos by (apply Qmult_le_0_compat; lra).
    assert (inject_Z lo <= inject_Z s)%Q as Hlo' by (rewrite <- Zle_Qle; exact Hlo).
    assert (inject_Z s <= inject_Z hi)%Q as Hhi' by (rewrite <- Zle_Qle; exact Hhi).
    unfold Qdiv in HSlo, HShi.
    assert (0 <= (inject_Z s - inject_Z lo) * (w * / W))%Q as H1
      by (apply Qmult_le_0_compat; lra).
    assert (0 <= (inject_Z hi - inject_Z s) * (w * / W))%Q as H2
      by (apply Qmult_le_0_compat; lra).
    split; lra.
Qed.

Lemma spec_matrix_in_scale g v :
  in_scale g -> in_scale v -> in_scale (spec_matrix g v).
Proof.
  intros Hg Hv.
  destruct (in_scale_cases _ Hg) as [->|[->|[->| ->]]];
    destruct (in_scale_cases _ Hv) as [->|[->|[->| ->]]]; unfold in_scale; simpl; lia.
Qed.

Lemma risque_lie_ok_scale lo hi r : risque_lie_ok lo hi r -> risque_lie_ok 1 4 r.
Proof.
  intros (Hg & Hv & Hw & _). split; [exact Hg|]. split; [exact Hv|]. split; [exact Hw|].
  apply spec_matrix_in_scale; assumption.
Qed.

(** X4. For at least one risk, all inside the scale and with positive weights
    (a missing weight counts 1), [calculate_composite_risk] returns a
    composite score that lies between any lower and upper bound of the
    individual matrix scores, hence in [1,4], with the level name of that
    score and the number of risks. *)
Theorem calculate_composite_risk_bounds
    (risques : list RiskCalculator.RisqueLie) (lo hi : Z) :
  risques <> [] ->
  Forall (risque_lie_ok lo hi) risques ->
  exists score,
    RiskCalculator.calculate_composite_risk risques
    = Ok (RiskCalculator.CompositeCalcule score (spec_level score) (length risques)) /\
    lo <= score <= hi /\ in_scale score.
Proof.
  intros Hne Hall.
  pose proof (sumQ_poids_pos lo hi risques Hall) as [_ HW]. specialize (HW Hne).
  set (W := Py.sumQ (RiskCalculator.poids_of <$> risques)) in *.
  destruct (composite_loop_bounds W lo hi risques 0 HW Hall) as (S & HS & Hlo & Hhi).
  assert (Forall (risque_lie_ok 1 4) risques) as Hall'
    by (eapply Forall_impl; [exact Hall|apply risque_lie_ok_scale]).
  destruct (composite_loop_bounds W 1 4 risques 0 HW Hall') as (S' & HS' & Hlo' & Hhi').
  assert (S' = S) as -> by congruence.
  fold W in Hlo, Hhi, Hlo', Hhi'.
  assert (W * / W == 1)%Q as HWW by (apply Qmult_inv_r; lra).
  rewrite HWW in Hlo, Hhi, Hlo', Hhi'.
  assert (lo <= Py.round S <= hi /\ 1 <= Py.round S <= 4) as [Hb Hs].
  { pose proof (round_mono _ _ Hlo) as H1. pose proof (round_mono _ _ Hhi) as H2.
    pose proof (round_mono _ _ Hlo') as H3. pose proof (round_mono _ _ Hhi') as H4.
    rewrite (round_comp (0 + inject_Z lo * 1) (inject_Z lo)), round_inject_Z in H1 by ring.
    rewrite (round_comp (0 + inject_Z hi * 1) (inject_Z hi)), round_inject_Z in H2 by ring.
    rewrite (round_comp (0 + inject_Z 1 * 1) (inject_Z 1)), round_inject_Z in H3 by ring.
    rewrite (round_comp (0 + inject_Z 4 * 1) (inject_Z 4)), round_inject_Z in H4 by ring.
    lia. }
  exists (Py.round S).
  unfold RiskCalculator.calculate_composite_risk.
  destruct risques as [|r rest]; [contradiction|].
  fold W. rewrite HS. split; [|split; [exact Hb|exact Hs]].
  assert (Py.round S = 1 \/ Py.round S = 2 \/ Py.round S = 3 \/ Py.round S = 4)
    as [->|[->|[->| ->]]] by lia; reflexivity.
Qed.

Lemma calculate_composite_risk_bounds_witness :
  exists score,
    RiskCalculator.calculate_composite_risk
      [ {| RiskCalculator.rl_gravite := 4; RiskCalculator.rl_vraisemblance := 3;
           RiskCalculator.rl_poids := Some (2 # 1) |};
        {| RiskCalculator.rl_gravite := 2; RiskCalculator.rl_vraisemblance := 2;
           RiskCalculator.rl_poids := None |} ]
    = Ok (RiskCalculator.CompositeCalcule score (spec_level score) 2) /\
    2 <= score <= 4 /\ in_scale score.
Proof.
  apply (calculate_composite_risk_bounds
           [ {| RiskCalculator.rl_gravite := 4; RiskCalculator.rl_vraisemblance := 3;
                RiskCalculator.rl_poids := Some (2 # 1) |};
             {| RiskCalculator.rl_gravite := 2; RiskCalculator.rl_vraisemblance := 2;
                RiskCalculator.rl_poids := None |} ] 2 4).
  - discriminate.
  - repeat constructor; unfold in_scale; simpl; lia.
Defined.

Lemma calculate_risk_level_out_of_scale gravite vraisemblance :
  ~ (in_scale gravite /\ in_scale vraisemblance) ->
  exists msg,
    RiskCalculator.calculate_risk_level gravite vraisemblance = Raise (ValueError msg).
Proof.
  intros Hout. unfold RiskCalculator.calculate_risk_level.
  destruct (_ && _) eqn:Hin; simpl; [|eauto].
  exfalso. apply Hout. unfold in_scale.
  repeat (apply andb_prop in Hin; destruct Hin as [Hin ?]). lia.
Qed.

(** X5. The failures and the empty case of [calculate_composite_risk]: with
    no risk it returns score 0 and level "Aucun"; when the first risk is
    outside the scale it raises a [ValueError]; when the first risk is inside
    the scale but the weights sum to 0 it raises [ZeroDivisionError]. *)
Theorem calculate_composite_risk_failures
    (r : RiskCalculator.RisqueLie) (rest : list RiskCalculator.RisqueLie) :
  RiskCalculator.calculate_composite_risk [] = Ok (RiskCalculator.CompositeVide 0 "Aucun") /\
  (~ (in_scale (RiskCalculator.rl_gravite r) /\ in_scale (RiskCalculator.rl_vraisemblance r)) ->
   exists msg,
     RiskCalculator.calculate_composite_risk (r :: rest) = Raise (ValueError msg)) /\
  (in_scale (RiskCalculator.rl_gravite r) -> in_scale (RiskCalculator.rl_vraisemblance r) ->
   Py.sumQ (RiskCalculator.poids_of <$> r :: rest) == 0 ->
   RiskCalculator.calculate_composite_risk (r :: rest) = Raise ZeroDivisionError).
Proof.
  split; [reflexivity|]. split.
  - intros Hout. unfold RiskCalculator.calculate_composite_risk.
    cbn [RiskCalculator.composite_loop].
    destruct (calculate_risk_level_out_of_scale _ _ Hout) as [msg ->]. eauto.
  - intros Hg Hv HW. unfold RiskCalculator.calculate_composite_risk.
    cbn [RiskCalculator.composite_loop].
    rewrite (calculate_risk_level_in_scale _ _ Hg Hv).
    rewrite (proj2 (Qeq_bool_iff _ _) HW). reflexivity.
Qed.

(** ** Rounding to decimals *)

Lemma inject_Z_pos z : 0 < z -> (0 < inject_Z z)%Q.
Proof. intros H. change 0%Q with (inject_Z 0). rewrite <- Zlt_Qlt. exact H. Qed.

(** Rounding to [n] decimals keeps a value between two integers between
    them. *)
Lemma round_nd_bounds (x : Q) (n : nat) (a b : Z) :
  (inject_Z a <= x)%Q -> (x <= inject_Z b)%Q ->
  (inject_Z a <= Py.round_nd x n)%Q /\ (Py.round_nd x n <= inject_Z b)%Q.
Proof.
  intros Ha Hb. unfold Py.round_nd.
  set (P := 10 ^ Z.of_nat n).
  assert (0 < P) as HP by (apply Z.pow_pos_nonneg; lia).
  pose proof (inject_Z_pos P HP) as HPq.
  assert (a * P <= Py.round (x * inject_Z P)) as Hlo.
  { rewrite <- (round_inject_Z (a * P)). apply round_mono.
    rewrite inject_Z_mult. apply Qmult_le_compat_r; lra. }
  assert (Py.round (x * inject_Z P) <= b * P) as Hhi.
  { rewrite <- (round_inject_Z (b * P)). apply round_mono.
    rewrite inject_Z_mult. apply Qmult_le_compat_r; lra. }
  rewrite Zle_Qle, inject_Z_mult in Hlo. rewrite Zle_Qle, inject_Z_mult in Hhi.
  split; [apply Qle_shift_div_l|apply Qle_shift_div_r]; assumption.
Qed.

(** ** Global exposure *)

Lemma repartition_incr_level rep score :
  in_scale score ->
  exists rep',
    RiskCalculator.repartition_incr rep (spec_level score) = Ok rep' /\
    RiskCalculator.rep_critique rep' + RiskCalculator.rep_modere rep'
    + RiskCalculator.rep_acceptable rep' + RiskCalculator.rep_faible rep'
    = RiskCalculator.rep_critique rep + RiskCalculator.rep_modere rep
      + RiskCalculator.rep_acceptable rep + RiskCalculator.rep_faible rep + 1 /\
    RiskCalculator.rep_critique rep' = RiskCalculator.rep_critique rep
                                       + (if score =? 4 then 1 else 0).
Proof.
  intros Hs. destruct (in_scale_cases _ Hs) as [->|[->|[->| ->]]];
    (eexists; split; [reflexivity|]; simpl; lia).
Qed.

Lemma exposure_loop_counts (risks : list RiskCalculator.RisqueGV) total rep :
  Forall risque_gv_ok risks ->
  exists total' rep',
    RiskCalculator.exposure_loop risks total rep = Ok (total', rep') /\
    total + Z.of_nat (length risks) <= total' <= total + 4 * Z.of_nat (length risks) /\
    RiskCalculator.rep_critique rep' + RiskCalculator.rep_modere rep'
    + RiskCalculator.rep_acceptable rep' + RiskCalculator.rep_faible rep'
    = RiskCalculator.rep_critique rep + RiskCalculator.rep_modere rep
      + RiskCalculator.rep_acceptable rep + RiskCalculator.rep_faible rep
      + Z.of_nat (length risks) /\
    RiskCalculator.rep_critique rep <= RiskCalculator.rep_critique rep'
    <= RiskCalculator.rep_critique rep + Z.of_nat (length risks).
Proof.
  intros Hall. revert total rep.
  induction Hall as [|r risks [Hg Hv] Hall IH]; intros total rep.
  - exists total, rep. simpl. repeat split; lia.
  - cbn [RiskCalculator.exposure_loop].
    rewrite (calculate_risk_level_in_scale _ _ Hg Hv).
    pose proof (spec_matrix_in_scale _ _ Hg Hv) as Hs.
    set (s := spec_matrix _ _) in *.
    destruct (repartition_incr_level rep s Hs) as (rep1 & -> & Hsum & Hcrit).
    destruct (IH (total + s) rep1) as (total' & rep' & -> & Ht & Hr & Hc).
    exists total', rep'. split; [reflexivity|].
    unfold in_scale in Hs. rewrite length_cons, Nat2Z.inj_succ.
    destruct (s =? 4); repeat split; lia.
Qed.

Lemma exposure_loop_value_error (risks : list RiskCalculator.RisqueGV) total rep :
  Exists (fun r => ~ risque_gv_ok r) risks ->
  exists msg, RiskCalculator.exposure_loop risks total rep = Raise (ValueError msg).
Proof.
  intros Hex. revert total rep.
  induction risks as [|r risks IH]; intros total rep; [inversion Hex|].
  cbn [RiskCalculator.exposure_loop].
  destruct (RiskCalculator.calculate_risk_level _ _) as [[score niveau]|e] eqn:Hc.
  - apply calculate_risk_level_inv in Hc as (Hg & Hv & Hs & -> & _).
    destruct (repartition_incr_level rep score Hs) as (rep1 & -> & _).
    apply IH. apply Exists_cons in Hex as [Hbad|Hex]; [|exact Hex].
    exfalso. apply Hbad. split; assumption.
  - destruct (decide (in_scale (RiskCalculator.gv_gravite r) /\
                      in_scale (RiskCalculator.gv_vraisemblance r))) as [[Hg Hv]|Hout].
    + rewrite (calculate_risk_level_in_scale _ _ Hg Hv) in Hc. discriminate.
    + destruct (calculate_risk_level_out_of_scale _ _ Hout) as [msg Hmsg].
      rewrite Hmsg in Hc. injection Hc as <-. eauto.
Qed.

(** X6. For at least one risk, [calculate_global_risk_exposure] raises a
    [ValueError] as soon as one risk is outside the scale.  When all are
    inside, it returns the number of risks; the four counters of the
    distribution add up to that number; the total score lies between n and
    4n; the mean exposure lies between 1 and 4 and the share of critical
    risks between 0 and 100. *)
Theorem calculate_global_risk_exposure_counts (risks : list RiskCalculator.RisqueGV) :
  risks <> [] ->
  (Exists (fun r => ~ risque_gv_ok r) risks ->
   exists msg, RiskCalculator.calculate_global_risk_exposure risks = Raise (ValueError msg))
  /\
  (Forall risque_gv_ok risks ->
   exists ex rep total,
     RiskCalculator.calculate_global_risk_exposure risks = Ok ex /\
     RiskCalculator.ex_nb_risques_total ex = length risks /\
     RiskCalculator.ex_repartition ex = Some rep /\
     RiskCalculator.ex_score_total ex = Some total /\
     RiskCalculator.rep_critique rep + RiskCalculator.rep_modere rep
     + RiskCalculator.rep_acceptable rep + RiskCalculator.rep_faible rep
     = Z.of_nat (length risks) /\
     Z.of_nat (length risks) <= total <= 4 * Z.of_nat (length risks) /\
     (1 <= RiskCalculator.ex_exposition_globale ex)%Q /\
     (RiskCalculator.ex_exposition_globale ex <= 4)%Q /\
     (0 <= RiskCalculator.ex_risques_critiques_pct ex)%Q /\
     (RiskCalculator.ex_risques_critiques_pct ex <= 100)%Q).
Proof.
  intros Hne. destruct risks as [|r0 rest]; [contradiction|].
  set (risks := r0 :: rest) in *. split.
  - intros Hex. unfold RiskCalculator.calculate_global_risk_exposure. fold risks.
    subst risks.
    destruct (exposure_loop_value_error (r0 :: rest) 0
                {| RiskCalculator.rep_critique := 0; RiskCalculator.rep_modere := 0;
                   RiskCalculator.rep_acceptable := 0; RiskCalculator.rep_faible := 0 |}
                Hex) as [msg ->]. eauto.
  - intros Hall.
    destruct (exposure_loop_counts risks 0
                {| RiskCalculator.rep_critique := 0; RiskCalculator.rep_modere := 0;
                   RiskCalculator.rep_acceptable := 0; RiskCalculator.rep_faible := 0 |}
                Hall) as (total & rep & Hloop & Ht & Hsum & Hcrit).
    cbn [RiskCalculator.rep_critique RiskCalculator.rep_modere
         RiskCalculator.rep_acceptable RiskCalculator.rep_faible] in Hsum, Hcrit.
    assert (0 < Z.of_nat (length risks)) as Hn by (subst risks; simpl; lia).
    pose proof (inject_Z_pos _ Hn) as Hnq.
    set (n := Z.of_nat (length risks)) in *.
    eexists _, rep, total. split.
    { unfold RiskCalculator.calculate_global_risk_exposure. subst risks.
      rewrite Hloop. reflexivity. }
    cbn [RiskCalculator.ex_nb_risques_total RiskCalculator.ex_repartition
         RiskCalculator.ex_score_total RiskCalculator.ex_exposition_globale
         RiskCalculator.ex_risques_critiques_pct].
    fold risks. fold n.
    split; [reflexivity|]. split; [reflexivity|]. split; [reflexivity|].
    split; [lia|]. split; [lia|].
    assert (inject_Z n <= inject_Z total)%Q as H1 by (rewrite <- Zle_Qle; lia).
    assert (inject_Z total <= 4 * inject_Z n)%Q as H2.
    { change 4%Q with (inject_Z 4). rewrite <- inject_Z_mult, <- Zle_Qle. lia. }
    assert (0 <= inject_Z (RiskCalculator.rep_critique rep))%Q as H3
      by (apply inject_Z_nonneg; lia).
    assert (inject_Z (RiskCalculator.rep_critique rep) <= inject_Z n)%Q as H4
      by (rewrite <- Zle_Qle; lia).
    destruct (round_nd_bounds (inject_Z total / inject_Z n) 2 1 4) as [Ha Hb].
    { apply Qle_shift_div_l; [exact Hnq|]. change (inject_Z 1) with 1%Q. lra. }
    { apply Qle_shift_div_r; [exact Hnq|]. change (inject_Z 4) with 4%Q. lra. }
    destruct (round_nd_bounds
                (inject_Z (RiskCalculator.rep_critique rep) / inject_Z n * 100) 1 0 100)
      as [Hc Hd].
    { change (inject_Z 0) with 0%Q. apply Qmult_le_0_compat; [|lra].
      apply Qle_shift_div_l; [exact Hnq|]. lra. }
    { change (inject_Z 100) with 100%Q.
      assert (inject_Z (RiskCalculator.rep_critique rep) / inject_Z n <= 1)%Q
        by (apply Qle_shift_div_r; [exact Hnq|]; lra).
      lra. }
    change (inject_Z 1) with 1%Q in Ha. change (inject_Z 4) with 4%Q in Hb.
    change (inject_Z 0) with 0%Q in Hc. change (inject_Z 100) with 100%Q in Hd.
    repeat split; assumption.
Qed.

Lemma calculate_global_risk_exposure_counts_witness :
  exists ex,
    RiskCalculator.calculate_global_risk_exposure
      [ {| RiskCalculator.gv_gravite := 4; RiskCalculator.gv_vraisemblance := 4 |};
        {| RiskCalculator.gv_gravite := 1; RiskCalculator.gv_vraisemblance := 2 |};
        {| RiskCalculator.gv_gravite := 3; RiskCalculator.gv_vraisemblance := 3 |} ] = Ok ex /\
    RiskCalculator.ex_nb_risques_total ex = 3%nat /\
    (1 <= RiskCalculator.ex_exposition_globale ex)%Q /\
    (RiskCalculator.ex_exposition_globale ex <= 4)%Q.
Proof.
  destruct (calculate_global_risk_exposure_counts
              [ {| RiskCalculator.gv_gravite := 4; RiskCalculator.gv_vraisemblance := 4 |};
                {| RiskCalculator.gv_gravite := 1; RiskCalculator.gv_vraisemblance := 2 |};
                {| RiskCalculator.gv_gravite := 3; RiskCalculator.gv_vraisemblance := 3 |} ])
    as [_ Hok]; [discriminate|].
  destruct Hok as (ex & rep & total & Hcall & Hn & _ & _ & _ & _ & Hlo & Hhi & _).
  { repeat constructor; unfold in_scale; simpl; lia. }
  exists ex. repeat split; assumption.
Defined.

(** ** Workshop 1: the security baseline *)

Lemma dict_lookup_set_eq {V} (d : list (string * V)) k v :
  Workshop1.dict_lookup (Workshop1.dict_set d k v) k = Some v.
Proof.
  induction d as [|[k' v'] d IH]; simpl.
  - rewrite String.eqb_refl. reflexivity.
  - destruct (String.eqb_spec k' k) as [->|Hne]; simpl.
    + rewrite String.eqb_refl. reflexivity.
    + destruct (String.eqb_spec k' k); [contradiction|exact IH].
Qed.

Lemma dict_lookup_set_ne {V} (d : list (string * V)) k k' v :
  k' <> k ->
  Workshop1.dict_lookup (Workshop1.dict_set d k v) k' = Workshop1.dict_lookup d k'.
Proof.
  intros Hne. induction d as [|[k0 v0] d IH]; simpl.
  - destruct (String.eqb_spec k k'); [congruence|reflexivity].
  - destruct (String.eqb_spec k0 k) as [->|Hne0]; simpl.
    + destruct (String.eqb_spec k k'); [congruence|reflexivity].
    + destruct (String.eqb_spec k0 k'); [reflexivity|exact IH].
Qed.

Lemma dict_set_length {V} (d : list (string * V)) k v :
  length (Workshop1.dict_set d k v)
  = match Workshop1.dict_lookup d k with
    | Some _ => length d
    | None => S (length d)
    end.
Proof.
  induction d as [|[k' v'] d IH]; simpl; [reflexivity|].
  destruct (String.eqb_spec k' k); simpl; [reflexivity|].
  rewrite IH. destruct (Workshop1.dict_lookup d k); reflexivity.
Qed.

Lemma dict_set_in_range (d : list (string * Q)) k v :
  (0 <= v)%Q -> (v <= 100)%Q -> socle_in_range d ->
  socle_in_range (Workshop1.dict_set d k v).
Proof.
  intros H0 H1. unfold socle_in_range.
  induction 1 as [|[k' v'] d Hx Hd IH]; simpl.
  - constructor; [simpl; auto|constructor].
  - destruct (String.eqb k' k); constructor; auto.
Qed.

(** X7. With a score between 0 and 100, [evaluate_socle] returns True and
    stores the score under the domain: reading the domain back gives this
    score, the other domains read as before, a domain already evaluated is
    overwritten (the number of domains does not change) and a new one is
    added; the rest of the study is untouched and the stored scores stay
    percentages. *)
Theorem evaluate_socle_overwrites (st : Workshop1.Study) (domaine : string) (score : Q) :
  (0 <= score)%Q -> (score <= 100)%Q ->
  exists st',
    Workshop1.evaluate_socle domaine score st = (Ok true, st') /\
    Workshop1.dict_lookup (Workshop1.socle_securite st') domaine = Some score /\
    (forall d', d' <> domaine ->
       Workshop1.dict_lookup (Workshop1.socle_securite st') d'
       = Workshop1.dict_lookup (Workshop1.socle_securite st) d') /\
    length (Workshop1.socle_securite st')
    = match Workshop1.dict_lookup (Workshop1.socle_securite st) domaine with
      | Some _ => length (Workshop1.socle_securite st)
      | None => S (length (Workshop1.socle_securite st))
      end /\
    Workshop1.missions st' = Workshop1.missions st /\
    Workshop1.valeurs_metier st' = Workshop1.valeurs_metier st /\
    Workshop1.evenements_redoutes st' = Workshop1.evenements_redoutes st /\
    (socle_in_range (Workshop1.socle_securite st) ->
     socle_in_range (Workshop1.socle_securite st')).
Proof.
  intros H0 H1. unfold Workshop1.evaluate_socle.
  rewrite (proj2 (Qle_bool_iff _ _) H0), (proj2 (Qle_bool_iff _ _) H1). simpl.
  eexists. split; [reflexivity|]. simpl.
  split; [apply dict_lookup_set_eq|].
  split; [intros d' Hne; apply dict_lookup_set_ne; exact Hne|].
  split; [apply dict_set_length|].
  repeat split. apply dict_set_in_range; assumption.
Qed.

Lemma evaluate_socle_overwrites_witness :
  exists st',
    Workshop1.evaluate_socle "Contrôle d'accès" 85
      (snd (Workshop1.evaluate_socle "Contrôle d'accès" 40
              (snd (Workshop1.evaluate_socle "Sauvegardes" 70 Workshop1.init))))
    = (Ok true, st') /\
    Workshop1.dict_lookup (Workshop1.socle_securite st') "Contrôle d'accès" = Some 85%Q /\
    length (Workshop1.socle_securite st') = 2%nat.
Proof.
  destruct (evaluate_socle_overwrites
              (snd (Workshop1.evaluate_socle "Contrôle d'accès" 40
                      (snd (Workshop1.evaluate_socle "Sauvegardes" 70 Workshop1.init))))
              "Contrôle d'accès" 85) as (st' & Hcall & Hget & _ & Hlen & _).
  - vm_compute. discriminate.
  - vm_compute. discriminate.
  - exists st'. split; [exact Hcall|]. split; [exact Hget|].
    rewrite Hlen. vm_compute. reflexivity.
Defined.

Lemma sumQ_in_range (socle : list (string * Q)) :
  socle_in_range socle ->
  (0 <= Py.sumQ (socle.*2))%Q /\
  (Py.sumQ (socle.*2) <= 100 * inject_Z (Z.of_nat (length socle)))%Q.
Proof.
  induction 1 as [|[k v] socle [H0 H1] Hall [IH0 IH1]].
  - split; vm_compute; discriminate.
  - rewrite fmap_cons, sumQ_cons, length_cons, Nat2Z.inj_succ.
    unfold Z.succ. rewrite inject_Z_plus. change (inject_Z 1) with 1%Q.
    cbn [fst snd] in *. split; lra.
Qed.

Lemma filter_disjoint_length {A} (p q : A -> bool) (l : list A) :
  (forall x, p x = true -> q x = false) ->
  (length (List.filter p l) + length (List.filter q l) <= length l)%nat.
Proof.
  intros Hpq. induction l as [|x l IH]; simpl; [lia|].
  destruct (p x) eqn:Hp; [rewrite (Hpq x Hp)|destruct (q x)]; simpl; lia.
Qed.

(** X8. [get_socle_stats] on a baseline whose stored scores are percentages
    (as [evaluate_socle] keeps them): the mean conformity it reports lies
    between 0 and 100, and no domain is counted both as critical (below 60)
    and as compliant (80 or more), so the two counts together never exceed
    the number of domains; with no domain all three figures are 0. *)
Theorem get_socle_stats_bounds (st : Workshop1.Study) :
  socle_in_range (Workshop1.socle_securite st) ->
  (0 <= Workshop1.taux_conformite (Workshop1.get_socle_stats st))%Q /\
  (Workshop1.taux_conformite (Workshop1.get_socle_stats st) <= 100)%Q /\
  (Workshop1.domaines_critiques (Workshop1.get_socle_stats st)
   + Workshop1.domaines_conformes (Workshop1.get_socle_stats st)
   <= length (Workshop1.socle_securite st))%nat /\
  (Workshop1.socle_securite st = [] ->
   Workshop1.get_socle_stats st
   = {| Workshop1.taux_conformite := 0; Workshop1.domaines_critiques := 0;
        Workshop1.domaines_conformes := 0 |}).
Proof.
  intros Hrange. unfold Workshop1.get_socle_stats.
  destruct (Workshop1.socle_securite st) as [|p rest].
  - simpl. repeat split; try lra; try lia.
  - cbv iota beta zeta.
    cbn [Workshop1.taux_conformite Workshop1.domaines_critiques
         Workshop1.domaines_conformes].
    set (socle := p :: rest) in *.
    destruct (sumQ_in_range _ Hrange) as [H0 H1].
    rewrite length_fmap.
    assert (0 < Z.of_nat (length socle)) as Hn by (subst socle; simpl; lia).
    pose proof (inject_Z_pos _ Hn) as Hnq.
    destruct (round_nd_bounds
                (Py.sumQ (socle.*2) / inject_Z (Z.of_nat (length socle))) 1 0 100)
      as [Ha Hb].
    { change (inject_Z 0) with 0%Q. apply Qle_shift_div_l; [exact Hnq|]. lra. }
    { change (inject_Z 100) with 100%Q. apply Qle_shift_div_r; [exact Hnq|]. lra. }
    split; [exact Ha|]. split; [exact Hb|]. split.
    + rewrite <- (length_fmap snd socle).
      apply filter_disjoint_length. intros x Hx.
      apply negb_true_iff in Hx.
      destruct (Qle_bool 80 x) eqn:H80; [|reflexivity].
      apply Qle_bool_iff in H80.
      assert (Qle_bool 60 x = true) by (apply Qle_bool_iff; lra). congruence.
    + intros H. discriminate.
Qed.

Lemma get_socle_stats_bounds_witness :
  (0 <= Workshop1.taux_conformite
          (Workshop1.get_socle_stats
             (snd (Workshop1.evaluate_socle "Contrôle d'accès" 40
                     (snd (Workshop1.evaluate_socle "Sauvegardes" 85 Workshop1.init))))))%Q /\
  (Workshop1.taux_conformite
     (Workshop1.get_socle_stats
        (snd (Workshop1.evaluate_socle "Contrôle d'accès" 40
                (snd (Workshop1.evaluate_socle "Sauvegardes" 85 Workshop1.init))))) <= 100)%Q.
Proof.
  destruct (get_socle_stats_bounds
              (snd (Workshop1.evaluate_socle "Contrôle d'accès" 40
                      (snd (Workshop1.evaluate_socle "Sauvegardes" 85 Workshop1.init)))))
    as (H0 & H1 & _).
  - repeat constructor; simpl; vm_compute; discriminate.
  - split; assumption.
Defined.

(** ** Workshop 1: business values *)

Lemma check_sensibilite_spec (sensibilite : list (string * Z)) (cles : list string) :
  (Forall (fun cle => exists v, Workshop1.dict_lookup sensibilite cle = Some v /\ in_scale v)
          cles ->
   Workshop1.check_sensibilite sensibilite cles = Ok tt) /\
  (~ Forall (fun cle => exists v, Workshop1.dict_lookup sensibilite cle = Some v /\ in_scale v)
            cles ->
   exists msg, Workshop1.check_sensibilite sensibilite cles = Raise (ValueError msg)).
Proof.
  induction cles as [|cle cles [IHok IHko]]; simpl.
  - split; [reflexivity|]. intros H. exfalso. apply H. constructor.
  - split.
    + intros Hall. apply Forall_cons in Hall as [(v & -> & [Hlo Hhi]) Hall].
      rewrite (proj2 (Z.leb_le _ _) Hlo), (proj2 (Z.leb_le _ _) Hhi). simpl. auto.
    + intros Hnot.
      destruct (Workshop1.dict_lookup sensibilite cle) as [v|] eqn:Hv; [|eauto].
      destruct (Z.leb_spec 1 v); destruct (Z.leb_spec v 4); simpl; eauto.
      apply IHko. intros Hall. apply Hnot. constructor; [|exact Hall].
      exists v. unfold in_scale. auto.
Qed.

Lemma foldr_max_ge (v0 : Z) (l : list Z) :
  v0 <= foldr Z.max v0 l /\ Forall (fun x => x <= foldr Z.max v0 l) l.
Proof.
  induction l as [|x l [IH0 IH]]; [split; [reflexivity|constructor]|].
  cbn [foldr]. split; [lia|]. constructor; [lia|].
  eapply Forall_impl; [exact IH|]. simpl. intros y Hy. lia.
Qed.

Lemma dict_lookup_elem_of {V} (d : list (string * V)) k v :
  Workshop1.dict_lookup d k = Some v -> v ∈ d.*2.
Proof.
  induction d as [|[k0 v0] d IH]; [discriminate|]. simpl.
  destruct (String.eqb k0 k).
  - intros [= <-]. apply list_elem_of_here.
  - intros H. apply list_elem_of_further, IH, H.
Qed.

Lemma dict_lookup_le_max (d : list (string * Z)) k v :
  Workshop1.dict_lookup d k = Some v -> v <= Workshop1.max_values d.
Proof.
  intros H. apply dict_lookup_elem_of in H.
  destruct d as [|[k0 v0] d]; [inversion H|].
  unfold Workshop1.max_values. destruct (foldr_max_ge v0 (d.*2)) as [H0 Hall].
  rewrite fmap_cons in H. apply elem_of_cons in H as [->|H]; [exact H0|].
  exact (proj1 (Forall_forall _ _) Hall v H).
Qed.

(** X9. [add_valeur_metier] returns True exactly when the four keys D, I, C
    and T are present in the sensitivity with a value in [1,4]; it then
    appends the value with the sensitivity as given, and its [niveau_max] is
    at least every value the sensitivity holds.  Otherwise it raises a
    [ValueError] and leaves the study as it was. *)
Theorem add_valeur_metier_checked
    (st : Workshop1.Study) (nom type_valeur : string) (sensibilite : list (string * Z)) :
  (sensibilite_ok sensibilite ->
   exists valeur,
     Workshop1.add_valeur_metier nom type_valeur sensibilite st
     = (Ok true,
        {| Workshop1.missions := Workshop1.missions st;
           Workshop1.valeurs_metier := Workshop1.valeurs_metier st ++ [valeur];
           Workshop1.evenements_redoutes := Workshop1.evenements_redoutes st;
           Workshop1.socle_securite := Workshop1.socle_securite st |}) /\
     Workshop1.vm_sensibilite valeur = sensibilite /\
     (forall cle v, Workshop1.dict_lookup sensibilite cle = Some v ->
                    v <= Workshop1.vm_niveau_max valeur) /\
     1 <= Workshop1.vm_niveau_max valeur)
  /\
  (~ sensibilite_ok sensibilite ->
   exists msg,
     Workshop1.add_valeur_metier nom type_valeur sensibilite st
     = (Raise (ValueError msg), st)).
Proof.
  destruct (check_sensibilite_spec sensibilite ["D"; "I"; "C"; "T"]) as [Hok Hko].
  unfold Workshop1.add_valeur_metier. split.
  - intros Hs. rewrite (Hok Hs). eexists. split; [reflexivity|]. simpl.
    split; [reflexivity|]. split; [intros cle v; apply dict_lookup_le_max|].
    apply Forall_cons in Hs as [(v & Hv & [Hlo _]) _].
    pose proof (dict_lookup_le_max _ _ _ Hv). lia.
  - intros Hs. destruct (Hko Hs) as [msg ->]. eauto.
Qed.

(** ** Workshop 2: the states reached from a fresh workshop *)

Lemma calculate_gravite_in_scale capacite_sr impact_ov pertinence :
  in_scale (Workshop2._calculate_gravite capacite_sr impact_ov pertinence).
Proof.
  unfold Workshop2._calculate_gravite, in_scale.
  repeat destruct (Qle_bool _ _); lia.
Qed.

(** Appending sources and objectives keeps a mapping entry resolved. *)
Lemma resolves_frame st st' sources objectifs relation :
  Workshop2.sources_risque st' = Workshop2.sources_risque st ++ sources ->
  Workshop2.objectifs_vises st' = Workshop2.objectifs_vises st ++ objectifs ->
  resolves st relation -> resolves st' relation.
Proof.
  unfold resolves, Workshop2.find_source, Workshop2.find_objectif.
  intros -> -> [Hsr Hov]. split.
  - destruct (list_find _ (Workshop2.sources_risque st)) as [[i x]|] eqn:Hf;
      [|destruct Hsr; discriminate].
    rewrite (list_find_app_l _ _ _ _ _ Hf). eexists; reflexivity.
  - destruct (list_find _ (Workshop2.objectifs_vises st)) as [[i x]|] eqn:Hf;
      [|destruct Hov; discriminate].
    rewrite (list_find_app_l _ _ _ _ _ Hf). eexists; reflexivity.
Qed.

Lemma cartographie_ok_init : cartographie_ok Workshop2.init.
Proof. split; simpl; try reflexivity; constructor. Qed.

Lemma cartographie_ok_add_source_risque st nom type_sr ressources determination competences :
  cartographie_ok st ->
  cartographie_ok
    (snd (Workshop2.add_source_risque nom type_sr ressources determination competences st)).
Proof.
  intros [Hsr Hov Hres Hrel Hsc Hso]. unfold Workshop2.add_source_risque.
  destruct (negb _); simpl; [split; assumption|].
  split; simpl; try assumption.
  - rewrite fmap_app, length_app, Hsr. simpl.
    rewrite Nat.add_1_r at 2. rewrite seq_S, fmap_app. reflexivity.
  - eapply Forall_impl; [exact Hres|]. intros r Hr.
    eapply (resolves_frame st _ _ []); [reflexivity|simpl; symmetry; apply app_nil_r|exact Hr].
Qed.

Lemma cartographie_ok_add_objectif_vise st nom description impact_potentiel :
  cartographie_ok st ->
  cartographie_ok (snd (Workshop2.add_objectif_vise nom description impact_potentiel st)).
Proof.
  intros [Hsr Hov Hres Hrel Hsc Hso]. unfold Workshop2.add_objectif_vise.
  destruct (negb _); simpl; [split; assumption|].
  split; simpl; try assumption.
  - rewrite fmap_app, length_app, Hov. simpl.
    rewrite Nat.add_1_r at 2. rewrite seq_S, fmap_app. reflexivity.
  - eapply Forall_impl; [exact Hres|]. intros r Hr.
    eapply (resolves_frame st _ [] _); [simpl; symmetry; apply app_nil_r|reflexivity|exact Hr].
Qed.

Lemma cartographie_ok_map_sr_to_ov st sr_id0 ov_id0 pertinence :
  cartographie_ok st ->
  cartographie_ok (snd (Workshop2.map_sr_to_ov sr_id0 ov_id0 pertinence st)).
Proof.
  intros Hok. pose proof Hok as [Hsr Hov Hres Hrel Hsc Hso].
  unfold Workshop2.map_sr_to_ov.
  destruct (negb _); simpl; [exact Hok|].
  destruct (Workshop2.find_source st sr_id0) as [sr|] eqn:Hfs; [|exact Hok].
  destruct (Workshop2.find_objectif st ov_id0) as [ov|] eqn:Hfo; [|exact Hok].
  split; simpl; try assumption.
  - apply Forall_app. split; [exact Hres|]. constructor; [|constructor].
    split; [change (is_Some (Workshop2.find_source st sr_id0)); rewrite Hfs
           |change (is_Some (Workshop2.find_objectif st ov_id0)); rewrite Hfo];
      eexists; reflexivity.
  - apply Forall_app. split; [exact Hrel|]. constructor; [|constructor].
    simpl. apply calculate_gravite_in_scale.
Qed.

(** In such a state the generation keeps every mapping entry. *)
Lemma generate_all st :
  Forall (resolves st) (Workshop2.cartographie_sr_ov st) ->
  Forall (fun r => in_scale (Workshop2.rel_gravite_scenario r))
         (Workshop2.cartographie_sr_ov st) ->
  exists built,
    foldl (Workshop2.generate_step st) [] (Workshop2.cartographie_sr_ov st) = built /\
    length built = length (Workshop2.cartographie_sr_ov st) /\
    Forall (fun s => in_scale (Workshop2.ss_gravite s) /\
                     Workshop2.ss_niveau_risque s
                     = Workshop2._get_risk_level (Workshop2.ss_gravite s)) built.
Proof.
  intros Hres Hrel.
  destruct (generate_loop st (Workshop2.cartographie_sr_ov st) [])
    as (built & Hbuilt & Hall & _).
  simpl in Hbuilt. exists built. split; [exact Hbuilt|].
  rewrite filter_all in Hall by exact Hres.
  split; [symmetry; eapply Forall2_length; exact Hall|].
  clear Hbuilt Hres. induction Hall as [|r s rs ss Hrs _ IH]; [constructor|].
  apply Forall_cons in Hrel as [Hr Hrel]. constructor; [|apply IH, Hrel].
  destruct Hrs as (sr & ov & _ & _ & _ & _ & _ & _ & Hg & Hn & _).
  rewrite Hg. split; [exact Hr|exact Hn].
Qed.

Lemma cartographie_ok_generate st :
  cartographie_ok st ->
  cartographie_ok (snd (Workshop2.generate_scenarios_strategiques st)).
Proof.
  intros [Hsr Hov Hres Hrel Hsc Hso].
  destruct (generate_all st Hres Hrel) as (built & Hbuilt & _ & Hall).
  unfold Workshop2.generate_scenarios_strategiques. rewrite Hbuilt.
  split; simpl; try assumption.
  - rewrite (sort_desc_Permutation Workshop2.ss_gravite built).
    eapply Forall_impl; [exact Hall|]. intros s [Hs _]. exact Hs.
  - apply sort_desc_sorted.
Qed.

Lemma cartographie_ok_step st o : cartographie_ok st -> cartographie_ok (Workshop2.step st o).
Proof.
  intros Hok. destruct o; cbn [Workshop2.step].
  - apply cartographie_ok_add_source_risque, Hok.
  - apply cartographie_ok_add_objectif_vise, Hok.
  - apply cartographie_ok_map_sr_to_ov, Hok.
  - apply cartographie_ok_generate, Hok.
  - unfold Workshop2.get_top_scenarios.
    destruct (Workshop2.scenarios_strategiques st); cbn [snd];
      [apply cartographie_ok_generate, Hok|exact Hok].
  - unfold Workshop2.get_statistics.
    destruct (Workshop2.scenarios_strategiques st) eqn:Hs.
    + repeat match goal with |- context [match ?x with _ => _ end] => destruct x end;
        cbn [snd]; apply cartographie_ok_generate, Hok.
    + repeat match goal with |- context [match ?x with _ => _ end] => destruct x end;
        cbn [snd]; exact Hok.
Qed.

Lemma reachable_cartographie_ok st : Workshop2.reachable st -> cartographie_ok st.
Proof.
  intros [ops ->]. unfold Workshop2.run.
  pose proof cartographie_ok_init as Hinit. revert Hinit. generalize Workshop2.init.
  induction ops as [|o ops IH]; intros st Hst; [exact Hst|].
  simpl. apply IH, cartographie_ok_step, Hst.
Qed.

(** X10. In a state reached from a fresh workshop every mapping entry refers
    to an existing source and an existing objective.  So
    [generate_scenarios_strategiques] drops nothing there: it returns and
    stores one scenario per mapping entry, sorted by non-increasing gravity,
    each with a gravity between 1 and 4 and the level named after it, never
    the fallback level. *)
Theorem generate_scenarios_strategiques_reachable (st : Workshop2.Assessment) :
  Workshop2.reachable st ->
  Forall (resolves st) (Workshop2.cartographie_sr_ov st) /\
  exists sorted st',
    Workshop2.generate_scenarios_strategiques st = (Ok sorted, st') /\
    Workshop2.scenarios_strategiques st' = sorted /\
    length sorted = length (Workshop2.cartographie_sr_ov st) /\
    StronglySorted gravite_desc sorted /\
    Forall (fun s => in_scale (Workshop2.ss_gravite s) /\
                     Workshop2.ss_niveau_risque s = spec_level_gravite (Workshop2.ss_gravite s) /\
                     Workshop2.ss_niveau_risque s <> "Indéterminé") sorted.
Proof.
  intros Hreach. destruct (reachable_cartographie_ok st Hreach) as [_ _ Hres Hrel _ _].
  split; [exact Hres|].
  destruct (generate_all st Hres Hrel) as (built & Hbuilt & Hlen & Hall).
  unfold Workshop2.generate_scenarios_strategiques. rewrite Hbuilt.
  eexists _, _. split; [reflexivity|]. split; [reflexivity|].
  split; [rewrite (sort_desc_Permutation Workshop2.ss_gravite built); exact Hlen|].
  split; [apply sort_desc_sorted|].
  rewrite (sort_desc_Permutation Workshop2.ss_gravite built).
  eapply Forall_impl; [exact Hall|]. intros s [Hs Hn].
  split; [exact Hs|]. rewrite Hn.
  destruct (in_scale_cases _ Hs) as [Hg|[Hg|[Hg|Hg]]]; rewrite Hg;
    split; (reflexivity || discriminate).
Qed.

Lemma generate_scenarios_strategiques_reachable_witness :
  Forall (resolves (Workshop2.run session_cartographie))
         (Workshop2.cartographie_sr_ov (Workshop2.run session_cartographie)) /\
  exists sorted st',
    Workshop2.generate_scenarios_strategiques (Workshop2.run session_cartographie)
    = (Ok sorted, st') /\
    Workshop2.scenarios_strategiques st' = sorted /\
    length sorted = length (Workshop2.cartographie_sr_ov (Workshop2.run session_cartographie)) /\
    StronglySorted gravite_desc sorted /\
    Forall (fun s => in_scale (Workshop2.ss_gravite s) /\
                     Workshop2.ss_niveau_risque s = spec_level_gravite (Workshop2.ss_gravite s) /\
                     Workshop2.ss_niveau_risque s <> "Indéterminé") sorted.
Proof.
  apply (generate_scenarios_strategiques_reachable (Workshop2.run session_cartographie)).
  exists session_cartographie. reflexivity.
Defined.

(** ** Workshop 2: statistics and the top scenarios *)

Lemma count_gravite_cons g s l :
  count_gravite g (s :: l)
  = (if Workshop2.ss_gravite s =? g then 1 else 0) + count_gravite g l.
Proof.
  unfold count_gravite. rewrite filter_cons.
  destruct (Z.eqb_spec (Workshop2.ss_gravite s) g) as [Heq|Hne].
  - rewrite decide_True by exact Heq. simpl length. lia.
  - rewrite decide_False by exact Hne. lia.
Qed.

(** The counting loop on scenarios whose gravities are on the scale. *)
Lemma count_gravites_in_scale (l : list Workshop2.Scenario) (c1 c2 c3 c4 : Z) :
  Forall (fun s => in_scale (Workshop2.ss_gravite s)) l ->
  Workshop2.count_gravites l [(1, c1); (2, c2); (3, c3); (4, c4)]
  = Ok [(1, c1 + count_gravite 1 l); (2, c2 + count_gravite 2 l);
        (3, c3 + count_gravite 3 l); (4, c4 + count_gravite 4 l)].
Proof.
  intros Hall. revert c1 c2 c3 c4.
  induction Hall as [|s l Hs _ IH]; intros c1 c2 c3 c4.
  - unfold count_gravite. simpl. rewrite !Z.add_0_r. reflexivity.
  - rewrite !count_gravite_cons. cbn [Workshop2.count_gravites].
    destruct (in_scale_cases _ Hs) as [Hg|[Hg|[Hg|Hg]]]; rewrite Hg;
      cbn [Py.dict_incr Z.eqb Pos.eqb]; rewrite IH; f_equal;
      repeat (apply (f_equal2 cons); [apply (f_equal2 pair); [reflexivity|lia]|]);
      reflexivity.
Qed.

(** A gravity off the scale stops the counting loop with a [KeyError]. *)
Lemma count_gravites_key_error (l : list Workshop2.Scenario) (c1 c2 c3 c4 : Z) :
  ~ Forall (fun s => in_scale (Workshop2.ss_gravite s)) l ->
  Workshop2.count_gravites l [(1, c1); (2, c2); (3, c3); (4, c4)] = Raise KeyError.
Proof.
  revert c1 c2 c3 c4. induction l as [|s l IH]; intros c1 c2 c3 c4 Hnot.
  - destruct Hnot. constructor.
  - cbn [Workshop2.count_gravites Py.dict_incr].
    destruct (Z.eqb_spec 1 (Workshop2.ss_gravite s)) as [H1|H1];
      [apply IH; intros Hl; apply Hnot; constructor; [unfold in_scale; lia|exact Hl]|].
    destruct (Z.eqb_spec 2 (Workshop2.ss_gravite s)) as [H2|H2];
      [apply IH; intros Hl; apply Hnot; constructor; [unfold in_scale; lia|exact Hl]|].
    destruct (Z.eqb_spec 3 (Workshop2.ss_gravite s)) as [H3|H3];
      [apply IH; intros Hl; apply Hnot; constructor; [unfold in_scale; lia|exact Hl]|].
    destruct (Z.eqb_spec 4 (Workshop2.ss_gravite s)) as [H4|H4];
      [apply IH; intros Hl; apply Hnot; constructor; [unfold in_scale; lia|exact Hl]|].
    reflexivity.
Qed.

Lemma count_gravite_total (l : list Workshop2.Scenario) :
  Forall (fun s => in_scale (Workshop2.ss_gravite s)) l ->
  count_gravite 1 l + count_gravite 2 l + count_gravite 3 l + count_gravite 4 l
  = Z.of_nat (length l).
Proof.
  induction 1 as [|s l Hs _ IH]; [reflexivity|].
  rewrite !count_gravite_cons. simpl length.
  destruct (in_scale_cases _ Hs) as [Hg|[Hg|[Hg|Hg]]]; rewrite Hg; simpl; lia.
Qed.

(** X11. [get_statistics] in a state reached from a fresh workshop returns
    normally: its four counters are the numbers of stored scenarios of
    gravity 4, 3, 2 and 1, they add up to the number of scenarios reported,
    and the distribution lists them by gravity.  In any state whose stored
    scenario list holds a gravity outside 1..4 the call raises [KeyError]. *)
Theorem get_statistics_counts (st : Workshop2.Assessment) :
  (Workshop2.reachable st ->
   exists stats st',
     Workshop2.get_statistics st = (Ok stats, st') /\
     Workshop2.nb_scenarios_strategiques stats
     = length (Workshop2.scenarios_strategiques st') /\
     Workshop2.scenarios_critiques stats
     = count_gravite 4 (Workshop2.scenarios_strategiques st') /\
     Workshop2.scenarios_eleves stats
     = count_gravite 3 (Workshop2.scenarios_strategiques st') /\
     Workshop2.scenarios_moderes stats
     = count_gravite 2 (Workshop2.scenarios_strategiques st') /\
     Workshop2.scenarios_faibles stats
     = count_gravite 1 (Workshop2.scenarios_strategiques st') /\
     Workshop2.scenarios_critiques stats + Workshop2.scenarios_eleves stats
     + Workshop2.scenarios_moderes stats + Workshop2.scenarios_faibles stats
     = Z.of_nat (Workshop2.nb_scenarios_strategiques stats) /\
     Workshop2.repartition_gravite stats
     = [(1, Workshop2.scenarios_faibles stats); (2, Workshop2.scenarios_moderes stats);
        (3, Workshop2.scenarios_eleves stats); (4, Workshop2.scenarios_critiques stats)]) /\
  (~ Forall (fun s => in_scale (Workshop2.ss_gravite s))
            (Workshop2.scenarios_strategiques st) ->
   Workshop2.get_statistics st = (Raise KeyError, st)).
Proof.
  split.
  - intros Hreach.
    assert (exists st1,
      st1 = match Workshop2.scenarios_strategiques st with
            | [] => snd (Workshop2.generate_scenarios_strategiques st)
            | _ :: _ => st
            end /\ cartographie_ok st1) as (st1 & Hst1 & Hok).
    { eexists. split; [reflexivity|].
      pose proof (reachable_cartographie_ok st Hreach) as Hok.
      destruct (Workshop2.scenarios_strategiques st);
        [apply cartographie_ok_generate, Hok|exact Hok]. }
    unfold Workshop2.get_statistics. rewrite <- Hst1.
    rewrite (count_gravites_in_scale _ 0 0 0 0 (ok_scenarios st1 Hok)).
    cbn [Py.dict_get Z.eqb Pos.eqb]. eexists _, _. split; [reflexivity|].
    cbn [Workshop2.nb_scenarios_strategiques Workshop2.scenarios_critiques
         Workshop2.scenarios_eleves Workshop2.scenarios_moderes
         Workshop2.scenarios_faibles Workshop2.repartition_gravite].
    rewrite !Z.add_0_l.
    repeat (split; [reflexivity|]).
    split; [|reflexivity].
    rewrite <- (count_gravite_total _ (ok_scenarios st1 Hok)). lia.
  - intros Hnot. unfold Workshop2.get_statistics.
    destruct (Workshop2.scenarios_strategiques st) as [|s l] eqn:Hs.
    { destruct Hnot. constructor. }
    cbv zeta. rewrite (count_gravites_key_error _ 0 0 0 0) by (rewrite ?Hs; exact Hnot).
    reflexivity.
Qed.

(** X12. [get_top_scenarios(n)] with [n >= 0], in a state reached from a
    fresh workshop, returns the first [n] stored scenarios (all of them when
    there are fewer): they are sorted by non-increasing gravity and no
    scenario left out is graver than one returned.  The list is generated
    only when none is stored: a stored list, even one older than the latest
    mapping, is returned as it is and the state does not change. *)
Theorem get_top_scenarios_prefix (st : Workshop2.Assessment) (n : Z) :
  Workshop2.reachable st ->
  0 <= n ->
  exists top st',
    Workshop2.get_top_scenarios n st = (Ok top, st') /\
    top = take (Z.to_nat n) (Workshop2.scenarios_strategiques st') /\
    length top = Nat.min (Z.to_nat n) (length (Workshop2.scenarios_strategiques st')) /\
    StronglySorted gravite_desc top /\
    (forall s s',
       s ∈ top -> s' ∈ drop (Z.to_nat n) (Workshop2.scenarios_strategiques st') ->
       Workshop2.ss_gravite s' <= Workshop2.ss_gravite s) /\
    (Workshop2.scenarios_strategiques st <> [] -> st' = st) /\
    (Workshop2.scenarios_strategiques st = [] ->
     st' = snd (Workshop2.generate_scenarios_strategiques st)).
Proof.
  intros Hreach Hn.
  pose proof (reachable_cartographie_ok st Hreach) as Hok.
  unfold Workshop2.get_top_scenarios.
  set (st1 := match Workshop2.scenarios_strategiques st with
              | [] => snd (Workshop2.generate_scenarios_strategiques st)
              | _ :: _ => st
              end).
  assert (cartographie_ok st1) as Hok1.
  { subst st1. destruct (Workshop2.scenarios_strategiques st);
      [apply cartographie_ok_generate, Hok|exact Hok]. }
  exists (take (Z.to_nat n) (Workshop2.scenarios_strategiques st1)), st1.
  pose proof (ok_sorted st1 Hok1) as Hsorted.
  rewrite <- (take_drop (Z.to_nat n) (Workshop2.scenarios_strategiques st1)) in Hsorted.
  apply StronglySorted_app in Hsorted as (Hcross & Htop & _).
  split.
  { unfold Py.slice_to. destruct (Z.ltb_spec n 0); [lia|reflexivity]. }
  split; [reflexivity|]. split; [apply length_take|]. split; [exact Htop|].
  split; [intros s s' Hs Hs'; exact (Hcross s s' Hs Hs')|].
  subst st1. split.
  - intros Hne. destruct (Workshop2.scenarios_strategiques st); [destruct Hne|]; reflexivity.
  - intros ->. reflexivity.
Qed.

Lemma get_top_scenarios_prefix_witness :
  exists top st',
    Workshop2.get_top_scenarios 2 (Workshop2.run session_cartographie) = (Ok top, st') /\
    top = take (Z.to_nat 2) (Workshop2.scenarios_strategiques st') /\
    length top = Nat.min (Z.to_nat 2) (length (Workshop2.scenarios_strategiques st')) /\
    StronglySorted gravite_desc top /\
    (forall s s',
       s ∈ top -> s' ∈ drop (Z.to_nat 2) (Workshop2.scenarios_strategiques st') ->
       Workshop2.ss_gravite s' <= Workshop2.ss_gravite s) /\
    (Workshop2.scenarios_strategiques (Workshop2.run session_cartographie) <> [] ->
     st' = Workshop2.run session_cartographie) /\
    (Workshop2.scenarios_strategiques (Workshop2.run session_cartographie) = [] ->
     st' = snd (Workshop2.generate_scenarios_strategiques
                  (Workshop2.run session_cartographie))).
Proof.
  apply (get_top_scenarios_prefix (Workshop2.run session_cartographie) 2).
  - exists session_cartographie. reflexivity.
  - lia.
Defined.

(** ** Workshop 2: coverage and validation *)

Lemma round_nd_inject_Z (x : Q) (n : nat) (z : Z) :
  x == inject_Z z -> Py.round_nd x n == inject_Z z.
Proof.
  intros Hx. unfold Py.round_nd.
  set (P := 10 ^ Z.of_nat n).
  assert (0 < P) as HP by (apply Z.pow_pos_nonneg; lia).
  pose proof (inject_Z_pos P HP) as HPq.
  rewrite (round_comp (x * inject_Z P) (inject_Z (z * P)))
    by (rewrite inject_Z_mult, Hx; reflexivity).
  rewrite round_inject_Z, inject_Z_mult. field. lra.
Qed.

(** The rate computed from the identifiers covered, when they are among the
    identifiers of the entities. *)
Lemma coverage_generic (ids covered_ids : list string) (total : nat) :
  length ids = S total -> NoDup ids ->
  (forall x, x ∈ covered_ids -> x ∈ ids) ->
  let rate :=
    Py.round_nd (inject_Z (Z.of_nat (length (remove_dups covered_ids)))
                 / inject_Z (Z.of_nat (S total)) * 100) 1 in
  (0 <= rate)%Q /\ (rate <= 100)%Q /\
  (covered_ids = [] -> rate == 0) /\
  ((forall x, x ∈ ids -> x ∈ covered_ids) -> rate == 100).
Proof.
  intros Hlen Hnd Hsub rate.
  assert (length (remove_dups covered_ids) <= S total)%nat as Hle.
  { rewrite <- Hlen. apply submseteq_length, NoDup_submseteq; [apply NoDup_remove_dups|].
    intros x Hx. apply Hsub, elem_of_remove_dups, Hx. }
  set (c := length (remove_dups covered_ids)) in *.
  assert (0 < inject_Z (Z.of_nat (S total)))%Q as Ht by (apply inject_Z_pos; lia).
  assert (0 <= inject_Z (Z.of_nat c))%Q as Hc0 by (apply inject_Z_nonneg; lia).
  assert (inject_Z (Z.of_nat c) <= inject_Z (Z.of_nat (S total)))%Q as Hc1
    by (rewrite <- Zle_Qle; lia).
  assert (0 <= inject_Z (Z.of_nat c) / inject_Z (Z.of_nat (S total)))%Q as Hr0
    by (apply Qle_shift_div_l; lra).
  assert (inject_Z (Z.of_nat c) / inject_Z (Z.of_nat (S total)) <= 1)%Q as Hr1
    by (apply Qle_shift_div_r; lra).
  destruct (round_nd_bounds
              (inject_Z (Z.of_nat c) / inject_Z (Z.of_nat (S total)) * 100) 1 0 100)
    as [Hlo Hhi].
  { change (inject_Z 0) with 0%Q. lra. }
  { change (inject_Z 100) with 100%Q. lra. }
  split; [exact Hlo|]. split; [exact Hhi|]. split.
  - intros ->. subst rate c. apply (round_nd_inject_Z _ 1 0).
    simpl. change (inject_Z 0) with 0%Q. field. lra.
  - intros Hall. subst rate. apply (round_nd_inject_Z _ 1 100).
    assert (c = S total) as ->.
    { subst c. rewrite <- Hlen. apply Permutation_length, NoDup_Permutation;
        [apply NoDup_remove_dups|exact Hnd|].
      intros x. rewrite elem_of_remove_dups. split; [apply Hsub|apply Hall]. }
    change (inject_Z 100) with 100%Q. field. lra.
Qed.

(** X13. In a state reached from a fresh workshop the coverage rate of the
    sources, and that of the objectives, lies between 0 and 100; it is 0
    when there is no entity or no mapping, and 100 when every entity occurs
    in a mapping entry. *)
Theorem calculate_coverage_rate_bounds (st : Workshop2.Assessment) (type_entity : string) :
  Workshop2.reachable st ->
  (0 <= Workshop2._calculate_coverage_rate type_entity st)%Q /\
  (Workshop2._calculate_coverage_rate type_entity st <= 100)%Q /\
  (Workshop2.cartographie_sr_ov st = [] ->
   Workshop2._calculate_coverage_rate type_entity st == 0) /\
  (Workshop2.sources_risque st = [] ->
   Workshop2._calculate_coverage_rate "sources" st == 0) /\
  (Workshop2.sources_risque st <> [] ->
   (forall sr, sr ∈ Workshop2.sources_risque st ->
               Workshop2.sr_id sr ∈ Workshop2.rel_sr_id <$> Workshop2.cartographie_sr_ov st) ->
   Workshop2._calculate_coverage_rate "sources" st == 100) /\
  (Workshop2.objectifs_vises st <> [] ->
   (forall ov, ov ∈ Workshop2.objectifs_vises st ->
               Workshop2.ov_id ov ∈ Workshop2.rel_ov_id <$> Workshop2.cartographie_sr_ov st) ->
   Workshop2._calculate_coverage_rate "objectifs" st == 100).
Proof.
  intros Hreach.
  destruct (reachable_cartographie_ok st Hreach) as [Hsr Hov Hres _ _ _].
  assert (NoDup (Workshop2.sr_id <$> Workshop2.sources_risque st)) as Hnds
    by (rewrite Hsr; apply seq_ids_NoDup).
  assert (NoDup (Workshop2.ov_id <$> Workshop2.objectifs_vises st)) as Hndo
    by (rewrite Hov; apply seq_ids_NoDup).
  assert (forall x, x ∈ Workshop2.rel_sr_id <$> Workshop2.cartographie_sr_ov st ->
                    x ∈ Workshop2.sr_id <$> Workshop2.sources_risque st) as Hsubs.
  { intros x Hx. apply list_elem_of_fmap in Hx as (r & -> & Hr).
    rewrite Forall_forall in Hres. destruct (Hres r Hr) as [Hfs _].
    destruct (decide (Workshop2.rel_sr_id r ∈ Workshop2.sr_id <$> Workshop2.sources_risque st))
      as [Hin|Hnot]; [exact Hin|].
    rewrite (find_source_None st _ Hnot) in Hfs. destruct Hfs; discriminate. }
  assert (forall x, x ∈ Workshop2.rel_ov_id <$> Workshop2.cartographie_sr_ov st ->
                    x ∈ Workshop2.ov_id <$> Workshop2.objectifs_vises st) as Hsubo.
  { intros x Hx. apply list_elem_of_fmap in Hx as (r & -> & Hr).
    rewrite Forall_forall in Hres. destruct (Hres r Hr) as [_ Hfo].
    destruct (decide (Workshop2.rel_ov_id r ∈ Workshop2.ov_id <$> Workshop2.objectifs_vises st))
      as [Hin|Hnot]; [exact Hin|].
    rewrite (find_objectif_None st _ Hnot) in Hfo. destruct Hfo; discriminate. }
  assert (forall total, length (Workshop2.sources_risque st) = S total ->
            length (Workshop2.sr_id <$> Workshop2.sources_risque st) = S total) as Hls
    by (intros total <-; apply length_fmap).
  assert (forall total, length (Workshop2.objectifs_vises st) = S total ->
            length (Workshop2.ov_id <$> Workshop2.objectifs_vises st) = S total) as Hlo
    by (intros total <-; apply length_fmap).
  unfold Workshop2._calculate_coverage_rate.
  change (String.eqb "sources" "sources") with true.
  change (String.eqb "objectifs" "sources") with false.
  cbv iota beta.
  repeat split.
  - destruct (String.eqb type_entity "sources").
    + destruct (length (Workshop2.sources_risque st)) as [|total] eqn:Hlen; [lra|].
      apply (coverage_generic _ _ total (Hls total eq_refl) Hnds Hsubs).
    + destruct (length (Workshop2.objectifs_vises st)) as [|total] eqn:Hlen; [lra|].
      apply (coverage_generic _ _ total (Hlo total eq_refl) Hndo Hsubo).
  - destruct (String.eqb type_entity "sources").
    + destruct (length (Workshop2.sources_risque st)) as [|total] eqn:Hlen; [lra|].
      apply (coverage_generic _ _ total (Hls total eq_refl) Hnds Hsubs).
    + destruct (length (Workshop2.objectifs_vises st)) as [|total] eqn:Hlen; [lra|].
      apply (coverage_generic _ _ total (Hlo total eq_refl) Hndo Hsubo).
  - intros Hempty. rewrite Hempty in *.
    destruct (String.eqb type_entity "sources").
    + destruct (length (Workshop2.sources_risque st)) as [|total] eqn:Hlen; [reflexivity|].
      apply (coverage_generic _ [] total (Hls total eq_refl) Hnds Hsubs). reflexivity.
    + destruct (length (Workshop2.objectifs_vises st)) as [|total] eqn:Hlen; [reflexivity|].
      apply (coverage_generic _ [] total (Hlo total eq_refl) Hndo Hsubo). reflexivity.
  - intros ->. reflexivity.
  - intros Hne Hall.
    destruct (length (Workshop2.sources_risque st)) as [|total] eqn:Hlen.
    { destruct Hne. apply nil_length_inv, Hlen. }
    apply (coverage_generic _ _ total (Hls total eq_refl) Hnds Hsubs).
    intros x Hx. apply list_elem_of_fmap in Hx as (sr & -> & Hin). apply Hall, Hin.
  - intros Hne Hall.
    destruct (length (Workshop2.objectifs_vises st)) as [|total] eqn:Hlen.
    { destruct Hne. apply nil_length_inv, Hlen. }
    apply (coverage_generic _ _ total (Hlo total eq_refl) Hndo Hsubo).
    intros x Hx. apply list_elem_of_fmap in Hx as (ov & -> & Hin). apply Hall, Hin.
Qed.

Lemma calculate_coverage_rate_bounds_witness :
  (0 <= Workshop2._calculate_coverage_rate "sources" (Workshop2.run session_cartographie))%Q /\
  Workshop2._calculate_coverage_rate "sources" (Workshop2.run session_cartographie) == 100 /\
  Workshop2._calculate_coverage_rate "objectifs" (Workshop2.run session_cartographie) == 100.
Proof.
  assert (Workshop2.reachable (Workshop2.run session_cartographie)) as Hreach
    by (exists session_cartographie; reflexivity).
  destruct (calculate_coverage_rate_bounds (Workshop2.run session_cartographie) "sources" Hreach)
    as (H0 & _ & _ & _ & Hs & Ho).
  split; [exact H0|]. split.
  - apply Hs; [vm_compute; discriminate|].
    intros sr Hin. vm_compute in Hin |- *.
    repeat (apply elem_of_cons in Hin as [->|Hin];
      [simpl; solve [repeat first [apply list_elem_of_here|apply list_elem_of_further]]|]).
    apply elem_of_nil in Hin. destruct Hin.
  - apply Ho; [vm_compute; discriminate|].
    intros ov Hin. vm_compute in Hin |- *.
    repeat (apply elem_of_cons in Hin as [->|Hin];
      [simpl; solve [repeat first [apply list_elem_of_here|apply list_elem_of_further]]|]).
    apply elem_of_nil in Hin. destruct Hin.
Defined.

Lemma resolves_nonempty st relation :
  resolves st relation ->
  Workshop2.sources_risque st <> [] /\ Workshop2.objectifs_vises st <> [].
Proof.
  unfold resolves, Workshop2.find_source, Workshop2.find_objectif.
  intros [[sr Hsr] [ov Hov]]. split; intros Hnil; rewrite Hnil in *; discriminate.
Qed.

(** X14. [validate_assessment] reports the workshop valid exactly when no
    error is listed, that is when there is at least one source, one
    objective and one mapping entry.  In a state reached from a fresh
    workshop a mapping entry can only exist beside a source and an
    objective, so the workshop is valid exactly when the mapping is not
    empty; with an empty mapping the missing-mapping error is listed and
    both coverage warnings are raised. *)
Theorem validate_assessment_valid (st : Workshop2.Assessment) :
  (Workshop2.valid (Workshop2.validate_assessment st) = true
   <-> Workshop2.errors (Workshop2.validate_assessment st) = []) /\
  (Workshop2.valid (Workshop2.validate_assessment st) = true
   <-> Workshop2.sources_risque st <> [] /\ Workshop2.objectifs_vises st <> [] /\
       Workshop2.cartographie_sr_ov st <> []) /\
  (Workshop2.reachable st ->
   (Workshop2.valid (Workshop2.validate_assessment st) = true
    <-> Workshop2.cartographie_sr_ov st <> [])) /\
  (Workshop2.cartographie_sr_ov st = [] ->
   "Aucune cartographie SR×OV réalisée" ∈ Workshop2.errors (Workshop2.validate_assessment st) /\
   "Couverture des sources de risque faible: 0.0%"
     ∈ Workshop2.warnings (Workshop2.validate_assessment st) /\
   "Couverture des objectifs visés faible: 0.0%"
     ∈ Workshop2.warnings (Workshop2.validate_assessment st)).
Proof.
  assert (Workshop2.valid (Workshop2.validate_assessment st) = true
          <-> Workshop2.sources_risque st <> [] /\ Workshop2.objectifs_vises st <> [] /\
              Workshop2.cartographie_sr_ov st <> []) as Hvalid.
  { unfold Workshop2.validate_assessment. cbn [Workshop2.valid].
    destruct (Workshop2.sources_risque st), (Workshop2.objectifs_vises st),
      (Workshop2.cartographie_sr_ov st); simpl; split;
      try discriminate; try (intros (? & ? & ?); congruence);
      intros _; repeat split; discriminate. }
  split; [|split; [exact Hvalid|split]].
  - unfold Workshop2.validate_assessment. cbn [Workshop2.valid Workshop2.errors].
    destruct (Workshop2.sources_risque st), (Workshop2.objectifs_vises st),
      (Workshop2.cartographie_sr_ov st); simpl; split; (discriminate || reflexivity).
  - intros Hreach. rewrite Hvalid. split; [intros (_ & _ & H); exact H|].
    intros Hne. destruct (reachable_cartographie_ok st Hreach) as [_ _ Hres _ _ _].
    destruct (Workshop2.cartographie_sr_ov st) as [|r rs] eqn:Hc; [destruct Hne; reflexivity|].
    apply Forall_cons in Hres as [Hr _].
    destruct (resolves_nonempty st r Hr) as [Hs Ho]. repeat split; assumption.
  - intros Hempty.
    assert (forall t, Workshop2._calculate_coverage_rate t st == 0) as Hcov.
    { intros t. unfold Workshop2._calculate_coverage_rate. rewrite Hempty.
      destruct (String.eqb t "sources"); simpl;
        [destruct (length (Workshop2.sources_risque st))
        |destruct (length (Workshop2.objectifs_vises st))];
        try reflexivity; apply (round_nd_inject_Z _ 1 0);
        change (inject_Z 0) with 0%Q; unfold Qdiv; ring. }
    assert (forall t, Qle_bool 80 (Workshop2._calculate_coverage_rate t st) = false) as Hlow.
    { intros t. destruct (Qle_bool 80 _) eqn:Hle; [|reflexivity].
      apply Qle_bool_iff in Hle. rewrite Hcov in Hle. exfalso. revert Hle. clear. lra. }
    assert (forall t, Py.str_1dec (Workshop2._calculate_coverage_rate t st) = "0.0") as Hstr.
    { intros t. unfold Py.str_1dec.
      assert (Qfloor (Workshop2._calculate_coverage_rate t st * 10) = 0) as ->; [|reflexivity].
      rewrite (Qfloor_comp _ 0); [reflexivity|]. rewrite Hcov. reflexivity. }
    unfold Workshop2.validate_assessment.
    cbn [Workshop2.errors Workshop2.warnings]. rewrite Hempty, !Hlow, !Hstr.
    cbn [length Nat.eqb negb]. split; [|split].
    + rewrite !elem_of_app. right. right. apply list_elem_of_here.
    + rewrite !elem_of_app. right. right. left. apply list_elem_of_here.
    + rewrite !elem_of_app. right. right. right. apply list_elem_of_here.
Qed.

(** ** Workshop 2: capability of a source and gravity of a mapping *)

(** The capability level on the scale, by the sum of the three ratings. *)
Lemma capacite_level_by_sum ressources determination competences :
  in_scale ressources -> in_scale determination -> in_scale competences ->
  Workshop2._get_capacite_level
    (Py.round_nd (inject_Z (ressources + determination + competences) / 3) 1)
  = if ressources + determination + competences <=? 4 then "Faible"
    else if ressources + determination + competences <=? 7 then "Moyen"
    else if ressources + determination + competences <=? 10 then "Fort"
    else "Très fort".
Proof.
  intros Hr Hd Hc.
  destruct (in_scale_cases _ Hr) as [H1|[H1|[H1|H1]]]; rewrite H1;
    destruct (in_scale_cases _ Hd) as [H2|[H2|[H2|H2]]]; rewrite H2;
    destruct (in_scale_cases _ Hc) as [H3|[H3|[H3|H3]]]; rewrite H3;
    vm_compute; reflexivity.
Qed.

(** X15. [add_source_risque] with three ratings between 1 and 4 appends a
    source numbered after the sources already there, leaves the rest of the
    state alone, and gives it a capability between 1 and 4 whose level
    depends only on the sum of the ratings: up to 4 weak, 5 to 7 medium,
    8 to 10 strong, 11 and 12 very strong. *)
Theorem add_source_risque_levels
    (st : Workshop2.Assessment) (nom type_sr : string)
    (ressources determination competences : Z) :
  in_scale ressources -> in_scale determination -> in_scale competences ->
  exists sr,
    Workshop2.add_source_risque nom type_sr ressources determination competences st
    = (Ok sr,
       {| Workshop2.sources_risque := Workshop2.sources_risque st ++ [sr];
          Workshop2.objectifs_vises := Workshop2.objectifs_vises st;
          Workshop2.cartographie_sr_ov := Workshop2.cartographie_sr_ov st;
          Workshop2.scenarios_strategiques := Workshop2.scenarios_strategiques st |}) /\
    Workshop2.sr_id sr = "SR" +:+ pretty (length (Workshop2.sources_risque st) + 1)%nat /\
    (1 <= Workshop2.sr_capacite_globale sr)%Q /\
    (Workshop2.sr_capacite_globale sr <= 4)%Q /\
    Workshop2.sr_niveau sr
    = (if ressources + determination + competences <=? 4 then "Faible"
       else if ressources + determination + competences <=? 7 then "Moyen"
       else if ressources + determination + competences <=? 10 then "Fort"
       else "Très fort").
Proof.
  intros Hr Hd Hc. unfold Workshop2.add_source_risque.
  assert (forallb (fun x => (1 <=? x) && (x <=? 4))
                  [ressources; determination; competences] = true) as ->.
  { unfold in_scale in *. simpl. rewrite !andb_true_iff, !Z.leb_le. lia. }
  cbn [negb]. eexists. split; [reflexivity|].
  cbn [Workshop2.sr_id Workshop2.sr_capacite_globale Workshop2.sr_niveau].
  split; [reflexivity|].
  destruct (round_nd_bounds
              (inject_Z (ressources + determination + competences) / 3) 1 1 4) as [Hlo Hhi].
  { apply Qle_shift_div_l; [reflexivity|].
    change (inject_Z 1 * 3)%Q with (inject_Z 3). rewrite <- Zle_Qle.
    unfold in_scale in *. lia. }
  { apply Qle_shift_div_r; [reflexivity|].
    change (inject_Z 4 * 3)%Q with (inject_Z 12). rewrite <- Zle_Qle.
    unfold in_scale in *. lia. }
  split; [exact Hlo|]. split; [exact Hhi|].
  apply capacite_level_by_sum; assumption.
Qed.

Lemma add_source_risque_levels_witness :
  exists sr,
    Workshop2.add_source_risque "Groupe APT" "État-nation" 4 4 3 Workshop2.init
    = (Ok sr,
       {| Workshop2.sources_risque := Workshop2.sources_risque Workshop2.init ++ [sr];
          Workshop2.objectifs_vises := Workshop2.objectifs_vises Workshop2.init;
          Workshop2.cartographie_sr_ov := Workshop2.cartographie_sr_ov Workshop2.init;
          Workshop2.scenarios_strategiques :=
            Workshop2.scenarios_strategiques Workshop2.init |}) /\
    Workshop2.sr_id sr
    = "SR" +:+ pretty (length (Workshop2.sources_risque Workshop2.init) + 1)%nat /\
    (1 <= Workshop2.sr_capacite_globale sr)%Q /\
    (Workshop2.sr_capacite_globale sr <= 4)%Q /\
    Workshop2.sr_niveau sr
    = (if 4 + 4 + 3 <=? 4 then "Faible"
       else if 4 + 4 + 3 <=? 7 then "Moyen"
       else if 4 + 4 + 3 <=? 10 then "Fort"
       else "Très fort").
Proof.
  apply (add_source_risque_levels Workshop2.init "Groupe APT" "État-nation" 4 4 3);
    unfold in_scale; lia.
Defined.

(** X16. The gravity [map_sr_to_ov] gives a mapping is always between 1 and
    4, and it never decreases when the capability of the source, the
    relevance or the impact of the objective increases. *)
Theorem calculate_gravite_monotone
    (capacite_sr capacite_sr' : Q) (impact_ov impact_ov' pertinence pertinence' : Z) :
  (0 <= capacite_sr)%Q -> (capacite_sr <= capacite_sr')%Q ->
  0 <= impact_ov <= impact_ov' ->
  0 <= pertinence <= pertinence' ->
  1 <= Workshop2._calculate_gravite capacite_sr impact_ov pertinence
  /\ Workshop2._calculate_gravite capacite_sr impact_ov pertinence
     <= Workshop2._calculate_gravite capacite_sr' impact_ov' pertinence'
  /\ Workshop2._calculate_gravite capacite_sr' impact_ov' pertinence' <= 4.
Proof.
  intros Hc0 Hc Hi Hp.
  assert (0 <= inject_Z impact_ov)%Q as Hi0 by (apply inject_Z_nonneg; lia).
  assert (inject_Z impact_ov <= inject_Z impact_ov')%Q as Hi1 by (rewrite <- Zle_Qle; lia).
  assert (0 <= inject_Z pertinence)%Q as Hp0 by (apply inject_Z_nonneg; lia).
  assert (inject_Z pertinence <= inject_Z pertinence')%Q as Hp1 by (rewrite <- Zle_Qle; lia).
  assert (capacite_sr * inject_Z pertinence <= capacite_sr' * inject_Z pertinence')%Q as H1.
  { apply (Qle_trans _ (capacite_sr' * inject_Z pertinence));
      [apply Qmult_le_compat_r; [exact Hc|exact Hp0]|].
    rewrite !(Qmult_comm capacite_sr'). apply Qmult_le_compat_r; [exact Hp1|lra]. }
  assert (0 <= capacite_sr * inject_Z pertinence)%Q as H10 by (apply Qmult_le_0_compat; lra).
  assert (capacite_sr * inject_Z pertinence * inject_Z impact_ov
          <= capacite_sr' * inject_Z pertinence' * inject_Z impact_ov')%Q as H2.
  { apply (Qle_trans _ (capacite_sr' * inject_Z pertinence' * inject_Z impact_ov));
      [apply Qmult_le_compat_r; [exact H1|exact Hi0]|].
    rewrite !(Qmult_comm (capacite_sr' * inject_Z pertinence')).
    apply Qmult_le_compat_r; [exact Hi1|lra]. }
  pose proof (calculate_gravite_in_scale capacite_sr impact_ov pertinence) as [Hlo _].
  pose proof (calculate_gravite_in_scale capacite_sr' impact_ov' pertinence') as [_ Hhi].
  split; [exact Hlo|]. split; [|exact Hhi].
  unfold Workshop2._calculate_gravite.
  set (score := (capacite_sr * inject_Z pertinence * inject_Z impact_ov / 10)%Q).
  set (score' := (capacite_sr' * inject_Z pertinence' * inject_Z impact_ov' / 10)%Q).
  assert (score <= score')%Q as Hs.
  { subst score score'. unfold Qdiv.
    apply Qmult_le_compat_r; [exact H2|vm_compute; discriminate]. }
  clearbody score score'.
  repeat match goal with
         | |- context [Qle_bool ?a ?b] =>
           let H := fresh "Hb" in
           destruct (Qle_bool a b) eqn:H;
           [apply Qle_bool_iff in H
           |apply not_true_iff_false in H; rewrite Qle_bool_iff in H]
         end; try lia; exfalso; lra.
Qed.

Lemma calculate_gravite_monotone_witness :
  1 <= Workshop2._calculate_gravite (17 # 10) 2 2
  /\ Workshop2._calculate_gravite (17 # 10) 2 2 <= Workshop2._calculate_gravite (37 # 10) 4 3
  /\ Workshop2._calculate_gravite (37 # 10) 4 3 <= 4.
Proof.
  apply (calculate_gravite_monotone (17 # 10) (37 # 10) 2 4 2 3);
    try lia; vm_compute; discriminate.
Defined.

(** ** Workshop 3: criticality of the stakeholders *)

(** X17. With dependence, exposure and maturity rated between 1 and 4 the
    third-party score of [add_partie_prenante] lies between -0.7 and 2.3:
    the stakeholder is rated weak or moderate, never high or critical, and
    [get_parties_prenantes_critiques] does not list it. *)
Theorem add_partie_prenante_never_critical
    (st : Workshop3.Assessment) (nom type_pp : string)
    (dependance exposition confiance maturite : Z) :
  in_scale dependance -> in_scale exposition -> in_scale maturite ->
  exists pp st',
    Workshop3.add_partie_prenante nom type_pp dependance exposition confiance maturite st
    = (Ok pp, st') /\
    (- (7 # 10) <= Workshop3.pp_score_risque_tiers pp)%Q /\
    (Workshop3.pp_score_risque_tiers pp <= 23 # 10)%Q /\
    (Workshop3.pp_niveau_criticite pp = "Faible"
     \/ Workshop3.pp_niveau_criticite pp = "Modéré") /\
    (Workshop3.pp_niveau_criticite pp = "Modéré" <-> 5 <= dependance + exposition - maturite) /\
    Workshop3.get_parties_prenantes_critiques st'
    = Workshop3.get_parties_prenantes_critiques st.
Proof.
  intros Hd He Hm. unfold Workshop3.add_partie_prenante.
  eexists _, _. split; [reflexivity|].
  cbn [Workshop3.pp_score_risque_tiers Workshop3.pp_niveau_criticite].
  assert ((- (7 # 10) <= Py.round_nd (inject_Z (dependance + exposition - maturite) / 3) 1)%Q /\
          (Py.round_nd (inject_Z (dependance + exposition - maturite) / 3) 1 <= 23 # 10)%Q /\
          (Workshop3._get_criticite_level
             (Py.round_nd (inject_Z (dependance + exposition - maturite) / 3) 1) = "Faible"
           /\ ~ 5 <= dependance + exposition - maturite
           \/ Workshop3._get_criticite_level
                (Py.round_nd (inject_Z (dependance + exposition - maturite) / 3) 1) = "Modéré"
              /\ 5 <= dependance + exposition - maturite)) as (Hlo & Hhi & Hlevel).
  { destruct (in_scale_cases _ Hd) as [H1|[H1|[H1|H1]]]; rewrite H1;
      destruct (in_scale_cases _ He) as [H2|[H2|[H2|H2]]]; rewrite H2;
      destruct (in_scale_cases _ Hm) as [H3|[H3|[H3|H3]]]; rewrite H3;
      (split; [vm_compute; discriminate|]); (split; [vm_compute; discriminate|]);
      ((left; split; [vm_compute; reflexivity|lia])
       || (right; split; [vm_compute; reflexivity|lia])). }
  split; [exact Hlo|]. split; [exact Hhi|]. split; [|split].
  - destruct Hlevel as [[-> _]|[-> _]]; [left|right]; reflexivity.
  - destruct Hlevel as [[-> Hn]|[-> Hy]]; split; try discriminate; try lia; reflexivity.
  - unfold Workshop3.get_parties_prenantes_critiques. cbn [Workshop3.parties_prenantes].
    rewrite filter_app, filter_cons, filter_nil.
    cbn [Workshop3.pp_niveau_criticite].
    rewrite decide_False; [apply app_nil_r|].
    intros Hin. destruct Hlevel as [[Hl _]|[Hl _]]; rewrite Hl in Hin;
      repeat (apply elem_of_cons in Hin as [Hin|Hin]; [discriminate|]);
      apply elem_of_nil in Hin; exact Hin.
Qed.

Lemma add_partie_prenante_never_critical_witness :
  exists pp st',
    Workshop3.add_partie_prenante "Hébergeur" "Fournisseur" 4 4 2 1 Workshop3.init
    = (Ok pp, st') /\
    (- (7 # 10) <= Workshop3.pp_score_risque_tiers pp)%Q /\
    (Workshop3.pp_score_risque_tiers pp <= 23 # 10)%Q /\
    (Workshop3.pp_niveau_criticite pp = "Faible"
     \/ Workshop3.pp_niveau_criticite pp = "Modéré") /\
    (Workshop3.pp_niveau_criticite pp = "Modéré" <-> 5 <= 4 + 4 - 1) /\
    Workshop3.get_parties_prenantes_critiques st'
    = Workshop3.get_parties_prenantes_critiques Workshop3.init.
Proof.
  apply (add_partie_prenante_never_critical Workshop3.init "Hébergeur" "Fournisseur" 4 4 2 1);
    unfold in_scale; lia.
Defined.

Lemma foldl_max_spec (x : Z) (l : list Z) :
  foldl Z.max x l ∈ x :: l /\ forall y, y ∈ x :: l -> y <= foldl Z.max x l.
Proof.
  revert x. induction l as [|z l IH]; intros x; simpl.
  - split; [apply list_elem_of_here|].
    intros y Hy. apply list_elem_of_singleton in Hy. lia.
  - destruct (IH (Z.max x z)) as [Hin Hmax]. split.
    + apply elem_of_cons in Hin as [Heq|Hin].
      * rewrite Heq. destruct (Z.max_spec x z) as [[_ ->]|[_ ->]];
          [apply list_elem_of_further|]; apply list_elem_of_here.
      * do 2 apply list_elem_of_further. exact Hin.
    + intros y Hy.
      assert (Z.max x z <= foldl Z.max (Z.max x z) l) as Hxz
        by (apply Hmax, list_elem_of_here).
      apply elem_of_cons in Hy as [->|Hy]; [lia|].
      apply elem_of_cons in Hy as [->|Hy]; [lia|].
      apply Hmax, list_elem_of_further, Hy.
Qed.

(** X18. [enrich_scenario_strategique] appends a scenario numbered after the
    enriched scenarios already there.  Identifiers of [pp_ids] that match no
    stakeholder are ignored: when none matches, the ecosystem gravity is 0
    and the level is the weakest one; otherwise the gravity is the greatest
    exposure among the stakeholders listed, and it stays between 1 and 4
    when these were rated on the scale. *)
Theorem enrich_scenario_strategique_gravite
    (st : Workshop3.Assessment) (enrichis : list Workshop3.ScenarioEnrichi)
    (scenario_id : string) (pp_ids : list string) (chemin_attaque : string) :
  exists sse,
    Workshop3.enrich_scenario_strategique scenario_id pp_ids chemin_attaque (st, enrichis)
    = (Ok sse, (st, enrichis ++ [sse])) /\
    Workshop3.sse_id sse = "SSE" +:+ pretty (length enrichis + 1)%nat /\
    Workshop3.sse_niveau_risque sse
    = Workshop3._calculate_risk_ecosystem (Workshop3.sse_gravite_ecosysteme sse) /\
    (filter (fun pp => Workshop3.pp_id pp ∈ pp_ids) (Workshop3.parties_prenantes st) = [] ->
     Workshop3.sse_gravite_ecosysteme sse = 0 /\ Workshop3.sse_niveau_risque sse = "Faible") /\
    (filter (fun pp => Workshop3.pp_id pp ∈ pp_ids) (Workshop3.parties_prenantes st) <> [] ->
     (exists pp, pp ∈ Workshop3.parties_prenantes st /\ Workshop3.pp_id pp ∈ pp_ids /\
                 Workshop3.sse_gravite_ecosysteme sse = Workshop3.pp_exposition pp) /\
     (forall pp, pp ∈ Workshop3.parties_prenantes st -> Workshop3.pp_id pp ∈ pp_ids ->
                 Workshop3.pp_exposition pp <= Workshop3.sse_gravite_ecosysteme sse) /\
     (Forall rated_in_scale (Workshop3.parties_prenantes st) ->
      in_scale (Workshop3.sse_gravite_ecosysteme sse))).
Proof.
  unfold Workshop3.enrich_scenario_strategique.
  eexists. split; [reflexivity|].
  cbn [Workshop3.sse_id Workshop3.sse_niveau_risque Workshop3.sse_gravite_ecosysteme].
  split; [reflexivity|]. split; [reflexivity|].
  set (impliquees := filter (fun pp => Workshop3.pp_id pp ∈ pp_ids)
                            (Workshop3.parties_prenantes st)).
  split.
  - intros ->. split; reflexivity.
  - intros Hne.
    assert (exists pp, pp ∈ impliquees /\
              Workshop3.max_default0 (Workshop3.pp_exposition <$> impliquees)
              = Workshop3.pp_exposition pp) as (pp0 & Hin0 & Hmax0).
    { destruct impliquees as [|pp l]; [destruct Hne; reflexivity|].
      rewrite fmap_cons. unfold Workshop3.max_default0.
      destruct (foldl_max_spec (Workshop3.pp_exposition pp) (Workshop3.pp_exposition <$> l))
        as [Hin _].
      rewrite <- fmap_cons in Hin. apply list_elem_of_fmap in Hin as (pp0 & Heq & Hin).
      exists pp0. split; [exact Hin|exact Heq]. }
    assert (forall pp, pp ∈ impliquees ->
              Workshop3.pp_exposition pp
              <= Workshop3.max_default0 (Workshop3.pp_exposition <$> impliquees)) as Hge.
    { intros pp Hin. destruct impliquees as [|pp1 l]; [destruct Hne; reflexivity|].
      rewrite fmap_cons. unfold Workshop3.max_default0.
      apply foldl_max_spec. rewrite <- fmap_cons.
      apply list_elem_of_fmap. exists pp. split; [reflexivity|exact Hin]. }
    subst impliquees. apply list_elem_of_filter in Hin0 as [Hid0 Hin0].
    split; [exists pp0; repeat split; assumption|]. split.
    + intros pp Hin Hid. apply Hge, list_elem_of_filter. split; assumption.
    + intros Hall. rewrite Hmax0. rewrite Forall_forall in Hall.
      destruct (Hall pp0 Hin0) as (_ & He & _). exact He.
Qed.

(** ** Workshop 4: likelihood of an action *)

Lemma Qle_bool_half (k : Z) (n : positive) :
  Qle_bool (inject_Z k / 2) (Zpos n # 2) = (k <=? Zpos n).
Proof.
  apply eq_iff_eq_true. rewrite Qle_bool_iff, Z.leb_le.
  unfold Qle. simpl. lia.
Qed.

(** The likelihood of an action by the sum of its two ratings. *)
Lemma calculate_vraisemblance_action_by_sum difficulte detectabilite :
  Workshop4._calculate_vraisemblance_action difficulte detectabilite
  = if 7 <=? difficulte + detectabilite then 1
    else if 5 <=? difficulte + detectabilite then 2
    else if 3 <=? difficulte + detectabilite then 3
    else 4.
Proof.
  unfold Workshop4._calculate_vraisemblance_action. cbv zeta.
  rewrite !Qle_bool_half.
  repeat match goal with |- context [?a <=? ?b] => destruct (Z.leb_spec a b) end; lia.
Qed.

(** X19. The likelihood [_calculate_vraisemblance_action] gives an action
    depends only on the sum of difficulty and detectability: 1 from a sum of
    7, 2 for 5 and 6, 3 for 3 and 4, 4 below.  It is always between 1 and 4,
    and raising the difficulty or the detectability never raises it. *)
Theorem calculate_vraisemblance_action_antitone
    (difficulte detectabilite difficulte' detectabilite' : Z) :
  difficulte <= difficulte' -> detectabilite <= detectabilite' ->
  Workshop4._calculate_vraisemblance_action difficulte detectabilite
  = (if 7 <=? difficulte + detectabilite then 1
     else if 5 <=? difficulte + detectabilite then 2
     else if 3 <=? difficulte + detectabilite then 3
     else 4) /\
  1 <= Workshop4._calculate_vraisemblance_action difficulte' detectabilite' /\
  Workshop4._calculate_vraisemblance_action difficulte' detectabilite'
  <= Workshop4._calculate_vraisemblance_action difficulte detectabilite /\
  Workshop4._calculate_vraisemblance_action difficulte detectabilite <= 4.
Proof.
  intros Hd Hdet. split; [apply calculate_vraisemblance_action_by_sum|].
  rewrite !calculate_vraisemblance_action_by_sum.
  repeat match goal with |- context [?a <=? ?b] => destruct (Z.leb_spec a b) end; lia.
Qed.

Lemma calculate_vraisemblance_action_antitone_witness :
  Workshop4._calculate_vraisemblance_action 1 2
  = (if 7 <=? 1 + 2 then 1 else if 5 <=? 1 + 2 then 2 else if 3 <=? 1 + 2 then 3 else 4) /\
  1 <= Workshop4._calculate_vraisemblance_action 3 4 /\
  Workshop4._calculate_vraisemblance_action 3 4
  <= Workshop4._calculate_vraisemblance_action 1 2 /\
  Workshop4._calculate_vraisemblance_action 1 2 <= 4.
Proof. apply (calculate_vraisemblance_action_antitone 1 2 3 4); lia. Defined.

(** ** Workshop 4: reduction by the existing measures *)

Lemma sumQ_nonneg (l : list Q) : Forall (fun x => (0 <= x)%Q) l -> (0 <= Py.sumQ l)%Q.
Proof.
  induction 1 as [|x l Hx _ IH]; [unfold Py.sumQ; simpl; lra|].
  rewrite sumQ_cons. lra.
Qed.

Lemma reduction_hits_nonneg st action_ids :
  efficacites_positives st ->
  Forall (fun x => (0 <= x)%Q) ((Workshop4.reduction_hits st action_ids).*2).
Proof.
  unfold efficacites_positives, Workshop4.reduction_hits.
  induction 1 as [|m l Hm _ IH]; [constructor|].
  simpl. rewrite fmap_app. apply Forall_app. split; [|exact IH].
  rewrite <- list_fmap_compose. apply Forall_fmap, Forall_forall.
  intros x _. exact Hm.
Qed.

(** The reduction is at most 0.9; it is not negative when no efficacy is. *)
Lemma calculate_risk_reduction_bounds st action_ids :
  (Workshop4._calculate_risk_reduction st action_ids <= 9 # 10)%Q /\
  (efficacites_positives st -> (0 <= Workshop4._calculate_risk_reduction st action_ids)%Q).
Proof.
  unfold Workshop4._calculate_risk_reduction.
  destruct (Workshop4.mesures_existantes st) as [|m ms] eqn:Hm;
    [split; [vm_compute; discriminate|intros _; lra]|].
  cbv zeta.
  destruct (remove_dups ((Workshop4.reduction_hits st action_ids).*1)) as [|a covered] eqn:Hc;
    [split; [vm_compute; discriminate|intros _; lra]|].
  split; [apply Q.le_min_l|].
  intros Hpos. apply Q.min_glb; [vm_compute; discriminate|].
  pose proof (sumQ_nonneg _ (reduction_hits_nonneg st action_ids Hpos)) as Hsum.
  assert (0 < inject_Z (Z.of_nat (length (a :: covered))))%Q as Hlen
    by (apply inject_Z_pos; simpl; lia).
  apply Qmult_le_0_compat.
  - destruct action_ids as [|x xs]; [lra|].
    apply Qle_shift_div_l; [apply inject_Z_pos; simpl; lia|]. lra.
  - apply Qle_shift_div_l; [exact Hlen|]. lra.
Qed.

Lemma filter_none {A} (P : A -> Prop) `{!forall x, Decision (P x)} (l : list A) :
  (forall x, x ∈ l -> ~ P x) -> filter P l = [].
Proof.
  induction l as [|x l IH]; intros Hall; [reflexivity|].
  rewrite filter_cons_False by apply Hall, list_elem_of_here.
  apply IH. intros y Hy. apply Hall, list_elem_of_further, Hy.
Qed.

(** X20. [_calculate_risk_reduction] never returns more than 0.9, and
    never less than 0 when no measure has a negative efficacy.  It returns
    0 when there is no measure, and when no measure covers any of the
    actions asked for. *)
Theorem calculate_risk_reduction_range
    (st : Workshop4.Assessment) (action_ids : list string) :
  efficacites_positives st ->
  (0 <= Workshop4._calculate_risk_reduction st action_ids)%Q /\
  (Workshop4._calculate_risk_reduction st action_ids <= 9 # 10)%Q /\
  ((forall m action_id,
      m ∈ Workshop4.mesures_existantes st -> action_id ∈ action_ids ->
      action_id ∉ Workshop4.me_actions_couvertes m) ->
   Workshop4._calculate_risk_reduction st action_ids = 0%Q).
Proof.
  intros Hpos. destruct (calculate_risk_reduction_bounds st action_ids) as [Hhi Hlo].
  split; [exact (Hlo Hpos)|]. split; [exact Hhi|].
  intros Hnone. unfold Workshop4._calculate_risk_reduction.
  destruct (Workshop4.mesures_existantes st) as [|m ms] eqn:Hm; [reflexivity|].
  assert (Workshop4.reduction_hits st action_ids = []) as ->; [|reflexivity].
  unfold Workshop4.reduction_hits. rewrite Hm.
  assert (forall m', m' ∈ m :: ms ->
            filter (fun action_id => action_id ∈ Workshop4.me_actions_couvertes m') action_ids
            = []) as Hfilter.
  { intros m' Hin. apply filter_none. intros x Hx. apply (Hnone m' x); [exact Hin|exact Hx]. }
  clear Hm Hpos Hhi Hlo Hnone.
  induction (m :: ms) as [|m' l IH]; [reflexivity|].
  simpl. rewrite (Hfilter m') by apply list_elem_of_here. simpl.
  apply IH. intros m'' Hin. apply Hfilter, list_elem_of_further, Hin.
Qed.

Lemma calculate_risk_reduction_range_witness :
  (0 <= Workshop4._calculate_risk_reduction (Workshop4.run session_scenarios) ["AE1"; "AE2"])%Q /\
  (Workshop4._calculate_risk_reduction (Workshop4.run session_scenarios) ["AE1"; "AE2"]
   <= 9 # 10)%Q /\
  ((forall m action_id,
      m ∈ Workshop4.mesures_existantes (Workshop4.run session_scenarios) ->
      action_id ∈ ["AE1"; "AE2"] ->
      action_id ∉ Workshop4.me_actions_couvertes m) ->
   Workshop4._calculate_risk_reduction (Workshop4.run session_scenarios) ["AE1"; "AE2"]
   = 0%Q).
Proof.
  apply (calculate_risk_reduction_range (Workshop4.run session_scenarios) ["AE1"; "AE2"]).
  unfold efficacites_positives. vm_compute. repeat constructor. discriminate.
Defined.

(** ** Workshop 4: the rows of the synthesis *)

(** The residual risk of a row, from a reduction between 0 and 1. *)
Lemma residuel_bounds (risque_brut : Z) (reduction : Q) :
  (0 <= reduction)%Q -> (reduction <= 1)%Q ->
  1 <= Z.max 1 (Py.round (inject_Z risque_brut * (1 - reduction)))
  <= Z.max 1 risque_brut.
Proof.
  intros H0 H1. split; [lia|].
  assert (Py.round (inject_Z risque_brut * (1 - reduction)) <= Z.max 0 risque_brut) as Hle.
  { rewrite <- (round_inject_Z (Z.max 0 risque_brut)). apply round_mono.
    destruct (Z.max_spec 0 risque_brut) as [[Hlt ->]|[Hge ->]].
    - assert (0 <= inject_Z risque_brut)%Q as Hb by (apply inject_Z_nonneg; lia).
      assert (0 <= inject_Z risque_brut * reduction)%Q by (apply Qmult_le_0_compat; lra).
      lra.
    - assert (0 <= inject_Z (- risque_brut))%Q as Hb by (apply inject_Z_nonneg; lia).
      rewrite inject_Z_opp in Hb.
      assert (0 <= - inject_Z risque_brut * (1 - reduction))%Q
        by (apply Qmult_le_0_compat; lra).
      change (inject_Z 0) with 0%Q. lra. }
  lia.
Qed.

(** One turn of the loop of [synthetize_risks] appends one well-formed row
    and keeps the measures and the number of scenarios. *)
Lemma synthetize_step_rows gravite_base st i :
  efficacites_positives st ->
  Forall (row_ok gravite_base) (Workshop4.synthese_risques st) ->
  (i < length (Workshop4.scenarios_operationnels st))%nat ->
  efficacites_positives (Workshop4.synthetize_step gravite_base st i) /\
  Forall (row_ok gravite_base)
         (Workshop4.synthese_risques (Workshop4.synthetize_step gravite_base st i)) /\
  length (Workshop4.synthese_risques (Workshop4.synthetize_step gravite_base st i))
  = S (length (Workshop4.synthese_risques st)) /\
  length (Workshop4.scenarios_operationnels (Workshop4.synthetize_step gravite_base st i))
  = length (Workshop4.scenarios_operationnels st).
Proof.
  intros Hpos Hrows Hi. unfold Workshop4.synthetize_step.
  destruct (lookup_lt_is_Some_2 _ _ Hi) as [scenario0 ->].
  set (st1 := if Workshop4.so_vraisemblance scenario0 =? 0
              then snd (Workshop4.calculate_vraisemblance_scenario
                          (Workshop4.so_id scenario0) st)
              else st).
  assert (length (Workshop4.scenarios_operationnels st1)
          = length (Workshop4.scenarios_operationnels st) /\
          Workshop4.mesures_existantes st1 = Workshop4.mesures_existantes st /\
          Workshop4.synthese_risques st1 = Workshop4.synthese_risques st)
    as (Hlen & Hmes & Hsyn).
  { subst st1. destruct (Workshop4.so_vraisemblance scenario0 =? 0); [|auto].
    destruct (calculate_vraisemblance_frame st (Workshop4.so_id scenario0))
      as (Hids & _ & Hm & Hs).
    split; [|auto].
    rewrite <- (length_fmap Workshop4.so_id), Hids. apply length_fmap. }
  assert (efficacites_positives st1) as Hpos1
    by (unfold efficacites_positives; rewrite Hmes; exact Hpos).
  clearbody st1.
  destruct (lookup_lt_is_Some_2 (Workshop4.scenarios_operationnels st1) i) as [scenario ->];
    [lia|].
  cbv zeta. cbn [Workshop4.set_synthese Workshop4.mesures_existantes
                 Workshop4.synthese_risques Workshop4.scenarios_operationnels].
  split; [exact Hpos1|]. split; [|split].
  - rewrite Hsyn. apply Forall_app. split; [exact Hrows|]. constructor; [|constructor].
    destruct (calculate_risk_reduction_bounds st1
                (Workshop4.so_actions_elementaires scenario)) as [Hhi Hlo].
    specialize (Hlo Hpos1).
    unfold row_ok.
    cbn [Workshop4.rs_gravite Workshop4.rs_risque_brut Workshop4.rs_vraisemblance
         Workshop4.rs_risque_residuel Workshop4.rs_niveau Workshop4.rs_reduction_pct].
    split; [reflexivity|]. split; [reflexivity|].
    destruct (residuel_bounds (gravite_base * Workshop4.so_vraisemblance scenario)
                (Workshop4._calculate_risk_reduction st1
                   (Workshop4.so_actions_elementaires scenario))) as [Hr1 Hr2];
      [exact Hlo|lra|].
    split; [exact Hr1|]. split; [exact Hr2|]. split; [reflexivity|].
    apply (round_nd_bounds _ 1 0 90).
    + change (inject_Z 0) with 0%Q. lra.
    + change (inject_Z 90) with 90%Q. lra.
  - rewrite Hsyn, length_app. simpl. lia.
  - exact Hlen.
Qed.

Lemma synthetize_loop_rows gravite_base n st k :
  efficacites_positives st ->
  Forall (row_ok gravite_base) (Workshop4.synthese_risques st) ->
  (k + n <= length (Workshop4.scenarios_operationnels st))%nat ->
  Forall (row_ok gravite_base)
         (Workshop4.synthese_risques
            (foldl (Workshop4.synthetize_step gravite_base) st (seq k n))) /\
  length (Workshop4.synthese_risques
            (foldl (Workshop4.synthetize_step gravite_base) st (seq k n)))
  = (length (Workshop4.synthese_risques st) + n)%nat.
Proof.
  revert st k. induction n as [|n IH]; intros st k Hpos Hrows Hk.
  - simpl. split; [exact Hrows|lia].
  - simpl.
    destruct (synthetize_step_rows gravite_base st k Hpos Hrows) as (Hpos' & Hrows' & Hl & Hs);
      [lia|].
    destruct (IH (Workshop4.synthetize_step gravite_base st k) (S k) Hpos' Hrows') as [Hall Hlen];
      [rewrite Hs; lia|].
    split; [exact Hall|]. rewrite Hlen, Hl. lia.
Qed.

(** X21. With no negative efficacy among the existing measures,
    [synthetize_risks] returns and stores one row per operational scenario,
    sorted by non-increasing residual risk.  Every row carries the base
    gravity, the gross risk gravity x likelihood, a residual risk of at
    least 1 and at most the gross risk (or 1), the level of that residual
    risk, and a reduction between 0 and 90 percent. *)
Theorem synthetize_risks_rows (gravite_base : Z) (st : Workshop4.Assessment) :
  efficacites_positives st ->
  exists rows st',
    Workshop4.synthetize_risks gravite_base st = (Ok rows, st') /\
    Workshop4.synthese_risques st' = rows /\
    length rows = length (Workshop4.scenarios_operationnels st) /\
    StronglySorted residuel_desc rows /\
    Forall (row_ok gravite_base) rows.
Proof.
  intros Hpos. unfold Workshop4.synthetize_risks.
  eexists _, _. split; [reflexivity|]. split; [reflexivity|].
  destruct (synthetize_loop_rows gravite_base
              (length (Workshop4.scenarios_operationnels (Workshop4.set_synthese [] st)))
              (Workshop4.set_synthese [] st) 0) as [Hall Hlen];
    [exact Hpos|constructor|simpl; lia|].
  split; [|split].
  - rewrite (Permutation_length (sort_desc_Permutation Workshop4.rs_risque_residuel _)).
    rewrite Hlen. reflexivity.
  - apply sort_desc_sorted.
  - rewrite (sort_desc_Permutation Workshop4.rs_risque_residuel _). exact Hall.
Qed.

Lemma synthetize_risks_rows_witness :
  exists rows st',
    Workshop4.synthetize_risks 3 (Workshop4.run session_scenarios) = (Ok rows, st') /\
    Workshop4.synthese_risques st' = rows /\
    length rows = length (Workshop4.scenarios_operationnels (Workshop4.run session_scenarios)) /\
    StronglySorted residuel_desc rows /\
    Forall (row_ok 3) rows.
Proof.
  apply (synthetize_risks_rows 3 (Workshop4.run session_scenarios)).
  unfold efficacites_positives. vm_compute. repeat constructor. discriminate.
Defined.

(** ** Workshop 4: gaps and coverage *)

Lemma elem_of_flat_map {A B} (f : A -> list B) (l : list A) (y : B) :
  y ∈ flat_map f l <-> exists x, x ∈ l /\ y ∈ f x.
Proof.
  rewrite list_elem_of_In, in_flat_map. split; intros (x & Hx & Hy); exists x;
    rewrite ?list_elem_of_In in *; auto.
Qed.

(** X22. [get_gaps] lists, in the order of the catalogue, exactly the
    actions that no existing measure covers.  The coverage rate of
    [get_statistics] lies between 0 and 100: it is 100 when there is no gap,
    which includes the empty catalogue, and 0 when there are actions and no
    measure. *)
Theorem get_gaps_uncovered (st : Workshop4.Assessment) :
  Workshop4.gap_action_id <$> Workshop4.get_gaps st
  = filter (fun action_id =>
              Forall (fun m => action_id ∉ Workshop4.me_actions_couvertes m)
                     (Workshop4.mesures_existantes st))
           (Workshop4.ae_id <$> Workshop4.actions_elementaires st) /\
  Workshop4.nb_gaps (Workshop4.get_statistics st) = length (Workshop4.get_gaps st) /\
  (Workshop4.nb_gaps (Workshop4.get_statistics st)
   <= Workshop4.nb_actions_elementaires (Workshop4.get_statistics st))%nat /\
  (0 <= Workshop4.taux_couverture (Workshop4.get_statistics st))%Q /\
  (Workshop4.taux_couverture (Workshop4.get_statistics st) <= 100)%Q /\
  (Workshop4.get_gaps st = [] ->
   Workshop4.taux_couverture (Workshop4.get_statistics st) == 100) /\
  (Workshop4.mesures_existantes st = [] -> Workshop4.actions_elementaires st <> [] ->
   Workshop4.taux_couverture (Workshop4.get_statistics st) == 0).
Proof.
  assert (length (Workshop4.get_gaps st) <= length (Workshop4.actions_elementaires st))%nat
    as Hle.
  { unfold Workshop4.get_gaps. rewrite length_fmap. apply length_filter. }
  set (g := length (Workshop4.get_gaps st)) in *.
  set (n := length (Workshop4.actions_elementaires st)) in *.
  assert (Workshop4.taux_couverture (Workshop4.get_statistics st)
          = Py.round_nd ((1 - inject_Z (Z.of_nat g) / inject_Z (Z.max 1 (Z.of_nat n))) * 100) 1)
    as Htaux by reflexivity.
  assert (0 < inject_Z (Z.max 1 (Z.of_nat n)))%Q as Hden by (apply inject_Z_pos; lia).
  assert (0 <= inject_Z (Z.of_nat g))%Q as Hg0 by (apply inject_Z_nonneg; lia).
  assert (inject_Z (Z.of_nat g) <= inject_Z (Z.max 1 (Z.of_nat n)))%Q as Hg1
    by (rewrite <- Zle_Qle; lia).
  assert (0 <= inject_Z (Z.of_nat g) / inject_Z (Z.max 1 (Z.of_nat n)))%Q as Hr0
    by (apply Qle_shift_div_l; lra).
  assert (inject_Z (Z.of_nat g) / inject_Z (Z.max 1 (Z.of_nat n)) <= 1)%Q as Hr1
    by (apply Qle_shift_div_r; lra).
  split; [|split; [reflexivity|split; [exact Hle|]]].
  - unfold Workshop4.get_gaps. rewrite <- list_fmap_compose.
    clear. induction (Workshop4.actions_elementaires st) as [|a l IH]; [reflexivity|].
    rewrite fmap_cons, !filter_cons.
    destruct (decide (Workshop4.ae_id a
                      ∉ flat_map Workshop4.me_actions_couvertes
                          (Workshop4.mesures_existantes st))) as [Hnot|Hin].
    + rewrite decide_True.
      * rewrite fmap_cons, IH. reflexivity.
      * apply Forall_forall. intros m Hm Hc.
        apply Hnot, elem_of_flat_map. exists m. split; assumption.
    + rewrite decide_False; [exact IH|].
      intros Hall. apply Hin. intros Hc. rewrite Forall_forall in Hall.
      apply elem_of_flat_map in Hc as (m & Hm & Hc). exact (Hall m Hm Hc).
  - rewrite Htaux.
    destruct (round_nd_bounds
                ((1 - inject_Z (Z.of_nat g) / inject_Z (Z.max 1 (Z.of_nat n))) * 100) 1 0 100)
      as [Hlo Hhi].
    { change (inject_Z 0) with 0%Q. lra. }
    { change (inject_Z 100) with 100%Q. lra. }
    split; [exact Hlo|]. split; [exact Hhi|]. split.
    + intros Hnil. apply (round_nd_inject_Z _ 1 100).
      subst g. rewrite Hnil. simpl length. change (inject_Z (Z.of_nat 0)) with 0%Q.
      change (inject_Z 100) with 100%Q. field. lra.
    + intros Hmes Hact. apply (round_nd_inject_Z _ 1 0).
      assert (g = n) as ->.
      { subst g n. unfold Workshop4.get_gaps. rewrite Hmes, length_fmap. simpl.
        rewrite filter_all; [reflexivity|].
        apply Forall_forall. intros a _. apply not_elem_of_nil. }
      assert (Z.max 1 (Z.of_nat n) = Z.of_nat n) as ->.
      { subst n. destruct (Workshop4.actions_elementaires st); [destruct Hact; reflexivity|].
        simpl length. lia. }
      assert (0 < inject_Z (Z.of_nat n))%Q as Hn.
      { apply inject_Z_pos. subst n.
        destruct (Workshop4.actions_elementaires st); [destruct Hact; reflexivity|].
        simpl length. lia. }
      change (inject_Z 0) with 0%Q. field. lra.
Qed.

(** ** Workshop 5: budget, residual entries and acceptances *)














(** ** Workshop 5: the phases of the plan *)

Lemma create_phases_loop (mesures : list Workshop5.Mesure) (n1 n2 n3 : string)
    (l1 l2 l3 : list string) :
  foldl (fun phases mesure =>
           if Workshop5.mt_delai_mise_en_oeuvre mesure <=? 90
           then alter (Workshop5.phase_append (Workshop5.mt_id mesure)) 0%nat phases
           else if Workshop5.mt_delai_mise_en_oeuvre mesure <=? 180
           then alter (Workshop5.phase_append (Workshop5.mt_id mesure)) 1%nat phases
           else alter (Workshop5.phase_append (Workshop5.mt_id mesure)) 2%nat phases)
        [ {| Workshop5.ph_nom := n1; Workshop5.ph_mesures := l1 |};
          {| Workshop5.ph_nom := n2; Workshop5.ph_mesures := l2 |};
          {| Workshop5.ph_nom := n3; Workshop5.ph_mesures := l3 |} ] mesures
  = [ {| Workshop5.ph_nom := n1;
         Workshop5.ph_mesures :=
           l1 ++ (Workshop5.mt_id
                  <$> filter (fun m => Workshop5.mt_delai_mise_en_oeuvre m <= 90) mesures) |};
      {| Workshop5.ph_nom := n2;
         Workshop5.ph_mesures :=
           l2 ++ (Workshop5.mt_id
                  <$> filter (fun m => 90 < Workshop5.mt_delai_mise_en_oeuvre m <= 180)
                             mesures) |};
      {| Workshop5.ph_nom := n3;
         Workshop5.ph_mesures :=
           l3 ++ (Workshop5.mt_id
                  <$> filter (fun m => 180 < Workshop5.mt_delai_mise_en_oeuvre m) mesures) |} ].
Proof.
  revert l1 l2 l3. induction mesures as [|m mesures IH]; intros l1 l2 l3.
  - simpl. rewrite ?filter_nil, ?fmap_nil, ?app_nil_r. reflexivity.
  - cbn [foldl]. rewrite !filter_cons.
    destruct (Z.leb_spec (Workshop5.mt_delai_mise_en_oeuvre m) 90) as [H90|H90];
      [|destruct (Z.leb_spec (Workshop5.mt_delai_mise_en_oeuvre m) 180) as [H180|H180]].
    + rewrite decide_True by lia. rewrite decide_False by lia. rewrite decide_False by lia.
      cbn [alter list_alter]. unfold Workshop5.phase_append at 4.
      cbn [Workshop5.ph_nom Workshop5.ph_mesures].
      rewrite IH, fmap_cons, <- app_assoc. reflexivity.
    + rewrite decide_False by lia. rewrite decide_True by lia. rewrite decide_False by lia.
      cbn [alter list_alter]. unfold Workshop5.phase_append at 4.
      cbn [Workshop5.ph_nom Workshop5.ph_mesures].
      rewrite IH, fmap_cons, <- app_assoc. reflexivity.
    + rewrite decide_False by lia. rewrite decide_False by lia. rewrite decide_True by lia.
      cbn [alter list_alter]. unfold Workshop5.phase_append at 4.
      cbn [Workshop5.ph_nom Workshop5.ph_mesures].
      rewrite IH, fmap_cons, <- app_assoc. reflexivity.
Qed.

Lemma three_way_split {A} (f : A -> Z) (l : list A) :
  l ≡ₚ filter (fun m => f m <= 90) l ++ filter (fun m => 90 < f m <= 180) l
       ++ filter (fun m => 180 < f m) l.
Proof.
  induction l as [|x l IH]; [reflexivity|].
  rewrite !filter_cons.
  destruct (decide (f x <= 90)); [|destruct (decide (f x <= 180))].
  - rewrite decide_False by lia. rewrite decide_False by lia.
    simpl. constructor. exact IH.
  - rewrite decide_True by lia. rewrite decide_False by lia.
    simpl. rewrite <- Permutation_middle. constructor. exact IH.
  - rewrite decide_False by lia. rewrite decide_True by lia.
    rewrite app_assoc, <- Permutation_middle, <- app_assoc. constructor. exact IH.
Qed.

(** X26. [_create_phases] returns the three phases of the plan, in order.
    Each phase lists, in the order given, the identifiers of the measures
    of its band of delay: up to 90 days (a negative delay included), 91 to
    180 days, and more than 180 days, without an upper limit.  So every
    measure is in exactly one phase. *)
Theorem create_phases_partition (mesures : list Workshop5.Mesure) :
  exists p1 p2 p3,
    Workshop5._create_phases mesures
    = [ {| Workshop5.ph_nom := "Phase 1 - Urgences (0-3 mois)";
           Workshop5.ph_mesures := p1 |};
        {| Workshop5.ph_nom := "Phase 2 - Court terme (3-6 mois)";
           Workshop5.ph_mesures := p2 |};
        {| Workshop5.ph_nom := "Phase 3 - Moyen terme (6-12 mois)";
           Workshop5.ph_mesures := p3 |} ] /\
    p1 = Workshop5.mt_id
         <$> filter (fun m => Workshop5.mt_delai_mise_en_oeuvre m <= 90) mesures /\
    p2 = Workshop5.mt_id
         <$> filter (fun m => 90 < Workshop5.mt_delai_mise_en_oeuvre m <= 180) mesures /\
    p3 = Workshop5.mt_id
         <$> filter (fun m => 180 < Workshop5.mt_delai_mise_en_oeuvre m) mesures /\
    Workshop5.mt_id <$> mesures ≡ₚ p1 ++ p2 ++ p3.
Proof.
  eexists _, _, _. split.
  { unfold Workshop5._create_phases. cbv zeta. rewrite create_phases_loop.
    rewrite !app_nil_l. reflexivity. }
  repeat (split; [reflexivity|]).
  rewrite <- !fmap_app. apply fmap_Permutation, three_way_split.
Qed.

(** ** The extended score of the calculator *)

Lemma calculate_risk_score_extended_in_scale gravite vraisemblance :
  in_scale gravite -> in_scale vraisemblance ->
  exists e,
    RiskCalculator.calculate_risk_score_extended gravite vraisemblance = Ok e /\
    RiskCalculator.se_score e = spec_matrix gravite vraisemblance /\
    RiskCalculator.se_niveau e = spec_level (spec_matrix gravite vraisemblance) /\
    RiskCalculator.se_priorite e = 4 - spec_matrix gravite vraisemblance /\
    RiskCalculator.se_gravite e = gravite /\
    RiskCalculator.se_vraisemblance e = vraisemblance.
Proof.
  intros Hg Hv. unfold RiskCalculator.calculate_risk_score_extended.
  rewrite (calculate_risk_level_in_scale _ _ Hg Hv).
  destruct (in_scale_cases _ Hg) as [->|[->|[->| ->]]];
    destruct (in_scale_cases _ Hv) as [->|[->|[->| ->]]];
    eexists; repeat split; reflexivity.
Qed.

(** X27. Inside the scale [calculate_risk_score_extended] returns the score
    and level of the matrix with the priority 4 - score, from 0 (urgent) for
    a score of 4 to 3 for a score of 1: raising the gravity or the
    likelihood never makes the priority less urgent.  Outside the scale it
    raises [ValueError] as [calculate_risk_level] does. *)
Theorem calculate_risk_score_extended_priority (g v g' v' : Z) :
  in_scale g -> in_scale v -> in_scale g' -> in_scale v' ->
  g <= g' -> v <= v' ->
  exists e e',
    RiskCalculator.calculate_risk_score_extended g v = Ok e /\
    RiskCalculator.calculate_risk_score_extended g' v' = Ok e' /\
    RiskCalculator.se_score e = spec_matrix g v /\
    RiskCalculator.se_niveau e = spec_level (spec_matrix g v) /\
    RiskCalculator.se_priorite e = 4 - RiskCalculator.se_score e /\
    0 <= RiskCalculator.se_priorite e' /\
    RiskCalculator.se_priorite e' <= RiskCalculator.se_priorite e /\
    RiskCalculator.se_priorite e <= 3 /\
    (forall x y, ~ (in_scale x /\ in_scale y) ->
                 exists msg, RiskCalculator.calculate_risk_score_extended x y
                             = Raise (ValueError msg)).
Proof.
  intros Hg Hv Hg' Hv' Hle Hle'.
  destruct (calculate_risk_score_extended_in_scale g v Hg Hv)
    as (e & He & Hs & Hn & Hp & _).
  destruct (calculate_risk_score_extended_in_scale g' v' Hg' Hv')
    as (e' & He' & Hs' & _ & Hp' & _).
  pose proof (spec_matrix_monotone g v g' v' Hg Hv Hg' Hv' Hle Hle') as Hmono.
  pose proof (spec_matrix_in_scale g v Hg Hv) as Hin.
  pose proof (spec_matrix_in_scale g' v' Hg' Hv') as Hin'.
  unfold in_scale in Hin, Hin'.
  exists e, e'. rewrite Hs, Hp, Hp'.
  repeat (split; [first [assumption|reflexivity|lia]|]).
  intros x y Hout. unfold RiskCalculator.calculate_risk_score_extended.
  destruct (calculate_risk_level_out_of_scale x y Hout) as [msg ->].
  exists msg. reflexivity.
Qed.

Lemma calculate_risk_score_extended_priority_witness :
  exists e e',
    RiskCalculator.calculate_risk_score_extended 2 3 = Ok e /\
    RiskCalculator.calculate_risk_score_extended 3 4 = Ok e' /\
    RiskCalculator.se_score e = spec_matrix 2 3 /\
    RiskCalculator.se_niveau e = spec_level (spec_matrix 2 3) /\
    RiskCalculator.se_priorite e = 4 - RiskCalculator.se_score e /\
    0 <= RiskCalculator.se_priorite e' /\
    RiskCalculator.se_priorite e' <= RiskCalculator.se_priorite e /\
    RiskCalculator.se_priorite e <= 3 /\
    (forall x y, ~ (in_scale x /\ in_scale y) ->
                 exists msg, RiskCalculator.calculate_risk_score_extended x y
                             = Raise (ValueError msg)).
Proof.
  apply (calculate_risk_score_extended_priority 2 3 3 4); unfold in_scale; lia.
Defined.
